(** * env_canada: a shallow embedding of the data retrieval classes

    The development follows the four source files of the package:
    [ec_cache.py] (module [ECCache]), [ec_hydro.py] (module [ECHydro]),
    [ec_aqhi.py] (module [ECAQHI]) and [ec_data.py] (module [ECData]).

    Python objects are records of their attributes, dictionaries are
    [gmap]s, statements that mutate [self] are steps of a state and
    exception monad in which an exception keeps the assignments made
    before it was raised.  Third-party primitives (the HTTP transport, the
    XML and CSV tokenizers, [float], the geodesic distance, the message
    bus) are fields of a record of primitives the embedded code calls in
    the order of the source. *)

From Stdlib Require Import QArith ZArith Ascii String List Lia Bool Permutation.
From stdpp Require Import gmap strings list fin_maps.

Local Open Scope string_scope.

(** ** Python prelude *)

Module Py.

(** The exception classes that the modelled code can raise. *)
Inductive exn : Type :=
| RequestException
| UnicodeDecodeError
| ParseError
| AttributeError
| KeyError
| IndexError
| TypeError
| ValueError
| StopIteration
| RateLimitException
| SocketTimeout.

Global Instance exn_eq_dec : EqDecision exn.
Proof. solve_decision. Defined.

Inductive result (A : Type) : Type :=
| Ok (a : A)
| Raise (e : exn).
Arguments Ok {A} a.
Arguments Raise {A} e.

Definition rbind {A B} (r : result A) (k : A -> result B) : result B :=
  match r with
  | Ok a => k a
  | Raise e => Raise e
  end.

(** A Python float: a finite number, read as a rational, an infinity or
    a NaN; [float] accepts the texts ['inf'] and ['nan'] like the text of
    any number. *)
Inductive pyfloat : Type :=
| Finite (q : Q)
| PosInf
| NegInf
| NaN.
Coercion Finite : Q >-> pyfloat.
Bind Scope Q_scope with pyfloat.

(** [-1 * x] *)
Definition times_minus_one (x : pyfloat) : pyfloat :=
  match x with
  | Finite q => Finite (-1 * q)
  | PosInf => NegInf
  | NegInf => PosInf
  | NaN => NaN
  end.

(** Values stored in the dynamically typed dictionaries of the package. *)
Inductive value : Type :=
| VNone
| VStr (s : string)
| VFloat (x : pyfloat).

(** [d[k]] on a dictionary. *)
Definition getitem {V} (d : gmap string V) (k : string) : result V :=
  match d !! k with
  | Some v => Ok v
  | None => Raise KeyError
  end.

(** [sub in s] on strings. *)
Fixpoint contains (sub s : string) : bool :=
  String.prefix sub s ||
  match s with
  | EmptyString => false
  | String _ s' => contains sub s'
  end.

(** [s.split(sep)] for a one-character separator. *)
Fixpoint split (sep : ascii) (s : string) : list string :=
  match s with
  | EmptyString => [EmptyString]
  | String c s' =>
      if Ascii.eqb c sep then EmptyString :: split sep s'
      else match split sep s' with
           | [] => [String c EmptyString]
           | w :: ws => String c w :: ws
           end
  end.

Definition is_space (c : ascii) : bool :=
  let n := nat_of_ascii c in
  (n =? 32)%nat || ((9 <=? n)%nat && (n <=? 13)%nat) || ((28 <=? n)%nat && (n <=? 31)%nat).

Fixpoint lstrip (s : string) : string :=
  match s with
  | EmptyString => EmptyString
  | String c s' => if is_space c then lstrip s' else s
  end.

Fixpoint rstrip (s : string) : string :=
  match s with
  | EmptyString => EmptyString
  | String c s' =>
      match rstrip s' with
      | EmptyString => if is_space c then EmptyString else String c EmptyString
      | r => String c r
      end
  end.

(** [s.strip()] *)
Definition strip (s : string) : string := rstrip (lstrip s).

(** [s.replace(old, new)] for a non-empty [old]: occurrences are replaced
    left to right and do not overlap; [skip] counts the characters of an
    occurrence still to be dropped. *)
Fixpoint replace_from (old new : string) (skip : nat) (s : string) : string :=
  match s with
  | EmptyString => EmptyString
  | String c s' =>
      match skip with
      | S k => replace_from old new k s'
      | O =>
          if String.prefix old s
          then new ++ replace_from old new (String.length old - 1) s'
          else String c (replace_from old new O s')
      end
  end.

Definition replace (old new s : string) : string := replace_from old new O s.

(** [stream.readline()]: the first line with its newline, and the rest. *)
Fixpoint readline (s : string) : string * string :=
  match s with
  | EmptyString => (EmptyString, EmptyString)
  | String c s' =>
      if Ascii.eqb c "010"%char then (String c EmptyString, s')
      else let '(l, r) := readline s' in (String c l, r)
  end.

(** [[f(x) for x in l]] for an [f] that may raise: the first exception,
    in list order, ends the comprehension. *)
Fixpoint rmap {A B} (f : A -> result B) (l : list A) : result (list B) :=
  match l with
  | [] => Ok []
  | x :: l' =>
      match f x with
      | Raise e => Raise e
      | Ok y =>
          match rmap f l' with
          | Raise e => Raise e
          | Ok ys => Ok (y :: ys)
          end
      end
  end.

(** [a < b] on floats, as [min] compares keys. *)
Definition Qltb (a b : Q) : bool := negb (Qle_bool b a).

Section Min.
Context {A : Type}.
Variable key : A -> result Q.

  (** The scan of the builtin [min(iterable, key=...)]: the running
      minimum is replaced only by a strictly smaller key. *)
Fixpoint min_scan (best : A) (bestk : Q) (l : list A) : result A :=
    match l with
    | [] => Ok best
    | x :: l' =>
        match key x with
        | Raise e => Raise e
        | Ok k => if Qltb k bestk then min_scan x k l' else min_scan best bestk l'
        end
    end.

  (** [min(l, key=key)]; an empty sequence raises [ValueError]. *)
Definition min (l : list A) : result A :=
    match l with
    | [] => Raise ValueError
    | x :: l' =>
        match key x with
        | Raise e => Raise e
        | Ok k => min_scan x k l'
        end
    end.
End Min.

End Py.

Import Py.

Notation "'let+' x ':=' r 'in' k" := (rbind r (fun x => k))
  (at level 10, x name, r at level 100, k at level 200).

(** ** The state and exception monad of a method body

    A method runs on the attributes of [self] (and the other mutable
    state it reaches).  An exception does not roll anything back: the
    state a raising computation returns holds every assignment made before
    the [raise]. *)

Module Method.
Section Monad.
Context {St : Type}.

Definition M (A : Type) : Type := St -> St * result A.

Definition ret {A} (a : A) : M A := fun s => (s, Ok a).
Definition raise {A} (e : exn) : M A := fun s => (s, Raise e).
Definition lift {A} (r : result A) : M A := fun s => (s, r).
Definition bind {A B} (m : M A) (k : A -> M B) : M B :=
    fun s =>
      match m s with
      | (s', Ok a) => k a s'
      | (s', Raise e) => (s', Raise e)
      end.
Definition gets {A} (f : St -> A) : M A := fun s => (s, Ok (f s)).
Definition modify (f : St -> St) : M unit := fun s => (f s, Ok tt).

  (** [for x in l: body(x)] *)
Fixpoint for_each {A} (l : list A) (body : A -> M unit) : M unit :=
    match l with
    | [] => ret tt
    | x :: l' => bind (body x) (fun _ => for_each l' body)
    end.

  (** [try: m except e: handler] *)
Definition try_except {A} (m : M A) (e : exn) (handler : M A) : M A :=
    fun s =>
      match m s with
      | (s', Raise e') =>
          if decide (e' = e) then handler s' else (s', Raise e')
      | r => r
      end.
End Monad.
Arguments M : clear implicits.
End Method.

Import Method.

Notation "'let*' x ':=' m 'in' k" := (bind m (fun x => k))
  (at level 10, x name, m at level 100, k at level 200).
Notation "'do*' m 'in' k" := (bind m (fun _ => k))
  (at level 10, m at level 100, k at level 200).

(** ** xml.etree.ElementTree *)

Module ET.

#[warnings="-register-all"]
Inductive Element : Type :=
  mkElement {
    tag : string;
    attrib : gmap string string;
    text : option string;
    children : list Element
  }.

(** The steps of the ElementPath expressions the package uses: [tag]
    selects the children with that tag, [tag[@k="v"]] those of them whose
    attribute [k] is [v].  A leading [./] selects the context node itself
    and is not a step. *)
Inductive step : Type :=
| Child (t : string)
| ChildAttr (t k v : string).

Definition selects (st : step) (e : Element) : bool :=
  match st with
  | Child t => bool_decide (tag e = t)
  | ChildAttr t k v => bool_decide (tag e = t) && bool_decide (attrib e !! k = Some v)
  end.

Fixpoint iterfind (path : list step) (ctx : list Element) : list Element :=
  match path with
  | [] => ctx
  | st :: path' =>
      iterfind path' (flat_map (fun e => List.filter (selects st) (children e)) ctx)
  end.

(** [e.findall(path)] *)
Definition findall (path : list step) (e : Element) : list Element :=
  iterfind path [e].

(** [e.find(path)]: the first match in document order, or [None]. *)
Definition find (path : list step) (e : Element) : option Element :=
  head (findall path e).

(** [e.findtext(path)]: [None] when nothing matches, the empty string
    when the match has no text. *)
Definition findtext (path : list step) (e : Element) : option string :=
  match find path e with
  | None => None
  | Some x => Some (default EmptyString (text x))
  end.

End ET.

(** ** Third-party primitives

    What the package calls and does not define.  [requests_get url] is
    [requests.get(url, timeout=10).content]; a transport failure raises.
    The decoders, the XML parser, [float], [isoparse] and the CSS
    selection raise on malformed input.  [geodesic a b] is
    [distance.distance(a, b)] of geopy, in kilometres: it is handed the
    coordinates as they are stored and raises on a point it refuses (a
    coordinate that is no number or not finite, a latitude out of range);
    a distance it returns is a finite number.  The string methods whose result
    depends on Unicode character classes ([strip], [lower], [upper],
    [title]) are primitives as well: strings are UTF-8 byte strings here,
    on which [in], [split] and [replace] are computed exactly.
    [re_sub_period s] is [re.sub(r'\.(?=\S)', '. ', s)], [soup_strong h]
    the texts of the [strong] tags of the parsed page [h], and
    [soup_select h sel] the texts of the tags [sel] selects in it. *)
Record Prims : Type := {
  requests_get : string -> result string;
  response_text : string -> string;
  decode_utf8 : string -> result string;
  decode_utf8_sig : string -> result string;
  decode_latin1 : string -> string;
  et_fromstring : string -> result ET.Element;
  csv_reader : string -> list (list string);
  float_of_string : string -> option pyfloat;
  float_repr : pyfloat -> string;
  isoparse : string -> result Z;
  geodesic : value * value -> value * value -> result Q;
  str_strip : string -> string;
  str_lower : string -> string;
  str_upper : string -> string;
  str_title : string -> string;
  re_sub_period : string -> string;
  soup_strong : string -> list string;
  soup_select : string -> string -> result (list string)
}.

Section Builtins.
Variable P : Prims.

  (** [float(v)] *)
Definition float (v : value) : result pyfloat :=
    match v with
    | VNone => Raise TypeError
    | VStr s =>
        match float_of_string P s with
        | Some q => Ok q
        | None => Raise ValueError
        end
    | VFloat q => Ok q
    end.

  (** [str(v)], as [str.format] renders a field. *)
Definition str (v : value) : string :=
    match v with
    | VNone => "None"
    | VStr s => s
    | VFloat q => float_repr P q
    end.

  (** [v.replace(old, new)]; [None] has no such method. *)
Definition value_replace (old new : string) (v : value) : result string :=
    match v with
    | VStr s => Ok (replace old new s)
    | _ => Raise AttributeError
    end.

  (** [None] or a string, as a dictionary value. *)
Definition opt_value (o : option string) : value :=
    match o with
    | Some s => VStr s
    | None => VNone
    end.

End Builtins.

(** ** csv.DictReader *)

Module Csv.

(** The dictionary [DictReader] builds from one row: the field names are
    zipped with the cells (a repeated name keeps its last cell) and the
    names a short row leaves over map to [None].  The entry a long row
    adds under the key [None] is not represented: nothing reads it. *)
Definition dict_row (fieldnames row : list string) : gmap string value :=
  let d := fold_left (fun d kv => <[fst kv := VStr (snd kv)]> d)
                     (combine fieldnames row) (∅ : gmap string value) in
  fold_left (fun d k => <[k := VNone]> d) (drop (length row) fieldnames) d.

Definition nonempty_row (row : list string) : bool :=
  match row with
  | [] => false
  | _ => true
  end.

(** [DictReader(stream, fieldnames=...)]: empty rows are skipped. *)
Definition DictReader (fieldnames : list string) (rows : list (list string))
  : list (gmap string value) :=
  map (dict_row fieldnames) (List.filter nonempty_row rows).

(** [DictReader(stream)]: the first row holds the field names. *)
Definition DictReader_auto (rows : list (list string)) : list (gmap string value) :=
  match rows with
  | [] => []
  | fieldnames :: rows' => DictReader fieldnames rows'
  end.

End Csv.

(** ** ec_hydro.py *)

Module ECHydro.

Definition SITE_LIST_URL : string :=
  "https://dd.weather.gc.ca/hydrometric/doc/hydrometric_StationList.csv".

(** [READINGS_URL.format(prov=..., station=...)] *)
Definition READINGS_URL (prov station : string) : string :=
  "https://dd.weather.gc.ca/hydrometric/csv/" ++ prov ++ "/hourly/" ++ prov
    ++ "_" ++ station ++ "_hourly_hydrometric.csv".

(** [HYDRO_MESSAGE.format(prov=..., station=...)] *)
Definition HYDRO_MESSAGE (prov station : string) : string :=
  "/hydrometric/csv/" ++ prov ++ "/hourly/" ++ prov
    ++ "_" ++ station ++ "_hourly_hydrometric.csv".

(** The attributes of an [ECHydro] object, with the two parts of the
    outside world its methods reach: the bodies waiting on the message
    queue of [self.connection], oldest first, and the URLs requested so
    far, latest first. *)
Record t : Type := mk {
  measurements : gmap string (gmap string value);
  timestamp : option Z;
  location : option string;
  province : string;
  station : string;
  inbox : list string;
  requested : list string
}.

Definition set_measurement (k : string) (v : gmap string value) (s : t) : t :=
  mk (<[k := v]> (measurements s)) (timestamp s) (location s)
     (province s) (station s) (inbox s) (requested s).
Definition set_timestamp (ts : option Z) (s : t) : t :=
  mk (measurements s) ts (location s) (province s) (station s) (inbox s) (requested s).
Definition set_inbox (q : list string) (s : t) : t :=
  mk (measurements s) (timestamp s) (location s) (province s) (station s) q (requested s).
Definition log_request (url : string) (s : t) : t :=
  mk (measurements s) (timestamp s) (location s) (province s) (station s)
     (inbox s) (url :: requested s).

(** [v != s] for a string literal [s]. *)
Definition differs (v : value) (s : string) : bool :=
  match v with
  | VStr s' => negb (String.eqb s' s)
  | _ => true
  end.

Section WithPrims.
Variable P : Prims.

  (** The header line of the hydrometric files:
      [[h.split('/')[0].strip() for h in stream.readline().split(',')]] *)
Definition header_of (line : string) : list string :=
    map (fun h => str_strip P (hd EmptyString (split "/" h))) (split "," line).

  (** [requests.get(url, timeout=10).content] issued by a method. *)
Definition http_get (url : string) : M t string :=
    fun s => (log_request url s, requests_get P url).

  (** [isoparse(v)] *)
Definition isoparse_value (v : value) : result Z :=
    match v with
    | VStr s => isoparse P s
    | _ => Raise TypeError
    end.

Definition fetch_new_data : M t unit :=
    let* prov := gets province in
    let* stn := gets station in
    let* content := http_get (READINGS_URL prov stn) in
    let* hydro_csv_string := lift (decode_utf8_sig P content) in
    let '(line, rest) := readline hydro_csv_string in
    let header := header_of line in
    let readings := Csv.DictReader header (csv_reader P rest) in
    match last readings with
    | None => ret tt
    | Some latest =>
        let* wl := lift (getitem latest "Water Level") in
        do* (if differs wl ""
             then let* v := lift (float P wl) in
                  modify (set_measurement "water_level"
                            {[ "label" := VStr "Water Level";
                               "value" := VFloat v;
                               "unit" := VStr "m" ]})
             else ret tt) in
        let* dc := lift (getitem latest "Discharge") in
        do* (if differs dc ""
             then let* v := lift (float P dc) in
                  modify (set_measurement "discharge"
                            {[ "label" := VStr "Discharge";
                               "value" := VFloat v;
                               "unit" := VStr "m³/s" ]})
             else ret tt) in
        let* d := lift (getitem latest "Date") in
        let* ts := lift (isoparse_value d) in
        modify (set_timestamp (Some ts))
    end.

Definition process_message (body : string) : M t unit :=
    let* prov := gets province in
    let* stn := gets station in
    if contains (HYDRO_MESSAGE prov stn) body then fetch_new_data else ret tt.

  (** [self.connection.drain_events(timeout=5)] inside the [Consumer]
      block: kombu waits for a single event.  With nothing on the queue
      when the timeout elapses it raises [socket.timeout]; otherwise the
      oldest body is taken off the queue and handed to the callback. *)
Definition drain_events (callback : string -> M t unit) : M t unit :=
    fun s =>
      match inbox s with
      | [] => (s, Raise SocketTimeout)
      | body :: rest => callback body (set_inbox rest s)
      end.

Definition update : M t unit :=
    try_except (drain_events process_message) SocketTimeout (ret tt).

  (** The body of [update] for any behaviour of the connection: [drain]
      is what [drain_events] does with the callback. *)
Definition update_with (drain : (string -> M t unit) -> M t unit) : M t unit :=
    try_except (drain process_message) SocketTimeout (ret tt).

  (** The body of the loop of [get_hydro_sites]; the loop appends the
      record it returns. *)
Definition parse_site (site : gmap string value) : result (gmap string value) :=
    let+ la := getitem site "Latitude" in
    let+ lat := float P la in
    let site := <["Latitude" := VFloat lat]> site in
    let+ lo := getitem site "Longitude" in
    let+ lon := float P lo in
    Ok (<["Longitude" := VFloat lon]> site).

Definition get_hydro_sites : result (list (gmap string value)) :=
    let+ sites_csv_bytes := requests_get P SITE_LIST_URL in
    let+ sites_csv_string := decode_utf8_sig P sites_csv_bytes in
    let '(line, rest) := readline sites_csv_string in
    let header := header_of line in
    rmap parse_site (Csv.DictReader header (csv_reader P rest)).

Definition site_distance (lat lon : pyfloat) (site : gmap string value) : result Q :=
    let+ la := getitem site "Latitude" in
    let+ lo := getitem site "Longitude" in
    geodesic P (VFloat lat, VFloat lon) (la, lo).

Definition closest_site (lat lon : pyfloat) : result (gmap string value) :=
    let+ site_list := get_hydro_sites in
    Py.min (site_distance lat lon) site_list.
  (** [self.closest_site(lat, lon)] as a call of a method: the request
      for the station list is recorded. *)
Definition call_closest_site (lat lon : pyfloat) : M t (gmap string value) :=
    do* modify (log_request SITE_LIST_URL) in
    lift (closest_site lat lon).

  (** [x and y] on two optional strings, as the test of [__init__]
      reads it: both are given and not empty. *)
Definition both_given (x y : option string) : option (string * string) :=
    match x, y with
    | Some (String c x'), Some (String d y') => Some (String c x', String d y')
    | _, _ => None
    end.

  (** [__init__(province, station, coordinates)].  The attributes
      [province] and [station] hold what [str.format] renders of the
      values assigned to them, which is all the methods read of them. *)
Definition __init__ (province station : option string) (coordinates : option (pyfloat * pyfloat))
    : M t unit :=
    do* modify (fun s => mk ∅ None None (ECHydro.province s) (ECHydro.station s)
                            (inbox s) (requested s)) in
    do* (match both_given province station with
         | Some (prov, stn) =>
             modify (fun s => mk (measurements s) (timestamp s) (location s) prov stn
                                 (inbox s) (requested s))
         | None =>
             let* xy := lift (match coordinates with
                              | Some xy => Ok xy
                              | None => Raise TypeError
                              end) in
             let* closest := call_closest_site (fst xy) (snd xy) in
             let* prov := lift (getitem closest "Prov") in
             do* modify (fun s => mk (measurements s) (timestamp s) (location s)
                                     (str P prov) (ECHydro.station s) (inbox s) (requested s)) in
             let* id := lift (getitem closest "ID") in
             do* modify (fun s => mk (measurements s) (timestamp s) (location s)
                                     (ECHydro.province s) (str P id) (inbox s) (requested s)) in
             let* name := lift (getitem closest "Name") in
             let* loc := lift (match name with
                               | VStr n => Ok (str_title P n)
                               | _ => Raise AttributeError
                               end) in
             modify (fun s => mk (measurements s) (timestamp s) (Some loc)
                                 (ECHydro.province s) (ECHydro.station s)
                                 (inbox s) (requested s))
         end) in
    fetch_new_data.
End WithPrims.

End ECHydro.

(** ** Regular expressions

    The fragment of [re] the alert patterns are written in, read on the
    UTF-8 bytes of the text.  The patterns' literals and look-aheads
    begin with ASCII letters and [.] excludes only the newline, so whether
    a pattern matches does not depend on reading characters or bytes. *)

Module Re.

Inductive re : Type :=
| Eps
| Chr (c : ascii)
| Any
| Cat (r1 r2 : re)
| Alt (r1 r2 : re)
| Star (r : re)
| Opt (r : re)
| NotAhead (r : re)
| Eol.

(** A literal run of characters. *)
Fixpoint Lit (s : string) : re :=
  match s with
  | EmptyString => Eps
  | String c s' => Cat (Chr c) (Lit s')
  end.

Definition newline : ascii := "010"%char.

(** [r*]: an iteration must consume a character, so [fuel] above the
    length of the text never runs out. *)
Fixpoint star (once : string -> (string -> bool) -> bool) (fuel : nat)
    (s : string) (k : string -> bool) : bool :=
  k s ||
  match fuel with
  | O => false
  | S n =>
      once s (fun s' => (String.length s' <? String.length s)%nat && star once n s' k)
  end.

(** [accepts r s k]: some way of matching [r] at the start of [s] leaves
    a rest that [k] accepts.  A backtracking matcher finds a match exactly
    when one exists. *)
Fixpoint accepts (r : re) (s : string) (k : string -> bool) : bool :=
  match r with
  | Eps => k s
  | Chr c =>
      match s with
      | String c' s' => Ascii.eqb c c' && k s'
      | EmptyString => false
      end
  | Any =>
      match s with
      | String c' s' => negb (Ascii.eqb c' newline) && k s'
      | EmptyString => false
      end
  | Cat r1 r2 => accepts r1 s (fun s' => accepts r2 s' k)
  | Alt r1 r2 => accepts r1 s k || accepts r2 s k
  | Star r' => star (accepts r') (S (String.length s)) s k
  | Opt r' => accepts r' s k || k s
  | NotAhead r' => negb (accepts r' s (fun _ => true)) && k s
  | Eol =>
      match s with
      | EmptyString => k s
      | String c EmptyString => Ascii.eqb c newline && k s
      | _ => false
      end
  end.

(** [re.match(r, s) is not None] *)
Definition matches (r : re) (s : string) : bool := accepts r s (fun _ => true).

(** [re.search(r, s) is not None]: a match at some start position. *)
Fixpoint search (r : re) (s : string) : bool :=
  matches r s ||
  match s with
  | EmptyString => false
  | String _ s' => search r s'
  end.

End Re.

(** ** The air quality code that ec_aqhi.py and ec_data.py both contain *)

Module Aqhi.

Import ET.

Definition AQHI_SITE_LIST_URL : string :=
  "https://dd.weather.gc.ca/air_quality/doc/AQHI_XML_File_List.xml".

(** [AQHI_OBSERVATION_URL.format(zone, region)] *)
Definition AQHI_OBSERVATION_URL (zone region : string) : string :=
  "https://dd.weather.gc.ca/air_quality/aqhi/" ++ zone
    ++ "/observation/realtime/xml/AQ_OBS_" ++ region ++ "_CURRENT.xml".

(** [AQHI_FORECAST_URL.format(zone, region)] *)
Definition AQHI_FORECAST_URL (zone region : string) : string :=
  "https://dd.weather.gc.ca/air_quality/aqhi/" ++ zone
    ++ "/forecast/realtime/xml/AQ_FCST_" ++ region ++ "_CURRENT.xml".

(** The values of the dictionary [self.aqhi]: a text (or [None]) under
    [current] and [utc_time], the two series under [forecasts]. *)
Inductive aqhi_value : Type :=
| AText (v : option string)
| AForecasts (daily hourly : list (gmap string value)).

(** [aqhi['forecasts']['daily'].append(e)] *)
Definition append_daily (e : gmap string value) (d : gmap string aqhi_value)
  : gmap string aqhi_value :=
  alter (fun v => match v with
                  | AForecasts dl hl => AForecasts (dl ++ [e]) hl
                  | AText _ => v
                  end) "forecasts" d.

(** [aqhi['forecasts']['hourly'].append(e)] *)
Definition append_hourly (e : gmap string value) (d : gmap string aqhi_value)
  : gmap string aqhi_value :=
  alter (fun v => match v with
                  | AForecasts dl hl => AForecasts dl (hl ++ [e])
                  | AText _ => v
                  end) "forecasts" d.

(** [element.text if element is not None else None] for
    [element = tree.find(path)] *)
Definition text_or_none (path : list step) (tree : Element) : option string :=
  match find path tree with
  | Some element => text element
  | None => None
  end.

(** The inner loop of the daily forecasts: the name of the period in the
    language of the object, when the forecast has one. *)
Fixpoint scan_periods (language_abr : string) (period : value) (ps : list Element)
  : result value :=
  match ps with
  | [] => Ok period
  | p :: ps' =>
      let+ lang := getitem (attrib p) "lang" in
      if String.eqb language_abr lang
      then let+ name := getitem (attrib p) "forecastName" in
           scan_periods language_abr (VStr name) ps'
      else scan_periods language_abr period ps'
  end.

Section Forecasts.
Context {St : Type}.
  (** [over f] applies [f] to the dictionary [self.aqhi]. *)
Variable over : (gmap string aqhi_value -> gmap string aqhi_value) -> St -> St.
Variable language_abr : string.

  (** The loop over the daily forecasts; [period] is the local variable
      of that name, which the loop does not reset between forecasts. *)
Fixpoint daily_loop (period : value) (fs : list Element) : M St unit :=
    match fs with
    | [] => ret tt
    | f :: fs' =>
        let* period := lift (scan_periods language_abr period (findall [Child "period"] f)) in
        do* modify (over (append_daily
                            {[ "period" := period;
                               "aqhi" := opt_value (findtext [Child "airQualityHealthIndex"] f) ]})) in
        daily_loop period fs'
    end.

Definition hourly_body (f : Element) : M St unit :=
    let* utc := lift (getitem (attrib f) "UTCTime") in
    modify (over (append_hourly {[ "period" := VStr utc; "aqhi" := opt_value (text f) ]})).

  (** What follows the parse of the forecast document. *)
Definition store_forecasts (tree : Element) : M St unit :=
    do* modify (over (insert "forecasts" (AForecasts [] []))) in
    do* daily_loop VNone (findall [Child "forecastGroup"; Child "forecast"] tree) in
    for_each (findall [Child "hourlyForecastGroup"; Child "hourlyForecast"] tree) hourly_body.
End Forecasts.

Section Regions.
Variable P : Prims.
  (** How the loop reads the children of a region: [list(region)] in
      ec_aqhi.py, [region.getchildren()] in ec_data.py. *)
Variable children_of : Element -> result (list Element).

  (** The body of the loop over the regions of a zone. *)
Definition parse_region (zone_attrib : gmap string value) (region_name_tag : string)
      (region : Element) : result (gmap string value) :=
    let+ name := getitem (attrib region) region_name_tag in
    let+ cgndb := getitem (attrib region) "cgndb" in
    let+ la := getitem (attrib region) "latitude" in
    let+ lat := float P (VStr la) in
    let+ lo := getitem (attrib region) "longitude" in
    let+ lon := float P (VStr lo) in
    let region_attrib : gmap string value :=
      {[ "region_name" := VStr name; "cgndb" := VStr cgndb;
         "latitude" := VFloat lat; "longitude" := VFloat lon ]} in
    let+ _children := children_of region in
    let region_attrib :=
      fold_left (fun d child => <[tag child := opt_value (text child)]> d)
                _children region_attrib in
    Ok (zone_attrib ∪ region_attrib).

Definition parse_zone (zone_name_tag region_name_tag : string) (zone : Element)
    : result (list (gmap string value)) :=
    let+ abbreviation := getitem (attrib zone) "abreviation" in
    let+ zone_name := getitem (attrib zone) zone_name_tag in
    let zone_attrib : gmap string value :=
      {[ "abbreviation" := VStr abbreviation; "zone_name" := VStr zone_name ]} in
    rmap (parse_region zone_attrib region_name_tag)
         (findall [Child "regionList"; Child "region"] zone).

Definition get_aqhi_regions (zone_name_tag region_name_tag : string)
    : result (list (gmap string value)) :=
    let+ content := requests_get P AQHI_SITE_LIST_URL in
    let+ site_xml := decode_utf8 P content in
    let+ xml_object := et_fromstring P site_xml in
    let+ by_zone := rmap (parse_zone zone_name_tag region_name_tag)
                         (findall [Child "EC_administrativeZone"] xml_object) in
    Ok (concat by_zone).

Definition site_distance (lat lon : pyfloat) (site : gmap string value) : result Q :=
    let+ la := getitem site "latitude" in
    let+ lo := getitem site "longitude" in
    geodesic P (VFloat lat, VFloat lon) (la, lo).

Definition closest_aqhi (zone_name_tag region_name_tag : string) (lat lon : pyfloat)
    : result (value * value) :=
    let+ region_list := get_aqhi_regions zone_name_tag region_name_tag in
    let+ closest := Py.min (site_distance lat lon) region_list in
    let+ abbreviation := getitem closest "abbreviation" in
    let+ cgndb := getitem closest "cgndb" in
    Ok (abbreviation, cgndb).
End Regions.

End Aqhi.

(** ** ec_aqhi.py *)

Module ECAQHI.

Import ET Aqhi.

(** [OBSERVATION_MESSAGE.format(zone, region)] *)
Definition OBSERVATION_MESSAGE (zone region : string) : string :=
  "/air_quality/aqhi/" ++ zone ++ "/observation/realtime/xml/AQ_OBS_"
    ++ region ++ "_CURRENT.xml".

(** [FORECAST_MESSAGE.format(zone, region)] *)
Definition FORECAST_MESSAGE (zone region : string) : string :=
  "/air_quality/aqhi/" ++ zone ++ "/forecast/realtime/xml/AQ_FCST_"
    ++ region ++ "_CURRENT.xml".

Record t : Type := mk {
  language : string;
  language_abr : string;
  aqhi : gmap string aqhi_value;
  forecast_time : string;
  aqhi_id : value * value;
  inbox : list string;
  requested : list string
}.

Definition over_aqhi (f : gmap string aqhi_value -> gmap string aqhi_value) (s : t) : t :=
  mk (language s) (language_abr s) (f (aqhi s)) (forecast_time s) (aqhi_id s)
     (inbox s) (requested s).
Definition set_inbox (q : list string) (s : t) : t :=
  mk (language s) (language_abr s) (aqhi s) (forecast_time s) (aqhi_id s)
     q (requested s).
Definition log_request (url : string) (s : t) : t :=
  mk (language s) (language_abr s) (aqhi s) (forecast_time s) (aqhi_id s)
     (inbox s) (url :: requested s).

(** [list(region)]: the children of an element, in document order. *)
Definition list_of (e : Element) : result (list Element) := Ok (children e).

Section WithPrims.
Variable P : Prims.

Definition http_get (url : string) : M t string :=
    fun s => (log_request url s, requests_get P url).

Definition fetch_new_observation : M t unit :=
    let* id := gets aqhi_id in
    let* content := http_get (AQHI_OBSERVATION_URL (str P (fst id)) (str P (snd id))) in
    let* aqhi_xml := lift (decode_utf8 P content) in
    let* aqhi_tree := lift (et_fromstring P aqhi_xml) in
    do* modify (over_aqhi
                  (insert "current" (AText (text_or_none [Child "airQualityHealthIndex"] aqhi_tree)))) in
    modify (over_aqhi
              (insert "utc_time"
                 (AText (text_or_none [Child "dateStamp"; Child "UTCStamp"] aqhi_tree)))).

Definition fetch_new_forecast : M t unit :=
    let* id := gets aqhi_id in
    let* content := http_get (AQHI_FORECAST_URL (str P (fst id)) (str P (snd id))) in
    let aqhi_xml := decode_latin1 P content in
    let* aqhi_tree := lift (et_fromstring P aqhi_xml) in
    let* abr := gets language_abr in
    store_forecasts over_aqhi abr aqhi_tree.

Definition process_message (body : string) : M t unit :=
    let* id := gets aqhi_id in
    if contains (OBSERVATION_MESSAGE (str P (fst id)) (str P (snd id))) body
    then fetch_new_observation
    else if contains (FORECAST_MESSAGE (str P (fst id)) (str P (snd id))) body
         then fetch_new_forecast
         else ret tt.

  (** [self.connection.drain_events(timeout=5)], as in [ECHydro]. *)
Definition drain_events (callback : string -> M t unit) : M t unit :=
    fun s =>
      match inbox s with
      | [] => (s, Raise SocketTimeout)
      | body :: rest => callback body (set_inbox rest s)
      end.

Definition update : M t unit :=
    try_except (drain_events process_message) SocketTimeout (ret tt).

  (** The body of [update] for any behaviour of the connection: [drain]
      is what [drain_events] does with the callback. *)
Definition update_with (drain : (string -> M t unit) -> M t unit) : M t unit :=
    try_except (drain process_message) SocketTimeout (ret tt).

Definition get_aqhi_regions (language_abr : string) : result (list (gmap string value)) :=
    let zone_name_tag := "name_" ++ str_lower P language_abr ++ "_CA" in
    let region_name_tag := "name" ++ str_title P language_abr in
    Aqhi.get_aqhi_regions P list_of zone_name_tag region_name_tag.

Definition closest_aqhi (language_abr : string) (lat lon : pyfloat)
    : result (value * value) :=
    let zone_name_tag := "name_" ++ str_lower P language_abr ++ "_CA" in
    let region_name_tag := "name" ++ str_title P language_abr in
    Aqhi.closest_aqhi P list_of zone_name_tag region_name_tag lat lon.
  (** [l[i]] on the pieces of a split. *)
Definition piece (l : list string) (i : nat) : result string :=
    match l !! i with
    | Some x => Ok x
    | None => Raise IndexError
    end.

  (** [__init__(aqhi_id, coordinates, language)] *)
Definition __init__ (aqhi_id : option string) (coordinates : option (value * value))
      (language : string) : M t unit :=
    let language_abr := str_upper P (String.substring 0 2 language) in
    do* modify (fun s => mk language language_abr ∅ EmptyString (ECAQHI.aqhi_id s)
                            (inbox s) (requested s)) in
    do* (match aqhi_id with
         | None =>
             let* xy := lift (match coordinates with
                              | Some xy => Ok xy
                              | None => Raise TypeError
                              end) in
             let* lat := lift (float P (fst xy)) in
             let* lon := lift (float P (snd xy)) in
             do* modify (log_request AQHI_SITE_LIST_URL) in
             let* id := lift (closest_aqhi language_abr lat lon) in
             modify (fun s => mk (ECAQHI.language s) (ECAQHI.language_abr s) (aqhi s)
                                 (forecast_time s) id (inbox s) (requested s))
         | Some aqhi_id =>
             let* z := lift (piece (split "/" aqhi_id) 0) in
             let zone := str_lower P z in
             let* r := lift (piece (split "/" aqhi_id) 1) in
             let region := str_upper P r in
             modify (fun s => mk (ECAQHI.language s) (ECAQHI.language_abr s) (aqhi s)
                                 (forecast_time s) (VStr zone, VStr region)
                                 (inbox s) (requested s))
         end) in
    do* fetch_new_observation in
    fetch_new_forecast.
End WithPrims.

End ECAQHI.

(** ** ec_data.py *)

Module ECData.

Import ET Aqhi.

Definition SITE_LIST_URL : string :=
  "https://dd.weather.gc.ca/citypage_weather/docs/site_list_en.csv".

(** [XML_URL_BASE.format(station_id, lang)] *)
Definition XML_URL_BASE (station_id lang : string) : string :=
  "https://dd.weather.gc.ca/citypage_weather/xml/" ++ station_id ++ "_" ++ lang ++ ".xml".

Record cond_meta : Type := mk_cond {
  xpath : list step;
  attribute : option string;
  english : string;
  french : string
}.

Definition cc (t : string) : list step := [Child "currentConditions"; Child t].
Definition fc (p : list step) : list step := Child "forecastGroup" :: Child "forecast" :: p.

(** The dictionary [conditions_meta], in the order of the class body. *)
Definition conditions_meta : list (string * cond_meta) :=
  [ ("temperature", mk_cond (cc "temperature") None "Temperature" "Température");
    ("dewpoint", mk_cond (cc "dewpoint") None "Dew Point" "Point de rosée");
    ("wind_chill", mk_cond (cc "windChill") None "Wind Chill" "Refroidissement éolien");
    ("humidex", mk_cond (cc "humidex") None "Humidex" "Humidex");
    ("pressure", mk_cond (cc "pressure") None "Pressure" "Pression");
    ("tendency", mk_cond (cc "pressure") (Some "tendency") "Tendency" "Tendance");
    ("humidity", mk_cond (cc "relativeHumidity") None "Humidity" "Humidité");
    ("visibility", mk_cond (cc "visibility") None "Visibility" "Visibilité");
    ("condition", mk_cond (cc "condition") None "Condition" "Condition");
    ("wind_speed", mk_cond [Child "currentConditions"; Child "wind"; Child "speed"] None
                     "Wind Speed" "Vitesse de vent");
    ("wind_gust", mk_cond [Child "currentConditions"; Child "wind"; Child "gust"] None
                    "Wind Gust" "Rafale de vent");
    ("wind_dir", mk_cond [Child "currentConditions"; Child "wind"; Child "direction"] None
                   "Wind Direction" "Direction de vent");
    ("wind_bearing", mk_cond [Child "currentConditions"; Child "wind"; Child "bearing"] None
                       "Wind Bearing" "Palier de vent");
    ("high_temp", mk_cond (fc [Child "temperatures"; ChildAttr "temperature" "class" "high"])
                    None "High Temperature" "Haute température");
    ("low_temp", mk_cond (fc [Child "temperatures"; ChildAttr "temperature" "class" "low"])
                   None "Low Temperature" "Basse température");
    ("uv_index", mk_cond (fc [Child "uv"; Child "index"]) None "UV Index" "Indice UV");
    ("pop", mk_cond (fc [Child "abbreviatedForecast"; Child "pop"]) None
              "Chance of Precip." "Probabilité d'averses");
    ("icon_code", mk_cond (cc "iconCode") None "Icon Code" "Code icône");
    ("precip_yesterday", mk_cond [Child "yesterdayConditions"; Child "precip"] None
                           "Precipitation Yesterday" "Précipitation d'hier") ].

(** [metadata_meta]: the key and its [xpath]. *)
Definition metadata_meta : list (string * list step) :=
  [ ("timestamp", [Child "currentConditions"; Child "dateTime"; Child "timeStamp"]);
    ("location", [Child "location"; Child "name"]);
    ("station", cc "station") ].

Record lang_meta : Type := mk_lang {
  label : string;
  pattern : Re.re
}.

Record alert_meta : Type := mk_alert_meta {
  alert_english : lang_meta;
  alert_french : lang_meta
}.

(** [.*KEYWORD((?!TERM).)*$] *)
Definition active_pattern (keyword : Re.re) (term : string) : Re.re :=
  Re.Cat (Re.Star Re.Any)
    (Re.Cat keyword
       (Re.Cat (Re.Star (Re.Cat (Re.NotAhead (Re.Lit term)) Re.Any)) Re.Eol)).

(** The dictionary [alerts_meta], in the order of the class body. *)
Definition alerts_meta : list (string * alert_meta) :=
  [ ("warnings",
     mk_alert_meta
       (mk_lang "Warnings" (active_pattern (Re.Lit "WARNING") "ENDED"))
       (mk_lang "Alertes"
          (active_pattern (Re.Alt (Re.Lit "ALERTE") (Re.Lit "AVERTISSEMENT")) "TERMINÉ")));
    ("watches",
     mk_alert_meta
       (mk_lang "Watches" (active_pattern (Re.Lit "WATCH") "ENDED"))
       (mk_lang "Veilles" (active_pattern (Re.Lit "VEILLE") "TERMINÉ")));
    ("advisories",
     mk_alert_meta
       (mk_lang "Advisories" (active_pattern (Re.Lit "ADVISORY") "ENDED"))
       (mk_lang "Avis" (active_pattern (Re.Lit "AVIS") "TERMINÉ")));
    ("statements",
     mk_alert_meta
       (mk_lang "Statements" (active_pattern (Re.Lit "STATEMENT") "ENDED"))
       (mk_lang "Bulletins" (active_pattern (Re.Lit "BULLETIN") "TERMINÉ")));
    ("endings",
     mk_alert_meta
       (mk_lang "Endings" (Re.Cat (Re.Star Re.Any) (Re.Lit "ENDED")))
       (mk_lang "Terminaisons"
          (Re.Cat (Re.Star Re.Any) (Re.Cat (Re.Lit "TERMINÉ") (Re.Opt (Re.Chr "E")))))) ].

(** [meta[self.language]] on a table with the keys ['english'] and
    ['french']. *)
Definition by_language {A} (language : string) (en fr : A) : result A :=
  if String.eqb language "english" then Ok en
  else if String.eqb language "french" then Ok fr
  else Raise KeyError.

Record alert : Type := mk_alert {
  title : string;
  date : string;
  detail : string
}.

(** An entry of [self.alerts]: [{'value': [...], 'label': ...}]. *)
Record alert_category : Type := mk_category {
  category_value : list alert;
  category_label : string
}.

(** The attributes of an [ECData] object, the URLs requested so far
    (latest first) and the counters of the [limits] decorator around
    [update]. *)
Record t : Type := mk {
  language : string;
  language_abr : string;
  zone_name_tag : string;
  region_name_tag : string;
  metadata : gmap string value;
  conditions : gmap string (gmap string value);
  alerts : gmap string alert_category;
  daily_forecasts : list (gmap string value);
  hourly_forecasts : list (gmap string value);
  aqhi : gmap string aqhi_value;
  forecast_time : option string;
  station_id : string;
  aqhi_id : list value;
  requested : list string;
  num_calls : nat;
  last_reset : Q
}.

Definition over_metadata (f : gmap string value -> gmap string value) (s : t) : t :=
  mk (language s) (language_abr s) (zone_name_tag s) (region_name_tag s)
     (f (metadata s)) (conditions s) (alerts s) (daily_forecasts s) (hourly_forecasts s)
     (aqhi s) (forecast_time s) (station_id s) (aqhi_id s) (requested s)
     (num_calls s) (last_reset s).
Definition over_conditions
    (f : gmap string (gmap string value) -> gmap string (gmap string value)) (s : t) : t :=
  mk (language s) (language_abr s) (zone_name_tag s) (region_name_tag s)
     (metadata s) (f (conditions s)) (alerts s) (daily_forecasts s) (hourly_forecasts s)
     (aqhi s) (forecast_time s) (station_id s) (aqhi_id s) (requested s)
     (num_calls s) (last_reset s).
Definition over_alerts
    (f : gmap string alert_category -> gmap string alert_category) (s : t) : t :=
  mk (language s) (language_abr s) (zone_name_tag s) (region_name_tag s)
     (metadata s) (conditions s) (f (alerts s)) (daily_forecasts s) (hourly_forecasts s)
     (aqhi s) (forecast_time s) (station_id s) (aqhi_id s) (requested s)
     (num_calls s) (last_reset s).
Definition over_daily (f : list (gmap string value) -> list (gmap string value)) (s : t) : t :=
  mk (language s) (language_abr s) (zone_name_tag s) (region_name_tag s)
     (metadata s) (conditions s) (alerts s) (f (daily_forecasts s)) (hourly_forecasts s)
     (aqhi s) (forecast_time s) (station_id s) (aqhi_id s) (requested s)
     (num_calls s) (last_reset s).
Definition over_hourly (f : list (gmap string value) -> list (gmap string value)) (s : t) : t :=
  mk (language s) (language_abr s) (zone_name_tag s) (region_name_tag s)
     (metadata s) (conditions s) (alerts s) (daily_forecasts s) (f (hourly_forecasts s))
     (aqhi s) (forecast_time s) (station_id s) (aqhi_id s) (requested s)
     (num_calls s) (last_reset s).
Definition over_aqhi (f : gmap string aqhi_value -> gmap string aqhi_value) (s : t) : t :=
  mk (language s) (language_abr s) (zone_name_tag s) (region_name_tag s)
     (metadata s) (conditions s) (alerts s) (daily_forecasts s) (hourly_forecasts s)
     (f (aqhi s)) (forecast_time s) (station_id s) (aqhi_id s) (requested s)
     (num_calls s) (last_reset s).
Definition set_forecast_time (v : option string) (s : t) : t :=
  mk (language s) (language_abr s) (zone_name_tag s) (region_name_tag s)
     (metadata s) (conditions s) (alerts s) (daily_forecasts s) (hourly_forecasts s)
     (aqhi s) v (station_id s) (aqhi_id s) (requested s)
     (num_calls s) (last_reset s).
Definition log_request (url : string) (s : t) : t :=
  mk (language s) (language_abr s) (zone_name_tag s) (region_name_tag s)
     (metadata s) (conditions s) (alerts s) (daily_forecasts s) (hourly_forecasts s)
     (aqhi s) (forecast_time s) (station_id s) (aqhi_id s) (url :: requested s)
     (num_calls s) (last_reset s).
Definition set_limiter (n : nat) (r : Q) (s : t) : t :=
  mk (language s) (language_abr s) (zone_name_tag s) (region_name_tag s)
     (metadata s) (conditions s) (alerts s) (daily_forecasts s) (hourly_forecasts s)
     (aqhi s) (forecast_time s) (station_id s) (aqhi_id s) (requested s) n r.

(** The double quote of the CSS selectors. *)
Definition dq : string := String "034"%char EmptyString.

(** ['p:contains("{}") span'.format(html_title)] *)
Definition date_pattern (html_title : string) : string :=
  "p:contains(" ++ dq ++ html_title ++ dq ++ ") span".

(** ['p:contains("{}") ~ p'.format(html_title)] *)
Definition detail_pattern (html_title : string) : string :=
  "p:contains(" ++ dq ++ html_title ++ dq ++ ") ~ p".

(** [sep.join([a, b])]; only strings can be joined. *)
Definition join2 (sep : string) (a b : value) : result string :=
  match a, b with
  | VStr x, VStr y => Ok (x ++ sep ++ y)
  | _, _ => Raise TypeError
  end.

(** [l[i]] on a list. *)
Definition index {A} (l : list A) (i : nat) : result A :=
  match l !! i with
  | Some x => Ok x
  | None => Raise IndexError
  end.

(** The inner function [get_condition] of [update], closed over the
    parsed document. *)
Definition get_condition (xml_object : Element) (path : list step)
    (attr : option string) : gmap string value :=
  match find path xml_object with
  | None => ∅
  | Some element =>
      match attr with
      | Some a => {[ "value" := opt_value (attrib element !! a) ]}
      | None =>
          let condition : gmap string value := {[ "value" := opt_value (text element) ]} in
          match attrib element !! "units" with
          | Some (String c u) => <["unit" := VStr (String c u)]> condition
          | _ => condition
          end
      end
  end.

(** [self.alerts[category]['value'].append(a)] *)
Definition append_alert (category : string) (a : alert)
    (d : gmap string alert_category) : gmap string alert_category :=
  alter (fun c => mk_category (category_value c ++ [a]) (category_label c)) category d.

(** [region.getchildren()]: [Element] has had no such method since
    Python 3.9, so the call raises [AttributeError]. *)
Definition getchildren (e : Element) : result (list Element) := Raise AttributeError.

Section WithPrims.
Variable P : Prims.

Definition http_get (url : string) : M t string :=
    fun s => (log_request url s, requests_get P url).

  (** [# Update metadata] *)
Definition update_metadata (xml_object : Element) : M t unit :=
    for_each metadata_meta (fun '(m, path) =>
      match find path xml_object with
      | None => raise AttributeError
      | Some element => modify (over_metadata (insert m (opt_value (text element))))
      end).

  (** [# Update current conditions]: the loop over [conditions_meta]. *)
Definition update_conditions (xml_object : Element) : M t unit :=
    for_each conditions_meta (fun '(c, meta) =>
      let* language := gets language in
      let* lbl := lift (by_language language (english meta) (french meta)) in
      do* modify (over_conditions (insert c ({[ "label" := VStr lbl ]} : gmap string value))) in
      modify (over_conditions
                (alter (fun d => get_condition xml_object (xpath meta) (attribute meta) ∪ d) c))).

  (** [# Update text summary] *)
Definition update_text_summary (xml_object : Element) : M t unit :=
    let* period :=
      lift (getitem (get_condition xml_object (fc [Child "period"]) (Some "textForecastName"))
                    "value") in
    let* summary :=
      lift (getitem (get_condition xml_object (fc [Child "textSummary"]) None) "value") in
    let* language := gets language in
    let* lbl := lift (by_language language "Forecast" "Prévision") in
    let* text_summary := lift (join2 ". " period summary) in
    modify (over_conditions
              (insert "text_summary"
                 ({[ "label" := VStr lbl; "value" := VStr text_summary ]} : gmap string value))).

  (** The first loop of [# Update alerts]: every category is emptied. *)
Definition reset_alerts : M t unit :=
    for_each alerts_meta (fun '(category, meta) =>
      let* language := gets language in
      let* lm := lift (by_language language (alert_english meta) (alert_french meta)) in
      modify (over_alerts (insert category (mk_category [] (label lm))))).

  (** The heading of the alert page that names the alert: the last
      [strong] tag whose text contains the title. *)
Definition find_html_title (alert_html title : string) : string :=
    fold_left
      (fun html_title s =>
         if contains (replace "terminé" "est terminé" (str_lower P title)) (str_lower P s)
         then s else html_title)
      (soup_strong P alert_html) EmptyString.

  (** The body of [for title in alert_list]: the title is filed under
      every category whose pattern it matches. *)
Definition classify (alert_html title : string) : M t unit :=
    for_each alerts_meta (fun '(category, meta) =>
      let* language := gets language in
      let* lm := lift (by_language language (alert_english meta) (alert_french meta)) in
      if Re.search (pattern lm) title
      then
        let html_title := find_html_title alert_html title in
        let* date_match := lift (soup_select P alert_html (date_pattern html_title)) in
        let* detail :=
          (if negb (String.eqb category "endings")
           then let* detail_match := lift (soup_select P alert_html (detail_pattern html_title)) in
                ret (match detail_match with
                     | [] => EmptyString
                     | d :: _ => re_sub_period P d
                     end)
           else ret EmptyString) in
        modify (over_alerts
                  (append_alert category
                     (mk_alert (str_title P title) (hd EmptyString date_match) detail)))
      else ret tt).

  (** [# Update alerts] *)
Definition update_alerts (xml_object : Element) : M t unit :=
    do* reset_alerts in
    let alert_elements := findall [Child "warnings"; Child "event"] xml_object in
    let* alert_list :=
      lift (rmap (fun e => match attrib e !! "description" with
                           | Some d => Ok (str_strip P d)
                           | None => Raise AttributeError
                           end) alert_elements) in
    match alert_list with
    | [] => ret tt
    | _ =>
        let* warnings :=
          lift (match find [Child "warnings"] xml_object with
                | Some w => Ok w
                | None => Raise AttributeError
                end) in
        let* alert_html :=
          (match attrib warnings !! "url" with
           | Some alert_url => http_get alert_url
           | None => raise RequestException
           end) in
        for_each alert_list (classify alert_html)
    end.

  (** [# Update daily forecasts] and [# Update hourly forecasts] *)
Definition update_forecasts (xml_object : Element) : M t unit :=
    do* modify (set_forecast_time
                  (findtext [Child "forecastGroup"; Child "dateTime"; Child "timeStamp"]
                            xml_object)) in
    do* modify (over_daily (fun _ => [])) in
    do* modify (over_hourly (fun _ => [])) in
    do* for_each (findall [Child "forecastGroup"; Child "forecast"] xml_object) (fun f =>
          match find [Child "temperatures"; Child "temperature"] f with
          | None => raise AttributeError
          | Some element =>
              modify (over_daily (fun l => app l
                [ ({[ "period" := opt_value (findtext [Child "period"] f);
                      "text_summary" := opt_value (findtext [Child "textSummary"] f);
                      "icon_code" :=
                        opt_value (findtext [Child "abbreviatedForecast"; Child "iconCode"] f);
                      "temperature" :=
                        opt_value (findtext [Child "temperatures"; Child "temperature"] f);
                      "temperature_class" := opt_value (attrib element !! "class") ]}
                   : gmap string value) ]))
          end) in
    for_each (findall [Child "hourlyForecastGroup"; Child "hourlyForecast"] xml_object) (fun f =>
      modify (over_hourly (fun l => app l
        [ ({[ "period" := opt_value (attrib f !! "dateTimeUTC");
              "condition" := opt_value (findtext [Child "condition"] f);
              "temperature" := opt_value (findtext [Child "temperature"] f);
              "icon_code" := opt_value (findtext [Child "iconCode"] f);
              "precip_probability" := opt_value (findtext [Child "lop"] f) ]}
           : gmap string value) ]))).

  (** The part of [update] that reads the station document, from the
      request to the hourly forecasts. *)
Definition update_station : M t unit :=
    let* station := gets station_id in
    let* language := gets language in
    let* l0 := lift (match language with
                     | String c _ => Ok (String c EmptyString)
                     | EmptyString => Raise IndexError
                     end) in
    let* content := http_get (XML_URL_BASE station l0) in
    let site_xml := decode_latin1 P content in
    let* xml_object := lift (et_fromstring P site_xml) in
    do* update_metadata xml_object in
    do* update_conditions xml_object in
    do* update_text_summary xml_object in
    do* update_alerts xml_object in
    update_forecasts xml_object.

  (** [# Update AQHI current condition] *)
Definition update_aqhi_observation : M t unit :=
    let* id := gets aqhi_id in
    let* zone := lift (index id 0) in
    let* region := lift (index id 1) in
    let* content := http_get (AQHI_OBSERVATION_URL (str P zone) (str P region)) in
    let* site_xml := lift (decode_utf8 P content) in
    let* xml_object := lift (et_fromstring P site_xml) in
    let current := text_or_none [Child "airQualityHealthIndex"] xml_object in
    do* modify (over_aqhi (insert "current" (AText current))) in
    let* language := gets language in
    let* lbl := lift (by_language language "Air Quality Health Index" "Cote air santé") in
    do* modify (over_conditions
                  (insert "air_quality"
                     ({[ "label" := VStr lbl; "value" := opt_value current ]}
                        : gmap string value))) in
    modify (over_aqhi
              (insert "utc_time"
                 (AText (text_or_none [Child "dateStamp"; Child "UTCStamp"] xml_object)))).

  (** [# Update AQHI forecasts] *)
Definition update_aqhi_forecasts : M t unit :=
    let* id := gets aqhi_id in
    let* zone := lift (index id 0) in
    let* region := lift (index id 1) in
    let* content := http_get (AQHI_FORECAST_URL (str P zone) (str P region)) in
    let site_xml := decode_latin1 P content in
    let* xml_object := lift (et_fromstring P site_xml) in
    let* abr := gets language_abr in
    store_forecasts over_aqhi abr xml_object.

  (** The function the decorators of [update] wrap. *)
Definition update_body : M t unit :=
    do* update_station in
    do* update_aqhi_observation in
    update_aqhi_forecasts.

  (** [ratelimit.limits(calls, period)] around [f], called when the
      clock reads [now]: the window restarts once [period] has passed
      since the last restart, the call is counted, and a call beyond
      [calls] in the window raises [RateLimitException]. *)
Definition limits {A} (calls : nat) (period now : Q) (f : M t A) : M t A :=
    let* last := gets last_reset in
    let period_remaining := (period - (now - last))%Q in
    do* (if Qle_bool period_remaining 0
         then modify (set_limiter 0 now)
         else ret tt) in
    let* n := gets num_calls in
    let* last' := gets last_reset in
    do* modify (set_limiter (S n) last') in
    if (calls <? S n)%nat then raise RateLimitException else f.

  (** [ignore_ratelimit_error(fun)] *)
Definition ignore_ratelimit_error (f : M t unit) : M t unit :=
    try_except f RateLimitException (ret tt).

  (** [update], as decorated. *)
Definition update (now : Q) : M t unit :=
    ignore_ratelimit_error (limits 2 60 now update_body).

  (** The body of the loop of [get_ec_sites]: the sites it appends. *)
Definition parse_site (site : gmap string value) : result (list (gmap string value)) :=
    let+ prov := getitem site "Province Codes" in
    if ECHydro.differs prov "HEF"
    then
      let+ la := getitem site "Latitude" in
      let+ la' := value_replace "N" "" la in
      let+ lat := float P (VStr la') in
      let site := <["Latitude" := VFloat lat]> site in
      let+ lo := getitem site "Longitude" in
      let+ lo' := value_replace "W" "" lo in
      let+ lon := float P (VStr lo') in
      Ok [ <["Longitude" := VFloat (times_minus_one lon)]> site ]
    else Ok [].

Definition get_ec_sites : result (list (gmap string value)) :=
    let+ content := requests_get P SITE_LIST_URL in
    let sites_csv_string := response_text P content in
    let+ rest := (match readline sites_csv_string with
                  | (EmptyString, _) => Raise StopIteration
                  | (_, rest) => Ok rest
                  end) in
    let+ sites := rmap parse_site (Csv.DictReader_auto (csv_reader P rest)) in
    Ok (concat sites).

Definition site_distance (lat lon : pyfloat) (site : gmap string value) : result Q :=
    let+ la := getitem site "Latitude" in
    let+ lo := getitem site "Longitude" in
    geodesic P (VFloat lat, VFloat lon) (la, lo).

Definition closest_site (lat lon : pyfloat) : result string :=
    let+ site_list := get_ec_sites in
    let+ closest := Py.min (site_distance lat lon) site_list in
    let+ prov := getitem closest "Province Codes" in
    let+ code := getitem closest "Codes" in
    Ok (str P prov ++ "/" ++ str P code).

Definition get_aqhi_regions (self : t) : result (list (gmap string value)) :=
    Aqhi.get_aqhi_regions P getchildren (zone_name_tag self) (region_name_tag self).

Definition closest_aqhi (self : t) (lat lon : pyfloat) : result (value * value) :=
    Aqhi.closest_aqhi P getchildren (zone_name_tag self) (region_name_tag self) lat lon.
Definition set_station_id (v : string) (s : t) : t :=
    mk (ECData.language s) (language_abr s) (zone_name_tag s) (region_name_tag s)
       (metadata s) (conditions s) (alerts s) (daily_forecasts s) (hourly_forecasts s)
       (aqhi s) (forecast_time s) v (ECData.aqhi_id s) (requested s)
       (num_calls s) (last_reset s).
Definition set_aqhi_id (v : list value) (s : t) : t :=
    mk (ECData.language s) (language_abr s) (zone_name_tag s) (region_name_tag s)
       (metadata s) (conditions s) (alerts s) (daily_forecasts s) (hourly_forecasts s)
       (aqhi s) (forecast_time s) (ECData.station_id s) v (requested s)
       (num_calls s) (last_reset s).

  (** [coordinates[0], coordinates[1]] *)
Definition coordinate_pair (coordinates : option (pyfloat * pyfloat)) : result (pyfloat * pyfloat) :=
    match coordinates with
    | Some xy => Ok xy
    | None => Raise TypeError
    end.

  (** [__init__(station_id, aqhi_id, coordinates, language)], begun when
      the clock reads [now].  The counters of the decorator of [update]
      belong to the function, not to the object: the new object finds
      them as earlier calls left them. *)
Definition __init__ (station_id aqhi_id : option string) (coordinates : option (pyfloat * pyfloat))
      (language : string) (now : Q) : M t unit :=
    let language_abr := str_upper P (String.substring 0 2 language) in
    do* modify (fun s =>
          mk language language_abr
             ("name_" ++ str_lower P language_abr ++ "_CA")
             ("name" ++ str_title P language_abr)
             ∅ ∅ ∅ [] [] ∅ (Some EmptyString) (ECData.station_id s) (ECData.aqhi_id s)
             (requested s) (num_calls s) (last_reset s)) in
    do* (match station_id with
         | Some (String c id) => modify (set_station_id (String c id))
         | _ =>
             let* xy := lift (coordinate_pair coordinates) in
             do* modify (log_request SITE_LIST_URL) in
             let* id := lift (closest_site (fst xy) (snd xy)) in
             modify (set_station_id id)
         end) in
    do* (match aqhi_id with
         | Some (String c id) =>
             modify (set_aqhi_id (map VStr (split "/" (String c id))))
         | _ =>
             let* xy := lift (coordinate_pair coordinates) in
             do* modify (log_request AQHI_SITE_LIST_URL) in
             let* self := gets (fun s => s) in
             let* id := lift (closest_aqhi self (fst xy) (snd xy)) in
             modify (set_aqhi_id [fst id; snd id])
         end) in
    update now.
End WithPrims.

End ECData.

(** ** ec_cache.py *)

Module ECCache.

(** [CACHE_EXPIRE_TIME = timedelta(minutes=200)], in microseconds, the
    resolution of [datetime]. *)
Definition CACHE_EXPIRE_TIME : Z := 200 * 60 * 1000000.

(** A [params] mapping: the items of the dictionary in insertion order
    (the keys are distinct). *)
Definition params_t : Type := list (string * string).

(** [a < b] on the items of [params], as tuples compare. *)
Definition item_ltb (a b : string * string) : bool :=
  match String.compare (fst a) (fst b) with
  | Lt => true
  | Eq => String.ltb (snd a) (snd b)
  | Gt => false
  end.

Fixpoint insert_sorted (x : string * string) (l : list (string * string))
  : list (string * string) :=
  match l with
  | [] => [x]
  | y :: l' => if item_ltb y x then y :: insert_sorted x l' else x :: y :: l'
  end.

(** [sorted(items)]: a stable sort by [<]. *)
Definition sorted (l : list (string * string)) : list (string * string) :=
  fold_right insert_sorted [] l.

(** A response object: [ident] is the identity of the object (the
    number of the upstream call that created it). *)
Record response : Type := mk_response {
  ident : nat;
  payload : string
}.

(** The class attribute [_cache] and the calls made to
    [ClientSession.get] so far, latest first. *)
Record t : Type := mk {
  _cache : gmap (string * list (string * string)) (Z * response);
  upstream : list (string * params_t)
}.

Section WithSession.
  (** The payload [ClientSession.get] answers to a call, or the
      exception it raises; the argument [n] counts the earlier calls. *)
Variable session_get : nat -> string -> params_t -> result string.

  (** [super().get(url=url, params=params)] *)
Definition super_get (url : string) (params : params_t) : M t response :=
    fun s =>
      let n := length (upstream s) in
      (mk (_cache s) ((url, params) :: upstream s),
       match session_get n url params with
       | Ok body => Ok (mk_response n body)
       | Raise e => Raise e
       end).

  (** [_flush_cache], with [now] the reading of [datetime.now()]. *)
Definition _flush_cache (now : Z) : M t unit :=
    modify (fun s =>
      mk (filter (fun kv => ¬ (fst (snd kv) < now)%Z) (_cache s)) (upstream s)).

  (** [get]; [now] is the clock reading of the flush and [now'] the one
      taken when a new entry is stored. *)
Definition get (now now' : Z) (url : string) (params : params_t) (cache_time : Z)
    : M t response :=
    do* _flush_cache now in
    let cache_key := (url, sorted params) in
    let* result := gets (fun s => _cache s !! cache_key) in
    match result with
    | Some r => ret (snd r)
    | None =>
        let* resp := super_get url params in
        let r := ((now' + cache_time)%Z, resp) in
        do* modify (fun s => mk (<[cache_key := r]> (_cache s)) (upstream s)) in
        ret (snd r)
    end.
End WithSession.

End ECCache.

(** ** Concrete primitives

    One choice of the primitives, on which the methods compute: the web
    is a table from URL to content, a document parses when the table of
    documents knows its text, CSV is unquoted, numbers are decimal
    literals and the distance is the squared difference of the
    coordinates.  The examples and instances below run on it. *)

Module Fixture.

Import ET.

Fixpoint assoc {A} (k : string) (l : list (string * A)) : option A :=
  match l with
  | [] => None
  | (k', v) :: l' => if String.eqb k k' then Some v else assoc k l'
  end.

Definition digit (c : ascii) : option Z :=
  let n := nat_of_ascii c in
  if ((48 <=? n) && (n <=? 57))%nat then Some (Z.of_nat (n - 48)) else None.

(** The digits of [s] as a number, with their count. *)
Fixpoint digits (acc : Z) (n : nat) (s : string) : option (Z * nat) :=
  match s with
  | EmptyString => Some (acc, n)
  | String c s' =>
      match digit c with
      | Some d => digits (10 * acc + d) (S n) s'
      | None => None
      end
  end.

(** An unsigned decimal literal [ddd] or [ddd.ddd]. *)
Definition unsigned_decimal (s : string) : option Q :=
  match split "." s with
  | [i] =>
      match digits 0 0 i with
      | Some (v, S _) => Some (inject_Z v)
      | _ => None
      end
  | [i; f] =>
      match digits 0 0 i, digits 0 0 f with
      | Some (v, S _), Some (w, k) =>
          Some (Qmake (v * 10 ^ Z.of_nat k + w) (Z.to_pos (10 ^ Z.of_nat k)))
      | _, _ => None
      end
  | _ => None
  end.

Definition decimal (s : string) : option Q :=
  match s with
  | String "-" s' => option_map Qopp (unsigned_decimal s')
  | _ => unsigned_decimal s
  end.

Definition lower_char (c : ascii) : ascii :=
  let n := nat_of_ascii c in
  if ((65 <=? n) && (n <=? 90))%nat then ascii_of_nat (n + 32) else c.

Definition upper_char (c : ascii) : ascii :=
  let n := nat_of_ascii c in
  if ((97 <=? n) && (n <=? 122))%nat then ascii_of_nat (n - 32) else c.

Fixpoint map_string (f : ascii -> ascii) (s : string) : string :=
  match s with
  | EmptyString => EmptyString
  | String c s' => String (f c) (map_string f s')
  end.

Definition is_letter (c : ascii) : bool :=
  let n := nat_of_ascii c in
  ((65 <=? n) && (n <=? 90) || (97 <=? n) && (n <=? 122))%nat.

(** [str.title] on ASCII letters; [inside] tells whether the previous
    character was a letter. *)
Fixpoint title_from (inside : bool) (s : string) : string :=
  match s with
  | EmptyString => EmptyString
  | String c s' =>
      String (if inside then lower_char c else upper_char c) (title_from (is_letter c) s')
  end.

Fixpoint sub_period (s : string) : string :=
  match s with
  | EmptyString => EmptyString
  | String c s' =>
      match s' with
      | String c' _ =>
          if Ascii.eqb c "." && negb (is_space c')
          then String c (String " " (sub_period s'))
          else String c (sub_period s')
      | EmptyString => String c EmptyString
      end
  end.

Definition unquoted_csv (s : string) : list (list string) :=
  map (fun line => match line with
                   | EmptyString => []
                   | _ => split "," line
                   end) (split "010" s).

(** The text of a float: ['nan'], ['inf'] and ['-inf'] beside the
    decimal literals. *)
Definition float_literal (s : string) : option pyfloat :=
  if String.eqb s "nan" then Some NaN
  else if String.eqb s "inf" then Some PosInf
  else if String.eqb s "-inf" then Some NegInf
  else option_map Finite (decimal s).

(** A point whose coordinates are not two finite floats is refused. *)
Definition flat_distance (a b : value * value) : result Q :=
  match a, b with
  | (VFloat (Finite x), VFloat (Finite y)), (VFloat (Finite x'), VFloat (Finite y')) =>
      Ok ((x - x') * (x - x') + (y - y') * (y - y'))%Q
  | _, _ => Raise ValueError
  end.

Definition prims (web : list (string * string)) (docs : list (string * Element)) : Prims :=
  {| requests_get := fun url => match assoc url web with
                                | Some c => Ok c
                                | None => Raise RequestException
                                end;
     response_text := fun c => c;
     decode_utf8 := fun c => Ok c;
     decode_utf8_sig := fun c => Ok c;
     decode_latin1 := fun c => c;
     et_fromstring := fun s => match assoc s docs with
                               | Some e => Ok e
                               | None => Raise ParseError
                               end;
     csv_reader := unquoted_csv;
     float_of_string := float_literal;
     float_repr := fun _ => "0.0";
     isoparse := fun s => match s with
                          | EmptyString => Raise ValueError
                          | _ => Ok (Z.of_nat (String.length s))
                          end;
     geodesic := flat_distance;
     str_strip := strip;
     str_lower := map_string lower_char;
     str_upper := map_string upper_char;
     str_title := title_from false;
     re_sub_period := sub_period;
     soup_strong := fun _ => [];
     soup_select := fun _ _ => Ok [] |}.

End Fixture.


(** * Specification vocabulary

    The predicates the statements below are written with, and the
    concrete inputs of the instances. *)

Local Open Scope list_scope.

(** [r] is the first record of [l] with the least key: no record has a
    smaller key and every record before [r] has a larger one. *)
Definition first_minimum {A} (key : A -> result Q) (l : list A) (r : A) : Prop :=
  exists (i : nat) (d : Q),
    l !! i = Some r /\ key r = Ok d /\
    forall (j : nat) (r' : A), l !! j = Some r' ->
      exists d', key r' = Ok d' /\ (d <= d')%Q /\ ((j < i)%nat -> (d < d')%Q).

(** The key function is defined on [x]. *)
Definition keyed {A} (key : A -> result Q) (x : A) : Prop := exists d, key x = Ok d.

(** A catalog record with floats under the two keys. *)
Definition has_coordinates (klat klon : string) (site : gmap string value) : Prop :=
  exists la lo, site !! klat = Some (VFloat la) /\ site !! klon = Some (VFloat lo).

(** The geodesic distance, [d] kilometres, from the target to the point a
    record holds under its two coordinate keys. *)
Definition distance_to (P : Prims) (lat lon : pyfloat) (klat klon : string)
    (site : gmap string value) (d : Q) : Prop :=
  exists la lo,
    site !! klat = Some la /\ site !! klon = Some lo /\
    geodesic P (VFloat lat, VFloat lon) (la, lo) = Ok d.

(** The distance primitive accepts the point of the record. *)
Definition reachable (P : Prims) (lat lon : pyfloat) (klat klon : string)
    (site : gmap string value) : Prop :=
  exists d, distance_to P lat lon klat klon site d.

(** [r] is the record of the catalog nearest to the target: no record is
    at a smaller geodesic distance, and every record listed before [r] is
    at a larger one. *)
Definition nearest (P : Prims) (lat lon : pyfloat) (klat klon : string)
    (catalog : list (gmap string value)) (r : gmap string value) : Prop :=
  exists (i : nat) (d : Q),
    catalog !! i = Some r /\ distance_to P lat lon klat klon r d /\
    forall (j : nat) (r' : gmap string value) (d' : Q),
      catalog !! j = Some r' -> distance_to P lat lon klat klon r' d' ->
      (d <= d')%Q /\ ((j < i)%nat -> (d < d')%Q).

(** The station list of the scenario: A at (45.0, -75.0) and B at
    (46.0, -76.0). *)
Definition two_stations : string :=
  "ID,Name / Nom,Latitude,Longitude,Prov
A,first,45.0,-75.0,ON
B,second,46.0,-76.0,ON
".

Definition two_stations_web : Prims :=
  Fixture.prims [(ECHydro.SITE_LIST_URL, two_stations)] [].

Definition two_stations_catalog : list (gmap string value) :=
  match ECHydro.get_hydro_sites two_stations_web with
  | Ok c => c
  | Raise _ => []
  end.

(** The rows [get_hydro_sites] iterates over, for the decoded text of
    the station list. *)
Definition hydro_rows (P : Prims) (text : string) : list (gmap string value) :=
  let '(line, rest) := readline text in
  Csv.DictReader (ECHydro.header_of P line) (csv_reader P rest).

(** The rows [get_ec_sites] iterates over, for the text that follows the
    first line of the site list. *)
Definition ec_rows (P : Prims) (rest : string) : list (gmap string value) :=
  Csv.DictReader_auto (csv_reader P rest).

(** The regions [get_aqhi_regions] iterates over: the [region] elements
    of every administrative zone of the document. *)
Definition aqhi_region_elements (xml_object : ET.Element) : list ET.Element :=
  flat_map (ET.findall [ET.Child "regionList"; ET.Child "region"])
           (ET.findall [ET.Child "EC_administrativeZone"] xml_object).

(** Of the coordinate texts [a] and [b], [float] refuses one. *)
Definition refused (P : Prims) (a b : string) : Prop :=
  float_of_string P a = None \/ float_of_string P b = None.

(** A row of the hydrometric station list that holds both coordinates
    as text, one of which is no number. *)
Definition hydro_bad_row (P : Prims) (row : gmap string value) : Prop :=
  exists a b,
    row !! "Latitude" = Some (VStr a) /\ row !! "Longitude" = Some (VStr b) /\ refused P a b.

(** The record made of a row of the hydrometric station list: the row
    with its two coordinates replaced by the floats read from them. *)
Definition hydro_record (P : Prims) (row site : gmap string value) : Prop :=
  exists la lo lat lon,
    row !! "Latitude" = Some la /\ float P la = Ok lat /\
    row !! "Longitude" = Some lo /\ float P lo = Ok lon /\
    site = <["Longitude" := VFloat lon]> (<["Latitude" := VFloat lat]> row).

(** A row of the weather site list, of a province other than HEF, that
    holds both coordinates as text, one of which is no number once its
    letter is taken off. *)
Definition ec_bad_row (P : Prims) (row : gmap string value) : Prop :=
  exists prov a b,
    row !! "Province Codes" = Some prov /\ ECHydro.differs prov "HEF" = true /\
    row !! "Latitude" = Some (VStr a) /\ row !! "Longitude" = Some (VStr b) /\
    refused P (replace "N" "" a) (replace "W" "" b).

(** What the loader makes of a row of the weather site list: nothing
    for the province code HEF, and otherwise the row with its coordinates
    replaced by the floats read from them, the longitude negated. *)
Definition ec_records (P : Prims) (row : gmap string value)
    (out : list (gmap string value)) : Prop :=
  (row !! "Province Codes" = Some (VStr "HEF") /\ out = []) \/
  (exists prov la lo lat lon,
     row !! "Province Codes" = Some prov /\ ECHydro.differs prov "HEF" = true /\
     row !! "Latitude" = Some (VStr la) /\ float_of_string P (replace "N" "" la) = Some lat /\
     row !! "Longitude" = Some (VStr lo) /\ float_of_string P (replace "W" "" lo) = Some lon /\
     out = [ <["Longitude" := VFloat (times_minus_one lon)]>
               (<["Latitude" := VFloat lat]> row) ]).

(** The [region] elements of a zone. *)
Definition regions_of (zone : ET.Element) : list ET.Element :=
  ET.findall [ET.Child "regionList"; ET.Child "region"] zone.

(** The zone has the two attributes the loader reads of it. *)
Definition zone_named (zone_name_tag : string) (zone : ET.Element) : Prop :=
  is_Some (ET.attrib zone !! "abreviation") /\ is_Some (ET.attrib zone !! zone_name_tag).

(** A region that has its name and its code and holds both coordinates,
    one of which is no number. *)
Definition aqhi_bad_region (P : Prims) (region_name_tag : string) (region : ET.Element)
  : Prop :=
  is_Some (ET.attrib region !! region_name_tag) /\ is_Some (ET.attrib region !! "cgndb") /\
  exists a b,
    ET.attrib region !! "latitude" = Some a /\ ET.attrib region !! "longitude" = Some b /\
    refused P a b.

(** The record [ECAQHI.get_aqhi_regions] makes of a region of a zone:
    the name, the code and the two parsed coordinates of the region,
    then the text of every child element of the region under its tag,
    then the abbreviation and the name of the zone, a later entry
    replacing an earlier one under the same key. *)
Definition aqhi_record (P : Prims) (zone_name_tag region_name_tag : string)
    (zone region : ET.Element) (r : gmap string value) : Prop :=
  exists abbreviation zone_name name cgndb la lo lat lon,
    ET.attrib zone !! "abreviation" = Some abbreviation /\
    ET.attrib zone !! zone_name_tag = Some zone_name /\
    ET.attrib region !! region_name_tag = Some name /\
    ET.attrib region !! "cgndb" = Some cgndb /\
    ET.attrib region !! "latitude" = Some la /\ float_of_string P la = Some lat /\
    ET.attrib region !! "longitude" = Some lo /\ float_of_string P lo = Some lon /\
    r = ({[ "abbreviation" := VStr abbreviation; "zone_name" := VStr zone_name ]}
           : gmap string value)
        ∪ fold_left (fun d child => <[ET.tag child := opt_value (ET.text child)]> d)
                    (ET.children region)
                    ({[ "region_name" := VStr name; "cgndb" := VStr cgndb;
                        "latitude" := VFloat lat; "longitude" := VFloat lon ]}
                       : gmap string value).

(** The region loads: [ECAQHI.get_aqhi_regions] finds its name, its code
    and two coordinates that are numbers. *)
Definition region_loads (P : Prims) (region_name_tag : string) (region : ET.Element) : Prop :=
  exists name cgndb la lo lat lon,
    ET.attrib region !! region_name_tag = Some name /\
    ET.attrib region !! "cgndb" = Some cgndb /\
    ET.attrib region !! "latitude" = Some la /\ float_of_string P la = Some lat /\
    ET.attrib region !! "longitude" = Some lo /\ float_of_string P lo = Some lon.

(** The zone loads: it is named and all its regions load. *)
Definition zone_loads (P : Prims) (zone_name_tag region_name_tag : string)
    (zone : ET.Element) : Prop :=
  zone_named zone_name_tag zone /\ Forall (region_loads P region_name_tag) (regions_of zone).

(** The name tags [get_aqhi_regions] derives from the abbreviation of
    the language. *)
Definition zone_tag (P : Prims) (language_abr : string) : string :=
  "name_" ++ str_lower P language_abr ++ "_CA".
Definition region_tag (P : Prims) (language_abr : string) : string :=
  "name" ++ str_title P language_abr.

(** A station list whose first entry has an empty latitude. *)
Definition blank_latitude : string :=
  "ID,Name / Nom,Latitude,Longitude,Prov
A,first,,-75.0,ON
B,second,46.0,-76.0,ON
".

Definition blank_latitude_web : Prims :=
  Fixture.prims [(ECHydro.SITE_LIST_URL, blank_latitude)] [].

(** The record of station B of [blank_latitude], coordinates parsed. *)
Definition station_B : gmap string value :=
  {[ "ID" := VStr "B"; "Name" := VStr "second"; "Latitude" := VFloat (460 # 10);
     "Longitude" := VFloat (- (760 # 10)); "Prov" := VStr "ON" ]}.

(** Every run of the method body [m] relates the state it starts from
    to the state it ends in, whether it returns or raises. *)
Definition related {St A} (R : St -> St -> Prop) (m : M St A) : Prop :=
  forall s, R s (fst (m s)).

(** The two states have issued the same requests. *)
Definition same_requests (s s' : ECHydro.t) : Prop :=
  ECHydro.requested s' = ECHydro.requested s.

(** The number of occurrences of the character [c] in [s]. *)
Fixpoint occurrences (c : ascii) (s : string) : nat :=
  match s with
  | EmptyString => O
  | String c' s' => (if Ascii.eqb c' c then 1 else 0) + occurrences c s'
  end.

(** A province or station code: it holds none of the separators of the
    path template. *)
Definition identifier (s : string) : Prop :=
  occurrences "/" s = O /\ occurrences "_" s = O.

(** The two states have issued the same requests. *)
Definition aqhi_same_requests (s s' : ECAQHI.t) : Prop :=
  ECAQHI.requested s' = ECAQHI.requested s.

(** [s'] has issued the requests of [s] and at most one more. *)
Definition at_most_one_more (before after : list string) : Prop :=
  after = before \/ exists url, after = url :: before.

(** A hydrometric station and the notification of its file. *)
Definition station_08MG005 : ECHydro.t :=
  ECHydro.mk ∅ None None "BC" "08MG005" [] [].

Definition notice_08MG005 : string :=
  "20201104 http://dd.weather.gc.ca /hydrometric/csv/BC/hourly/BC_08MG005_hourly_hydrometric.csv".

(** A session that answers every request with its own URL. *)
Definition echo_session (n : nat) (url : string) (params : ECCache.params_t)
  : result string := Ok url.

Definition empty_cache : ECCache.t := ECCache.mk ∅ [].

(** The state after a first [get] of the radar layer at time 1000. *)
Definition after_first_get : ECCache.t :=
  fst (ECCache.get echo_session 1000 1000 "https://geo.weather.gc.ca/geomet"
         [("layers", "RADAR"); ("format", "png")] ECCache.CACHE_EXPIRE_TIME empty_cache).

(** An [ECData] object for Ottawa whose [update] has been called twice
    since the limiter's window opened at time 0. *)
Definition ottawa_after_two_calls : ECData.t :=
  ECData.mk "english" "EN" "name_en_CA" "nameEn" ∅ ∅ ∅ [] [] ∅ (Some EmptyString)
            "ON/s0000430" [VStr "ont"; VStr "FCWYG"] [] 2 0.

(** The document a fetch works on: the content behind [url], decoded and
    parsed.  A failure of the retrieval, of the decoding or of the parse
    is a failure of the document. *)
Definition fetch_document (P : Prims) (url : string) (decode : string -> result string)
  : result ET.Element :=
  let+ content := requests_get P url in
  let+ text := decode content in
  et_fromstring P text.

(** The decoded text behind [url], for the feeds that are not XML. *)
Definition fetch_text (P : Prims) (url : string) (decode : string -> result string)
  : result string :=
  let+ content := requests_get P url in
  decode content.

(** What the station part of [ECData.update] leaves alone: the air
    quality dictionary, the air quality identifier and the [air_quality]
    condition. *)
Definition station_frame (s s' : ECData.t) : Prop :=
  ECData.aqhi s' = ECData.aqhi s /\
  ECData.aqhi_id s' = ECData.aqhi_id s /\
  ECData.language_abr s' = ECData.language_abr s /\
  ECData.conditions s' !! "air_quality" = ECData.conditions s !! "air_quality".

(** What the air quality observation part leaves alone. *)
Definition observation_frame (s s' : ECData.t) : Prop :=
  ECData.aqhi s' !! "forecasts" = ECData.aqhi s !! "forecasts" /\
  ECData.aqhi_id s' = ECData.aqhi_id s.

(** An element, its attributes given as a list. *)
Definition el (t : string) (a : list (string * string)) (x : option string)
    (ch : list ET.Element) : ET.Element :=
  ET.mkElement t (list_to_map a) x ch.

(** A station document with one warning in force. *)
Definition ottawa_xml : ET.Element :=
  el "siteData" [] None
    [ el "location" [] None [ el "name" [("code", "s0000430")] (Some "Ottawa") [] ];
      el "warnings" [("url", "https://weather.gc.ca/warnings/report_e.html?on41")] None
        [ el "event" [("type", "warning"); ("description", "SNOWFALL WARNING ")] None [] ];
      el "currentConditions" [] None
        [ el "station" [] (Some "Ottawa Intl Airport") [];
          el "dateTime" [] None [ el "timeStamp" [] (Some "20201104150000") [] ];
          el "temperature" [("units", "C")] (Some "3.1") [] ];
      el "forecastGroup" [] None
        [ el "dateTime" [] None [ el "timeStamp" [] (Some "20201104160000") [] ];
          el "forecast" [] None
            [ el "period" [("textForecastName", "Today")] (Some "Wednesday") [];
              el "textSummary" [] (Some "Snow.") [];
              el "temperatures" [] None
                [ el "temperature" [("class", "high")] (Some "1") [] ] ] ] ].

(** The web on which the station document is served and the alert page
    is not. *)
Definition ottawa_web : Prims :=
  Fixture.prims [(ECData.XML_URL_BASE "ON/s0000430" "e", "ottawa.xml")]
                [("ottawa.xml", ottawa_xml)].

(** An [ECData] object for Ottawa that holds a warning from an earlier
    update. *)
Definition ottawa_with_alert : ECData.t :=
  ECData.mk "english" "EN" "name_en_CA" "nameEn" ∅ ∅
            {[ "warnings" := ECData.mk_category
                                [ECData.mk_alert "Wind Warning" "3:00 PM EST" "Strong winds."]
                                "Warnings" ]}
            [] [] ∅ (Some EmptyString) "ON/s0000430" [VStr "ont"; VStr "FCWYG"] [] 0 0.

(** A station document of a site that reports no current conditions. *)
Definition no_conditions_xml : ET.Element :=
  el "siteData" [] None
    [ el "location" [] None [ el "name" [("code", "s0000430")] (Some "Ottawa") [] ];
      el "warnings" [] None [];
      el "currentConditions" [] None [];
      el "forecastGroup" [] None
        [ el "dateTime" [] None [ el "timeStamp" [] (Some "20201104160000") [] ];
          el "forecast" [] None
            [ el "period" [("textForecastName", "Today")] (Some "Wednesday") [];
              el "textSummary" [] (Some "Snow.") [];
              el "temperatures" [] None
                [ el "temperature" [("class", "high")] (Some "1") [] ] ] ] ].

Definition no_conditions_web : Prims :=
  Fixture.prims [(ECData.XML_URL_BASE "ON/s0000430" "e", "ottawa.xml")]
                [("ottawa.xml", no_conditions_xml)].

(** A fresh [ECData] object for Ottawa. *)
Definition ottawa : ECData.t :=
  ECData.mk "english" "EN" "name_en_CA" "nameEn" ∅ ∅ ∅ [] [] ∅ (Some EmptyString)
            "ON/s0000430" [VStr "ont"; VStr "FCWYG"] [] 0 0.

(** The measurement [fetch_new_data] stores for a column. *)
Definition measurement (label : string) (v : pyfloat) (unit : string)
  : gmap string value :=
  {[ "label" := VStr label; "value" := VFloat v; "unit" := VStr unit ]}.

(** The measurements [fetch_new_data] looks for: key, column, label and
    unit. *)
Definition hydro_quantities : list (string * string * string * string) :=
  [ ("water_level", "Water Level", "Water Level", "m");
    ("discharge", "Discharge", "Discharge", "m³/s") ].

(** Hourly readings whose latest line has a discharge and no water
    level. *)
Definition readings_without_level : string :=
  "ID,Date,Water Level / Niveau d'eau (m),Discharge / Débit (cms)
08MG005,2020-11-04T09:00:00-08:00,1.5,2.4
08MG005,2020-11-04T10:00:00-08:00,,2.5
".

Definition readings_web : Prims :=
  Fixture.prims [(ECHydro.READINGS_URL "BC" "08MG005", readings_without_level)] [].

(** The station after an earlier fetch that read a water level. *)
Definition station_with_level : ECHydro.t :=
  ECHydro.mk {[ "water_level" := measurement "Water Level" (15 # 10) "m" ]}
             (Some 25%Z) None "BC" "08MG005" [] [].

(** The entry [update] stores under the key of a condition. *)
Definition condition_entry (xml_object : ET.Element) (language : string)
    (meta : ECData.cond_meta) : gmap string value :=
  ECData.get_condition xml_object (ECData.xpath meta) (ECData.attribute meta)
    ∪ {[ "label" := VStr (if String.eqb language "english"
                          then ECData.english meta else ECData.french meta) ]}.

(** One turn of the loop over [conditions_meta], on the dictionary of
    conditions. *)
Definition store_condition (xml_object : ET.Element) (language : string)
    (m : gmap string (gmap string value)) (entry : string * ECData.cond_meta)
  : gmap string (gmap string value) :=
  <[fst entry := condition_entry xml_object language (snd entry)]> m.

(** What a successful [fetch_new_data] leaves in the measurements, for
    the decoded text of the readings: without readings nothing changes;
    otherwise a measurement is overwritten when the latest reading has a
    value in its column and kept when the column is empty, and every
    other key is kept. *)
Definition hydro_merged (P : Prims) (s s' : ECHydro.t) (text : string) : Prop :=
  match last (hydro_rows P text) with
  | None =>
      ECHydro.measurements s' = ECHydro.measurements s /\
      ECHydro.timestamp s' = ECHydro.timestamp s
  | Some latest =>
      (forall key column label units,
          In (key, column, label, units) hydro_quantities ->
          exists cell,
            latest !! column = Some cell /\
            if ECHydro.differs cell ""
            then exists v, float P cell = Ok v /\
                           ECHydro.measurements s' !! key = Some (measurement label v units)
            else ECHydro.measurements s' !! key = ECHydro.measurements s !! key) /\
      (forall key, key <> "water_level" -> key <> "discharge" ->
                   ECHydro.measurements s' !! key = ECHydro.measurements s !! key)
  end.

(** The station after the fetch of [readings_without_level]. *)
Definition after_readings : ECHydro.t :=
  fst (ECHydro.fetch_new_data readings_web station_with_level).

(** The value stored for a measurement, if any. *)
Definition reading (s : ECHydro.t) (key : string) : option value :=
  match ECHydro.measurements s !! key with
  | Some m => m !! "value"
  | None => None
  end.

(** The title has an occurrence of one of the keywords after which the
    terminator does not occur. *)
Definition unended (keywords : list string) (term title : string) : Prop :=
  exists pre kw post,
    In kw keywords /\ title = (pre ++ kw ++ post)%string /\ contains term post = false.

(** The text holds no newline. *)
Definition one_line (s : string) : Prop := occurrences Re.newline s = O.

(** The keywords of the active categories, English and French. *)
Definition alert_keywords : list (string * (list string * list string)) :=
  [ ("warnings", (["WARNING"], ["ALERTE"; "AVERTISSEMENT"]));
    ("watches", (["WATCH"], ["VEILLE"]));
    ("advisories", (["ADVISORY"], ["AVIS"]));
    ("statements", (["STATEMENT"], ["BULLETIN"])) ].

(** The entry of [alerts_meta] in the language of the object. *)
Definition in_language (language : string) (meta : ECData.alert_meta) : ECData.lang_meta :=
  if String.eqb language "english" then ECData.alert_english meta
  else ECData.alert_french meta.

(** [category['value'].append(a)] on an entry of [self.alerts]. *)
Definition filed (a : ECData.alert) (c : ECData.alert_category) : ECData.alert_category :=
  ECData.mk_category (ECData.category_value c ++ [a]) (ECData.category_label c).

(** Whether the English pattern of a category matches a title. *)
Definition english_match (category title : string) : option bool :=
  option_map (fun meta => Re.search (ECData.pattern (ECData.alert_english meta)) title)
             (Fixture.assoc category ECData.alerts_meta).

(** The word that marks an ended alert in a language. *)
Definition terminator (language : string) : string :=
  if String.eqb language "english" then "ENDED" else "TERMINÉ".

(** What the pattern of a category asks of a title: for an active category
    an occurrence of a keyword with no terminator after it, for the
    endings an occurrence of the terminator. *)
Definition category_matches (language category title : string) : Prop :=
  if String.eqb category "endings" then contains (terminator language) title = true
  else match Fixture.assoc category alert_keywords with
       | Some (en, fr) =>
           unended (if String.eqb language "english" then en else fr)
                   (terminator language) title
       | None => False
       end.

(** The weather object in English with the alert categories as [update]
    resets them. *)
Definition english_object : ECData.t := fst (ECData.reset_alerts ottawa).

(** Primitives that serve no page and no document. *)
Definition no_pages : Prims := Fixture.prims [] [].

(** The titles filed under a category. *)
Definition titles_under (category : string) (s : ECData.t) : option (list string) :=
  (fun c => map ECData.title (ECData.category_value c)) <$> ECData.alerts s !! category.

(** ** Vocabulary of the further properties *)

(** What a fetch or a poll leaves of a hydrometric object: the station
    it stands for. *)
Definition same_station (s s' : ECHydro.t) : Prop :=
  ECHydro.province s' = ECHydro.province s /\
  ECHydro.station s' = ECHydro.station s /\
  ECHydro.location s' = ECHydro.location s.

(** What a connection does with the callback during one call of
    [drain_events], for whatever it has received: it hands the bodies to
    the callback, one after the other, and then returns or, with
    [timeout], raises [socket.timeout]. *)
Definition deliver {St : Type} (bodies : list string) (timeout : bool)
    (callback : string -> M St unit) : M St unit :=
  do* for_each bodies callback in
  if timeout then (fun s => (s, Raise SocketTimeout)) else ret tt.

(** The body of a notification names the station of the object. *)
Definition names_station (s : ECHydro.t) (body : string) : bool :=
  contains (ECHydro.HYDRO_MESSAGE (ECHydro.province s) (ECHydro.station s)) body.

(** Hourly readings whose latest line has a water level and a discharge
    that is no number. *)
Definition readings_bad_discharge : string :=
  "ID,Date,Water Level / Niveau d'eau (m),Discharge / Débit (cms)
08MG005,2020-11-04T10:00:00-08:00,1.7,n/a
".

Definition bad_discharge_web : Prims :=
  Fixture.prims [(ECHydro.READINGS_URL "BC" "08MG005", readings_bad_discharge)] [].

(** A newly allocated hydrometric object: no attribute is set, nothing
    waits on the queue and nothing has been requested. *)
Definition new_hydro : ECHydro.t := ECHydro.mk ∅ None None EmptyString EmptyString [] [].

(** The station list of the scenario and the readings of station A. *)
Definition two_stations_with_readings : Prims :=
  Fixture.prims [ (ECHydro.SITE_LIST_URL, two_stations);
                  (ECHydro.READINGS_URL "ON" "A", readings_without_level) ] [].

(** The latest line of [readings_bad_discharge], as the reader hands it
    over. *)
Definition latest_bad_discharge : gmap string value :=
  default ∅ (last (hydro_rows bad_discharge_web readings_bad_discharge)).

(** The entry the hourly loop of the air quality forecasts makes of an
    element. *)
Definition hourly_entry (f : ET.Element) : gmap string value :=
  {[ "period" := opt_value (ET.attrib f !! "UTCTime"); "aqhi" := opt_value (ET.text f) ]}.

(** The index a daily air quality forecast carries. *)
Definition daily_index (f : ET.Element) : value :=
  opt_value (ET.findtext [ET.Child "airQualityHealthIndex"] f).

(** The air quality dictionary holds, under [forecasts], one daily entry
    for every daily forecast of the document, with its index, and the
    entries of the hourly forecasts, whatever it held before. *)
Definition forecasts_of (tree : ET.Element) (d : gmap string Aqhi.aqhi_value) : Prop :=
  exists daily,
    d !! "forecasts" =
      Some (Aqhi.AForecasts daily
              (map hourly_entry
                   (ET.findall [ET.Child "hourlyForecastGroup"; ET.Child "hourlyForecast"] tree))) /\
    Forall2 (fun f e => e !! "aqhi" = Some (daily_index f))
            (ET.findall [ET.Child "forecastGroup"; ET.Child "forecast"] tree) daily.

(** Two dictionaries agree outside the key [k]. *)
Definition same_but {V} (k : string) (d d' : gmap string V) : Prop :=
  forall k', k' <> k -> d' !! k' = d !! k'.

(** What a fetch leaves of an air quality object: the region it stands
    for and its language. *)
Definition same_region (s s' : ECAQHI.t) : Prop :=
  ECAQHI.aqhi_id s' = ECAQHI.aqhi_id s /\
  ECAQHI.language s' = ECAQHI.language s /\
  ECAQHI.language_abr s' = ECAQHI.language_abr s.

(** The observation and forecast addresses of the region of an air
    quality object. *)
Definition observation_url (P : Prims) (s : ECAQHI.t) : string :=
  Aqhi.AQHI_OBSERVATION_URL (str P (fst (ECAQHI.aqhi_id s))) (str P (snd (ECAQHI.aqhi_id s))).
Definition forecast_url (P : Prims) (s : ECAQHI.t) : string :=
  Aqhi.AQHI_FORECAST_URL (str P (fst (ECAQHI.aqhi_id s))) (str P (snd (ECAQHI.aqhi_id s))).

(** An air quality object for a region of Ontario that holds a forecast
    from an earlier fetch. *)
Definition toronto : ECAQHI.t :=
  ECAQHI.mk "english" "EN"
            {[ "current" := Aqhi.AText (Some "3");
               "forecasts" := Aqhi.AForecasts [ {[ "period" := VStr "Tonight" ]} ] [] ]}
            EmptyString (VStr "ont", VStr "FEVNT") [] [].

(** An observation document without index and without time stamp. *)
Definition bare_observation : ET.Element := el "conditionAirQuality" [] None [].

Definition bare_observation_web : Prims :=
  Fixture.prims [(Aqhi.AQHI_OBSERVATION_URL "ont" "FEVNT", "observation.xml")]
                [("observation.xml", bare_observation)].

(** A forecast document with one daily and two hourly forecasts. *)
Definition short_forecast : ET.Element :=
  el "forecastAirQuality" [] None
    [ el "forecastGroup" [] None
        [ el "forecast" [] None
            [ el "period" [("lang", "EN"); ("forecastName", "Today")] None [];
              el "airQualityHealthIndex" [] (Some "4") [] ] ];
      el "hourlyForecastGroup" [] None
        [ el "hourlyForecast" [("UTCTime", "202011041600")] (Some "3") [];
          el "hourlyForecast" [("UTCTime", "202011041700")] (Some "4") [] ] ].

Definition short_forecast_web : Prims :=
  Fixture.prims [(Aqhi.AQHI_FORECAST_URL "ont" "FEVNT", "forecast.xml")]
                [("forecast.xml", short_forecast)].

(** A newly allocated air quality object. *)
Definition new_aqhi : ECAQHI.t :=
  ECAQHI.mk EmptyString EmptyString ∅ EmptyString (VNone, VNone) [] [].

(** A record of the catalog of regions carries the abbreviation and the
    name of the administrative zone [zone]. *)
Definition of_zone (zone_name_tag : string) (zone : ET.Element) (r : gmap string value)
  : Prop :=
  exists a n,
    ET.attrib zone !! "abreviation" = Some a /\ ET.attrib zone !! zone_name_tag = Some n /\
    r !! "abbreviation" = Some (VStr a) /\ r !! "zone_name" = Some (VStr n).

(** A list of regions with one zone and one region, whose [region]
    element has a child tagged like an attribute of the zone. *)
Definition one_region : ET.Element :=
  el "dataFile" [] None
    [ el "EC_administrativeZone" [("abreviation", "ont"); ("name_en_CA", "Ontario")] None
        [ el "regionList" [] None
            [ el "region" [("nameEn", "Toronto"); ("cgndb", "FEVNT");
                           ("latitude", "43.7"); ("longitude", "-79.4")] None
                [ el "abbreviation" [] (Some "tor") [] ] ] ] ].

Definition one_region_web : Prims :=
  Fixture.prims [(Aqhi.AQHI_SITE_LIST_URL, "regions.xml")] [("regions.xml", one_region)].

Definition one_region_catalog : list (gmap string value) :=
  match ECAQHI.get_aqhi_regions one_region_web "EN" with
  | Ok c => c
  | Raise _ => []
  end.

(** A list of regions whose only region has a child element tagged
    [latitude]. *)
Definition region_with_latitude_child : ET.Element :=
  el "dataFile" [] None
    [ el "EC_administrativeZone" [("abreviation", "ont"); ("name_en_CA", "Ontario")] None
        [ el "regionList" [] None
            [ el "region" [("nameEn", "Toronto"); ("cgndb", "FEVNT");
                           ("latitude", "43.7"); ("longitude", "-79.4")] None
                [ el "latitude" [] (Some "north") [] ] ] ] ].

Definition latitude_child_web : Prims :=
  Fixture.prims [(Aqhi.AQHI_SITE_LIST_URL, "regions.xml")]
                [("regions.xml", region_with_latitude_child)].

(** What the body of [ECData.update] leaves alone: the language and the
    identifiers of the object, and the counters of the limiter. *)
Definition same_object (s s' : ECData.t) : Prop :=
  ECData.language s' = ECData.language s /\
  ECData.language_abr s' = ECData.language_abr s /\
  ECData.station_id s' = ECData.station_id s /\
  ECData.aqhi_id s' = ECData.aqhi_id s /\
  ECData.num_calls s' = ECData.num_calls s /\
  ECData.last_reset s' = ECData.last_reset s.

(** The window of the limiter has run out when the clock reads [now]. *)
Definition window_elapsed (now : Q) (s : ECData.t) : bool :=
  Qle_bool (60 - (now - ECData.last_reset s)) 0.

(** The object once the limiter has counted a call made at [now]. *)
Definition counted (now : Q) (s : ECData.t) : ECData.t :=
  if window_elapsed now s then ECData.set_limiter 1 now s
  else ECData.set_limiter (S (ECData.num_calls s)) (ECData.last_reset s) s.

(** The limiter lets a call made at [now] through. *)
Definition admitted (now : Q) (s : ECData.t) : Prop :=
  window_elapsed now s = true \/ (ECData.num_calls s < 2)%nat.

(** A site list with a title line, one site of Ontario and one entry of
    the province code HEF. *)
Definition ec_site_list : string :=
  "Site Names,,,,
Codes,English Names,Province Codes,Latitude,Longitude
s0000430,Ottawa,ON,45.32N,75.67W
s0000001,High elevation,HEF,,
".

Definition ec_site_list_web : Prims := Fixture.prims [(ECData.SITE_LIST_URL, ec_site_list)] [].

Definition ec_site_catalog : list (gmap string value) :=
  match ECData.get_ec_sites ec_site_list_web with
  | Ok c => c
  | Raise _ => []
  end.

(** A record of the weather site list as the loader leaves it: floats
    under both coordinates and a province code other than HEF. *)
Definition ec_site (r : gmap string value) : Prop :=
  has_coordinates "Latitude" "Longitude" r /\
  exists prov, r !! "Province Codes" = Some prov /\ prov <> VStr "HEF".

(** The entry the loop over the hourly weather forecasts makes of an
    element. *)
Definition hourly_weather (f : ET.Element) : gmap string value :=
  {[ "period" := opt_value (ET.attrib f !! "dateTimeUTC");
     "condition" := opt_value (ET.findtext [ET.Child "condition"] f);
     "temperature" := opt_value (ET.findtext [ET.Child "temperature"] f);
     "icon_code" := opt_value (ET.findtext [ET.Child "iconCode"] f);
     "precip_probability" := opt_value (ET.findtext [ET.Child "lop"] f) ]}.

(** A daily weather forecast and the entry made of it: the entry holds
    the period, the summary and the temperature of the forecast, and the
    class of its temperature element. *)
Definition daily_weather (f : ET.Element) (e : gmap string value) : Prop :=
  e !! "period" = Some (opt_value (ET.findtext [ET.Child "period"] f)) /\
  e !! "text_summary" = Some (opt_value (ET.findtext [ET.Child "textSummary"] f)) /\
  e !! "temperature" =
    Some (opt_value (ET.findtext [ET.Child "temperatures"; ET.Child "temperature"] f)) /\
  exists element,
    ET.find [ET.Child "temperatures"; ET.Child "temperature"] f = Some element /\
    e !! "temperature_class" = Some (opt_value (ET.attrib element !! "class")).

(** A station document without warnings. *)
Definition quiet_xml : ET.Element :=
  el "siteData" [] None
    [ el "warnings" [] None [];
      el "forecastGroup" [] None
        [ el "dateTime" [] None [ el "timeStamp" [] (Some "20201104160000") [] ];
          el "forecast" [] None
            [ el "period" [("textForecastName", "Today")] (Some "Wednesday") [];
              el "textSummary" [] (Some "Sunny.") [];
              el "temperatures" [] None
                [ el "temperature" [("class", "high")] (Some "7") [] ] ];
          el "forecast" [] None
            [ el "period" [("textForecastName", "Tonight")] (Some "Wednesday night") [];
              el "textSummary" [] (Some "Clear.") [];
              el "temperatures" [] None
                [ el "temperature" [("class", "low")] (Some "-2") [] ] ] ];
      el "hourlyForecastGroup" [] None
        [ el "hourlyForecast" [("dateTimeUTC", "202011041700")] None
            [ el "condition" [] (Some "Sunny") []; el "temperature" [] (Some "6") [] ] ] ].

(** A newly allocated weather object that finds the limiter as two
    earlier calls left it, in a window opened at time 0. *)
Definition third_object : ECData.t :=
  ECData.mk EmptyString EmptyString EmptyString EmptyString ∅ ∅ ∅ [] [] ∅ None
            EmptyString [] [] 2 0.

(** The web that serves [bare_observation] and [short_forecast] for the
    region of [ottawa]. *)
Definition ottawa_air_web : Prims :=
  Fixture.prims [ (Aqhi.AQHI_OBSERVATION_URL "ont" "FCWYG", "observation.xml");
                  (Aqhi.AQHI_FORECAST_URL "ont" "FCWYG", "forecast.xml") ]
                [ ("observation.xml", bare_observation); ("forecast.xml", short_forecast) ].

(** The key [get] files a request under. *)
Definition cache_key (url : string) (params : ECCache.params_t)
  : string * list (string * string) :=
  (url, ECCache.sorted params).

(** The cache holds no entry for the key that is still valid at [now]. *)
Definition no_live_entry (now : Z) (s : ECCache.t) (key : string * list (string * string))
  : Prop :=
  forall expiry resp, ECCache._cache s !! key = Some (expiry, resp) -> (expiry < now)%Z.

(** A session that refuses every request. *)
Definition failing_session (n : nat) (url : string) (params : ECCache.params_t)
  : result string := Raise RequestException.

(** The body of a notification names an observation or a forecast of the
    region of the object. *)
Definition names_region (P : Prims) (s : ECAQHI.t) (body : string) : bool :=
  contains (ECAQHI.OBSERVATION_MESSAGE (str P (fst (ECAQHI.aqhi_id s)))
                                     (str P (snd (ECAQHI.aqhi_id s)))) body
  || contains (ECAQHI.FORECAST_MESSAGE (str P (fst (ECAQHI.aqhi_id s)))
                                     (str P (snd (ECAQHI.aqhi_id s)))) body.

(** The two weather objects have issued the same requests. *)
Definition weather_same_requests (s s' : ECData.t) : Prop :=
  ECData.requested s' = ECData.requested s.

(** The titles of the warning events of a station document, as the
    alert part of [update] reads them. *)
Definition alert_titles (P : Prims) (xml_object : ET.Element) : result (list string) :=
  rmap (fun e => match ET.attrib e !! "description" with
                 | Some d => Ok (str_strip P d)
                 | None => Raise AttributeError
                 end)
       (ET.findall [ET.Child "warnings"; ET.Child "event"] xml_object).

(** Every alert category of the object is empty. *)
Definition no_alerts (s : ECData.t) : Prop :=
  forall category meta,
    In (category, meta) ECData.alerts_meta ->
    exists lbl, ECData.alerts s !! category = Some (ECData.mk_category [] lbl).

(** The web on which every document of Ottawa is served: the station
    document with its warning, the alert page, the air quality
    observation and the air quality forecast. *)
Definition ottawa_full_web : Prims :=
  Fixture.prims [ (ECData.XML_URL_BASE "ON/s0000430" "e", "ottawa.xml");
                  ("https://weather.gc.ca/warnings/report_e.html?on41", "<html></html>");
                  (Aqhi.AQHI_OBSERVATION_URL "ont" "FCWYG", "observation.xml");
                  (Aqhi.AQHI_FORECAST_URL "ont" "FCWYG", "forecast.xml") ]
                [ ("ottawa.xml", ottawa_xml);
                  ("observation.xml", bare_observation);
                  ("forecast.xml", short_forecast) ].

(** A newly allocated weather object that finds the limiter unused. *)
Definition new_weather : ECData.t :=
  ECData.mk EmptyString EmptyString EmptyString EmptyString ∅ ∅ ∅ [] [] ∅ None
            EmptyString [] [] 0 0.

(** A weather object in English before the choice of its station. *)
Definition new_weather_english : ECData.t :=
  ECData.mk "english" "EN" "name_en_CA" "nameEn" ∅ ∅ ∅ [] [] ∅ (Some EmptyString)
            EmptyString [] [] 0 0.

(** The web of Ottawa with the two catalogs: the site list and the list
    of air quality regions. *)
Definition ontario_regions : ET.Element :=
  el "dataFile" [] None
    [ el "EC_administrativeZone" [("abreviation", "ont"); ("name_en_CA", "Ontario")] None
        [ el "regionList" [] None
            [ el "region" [("nameEn", "Ottawa"); ("cgndb", "FCWYG");
                           ("latitude", "45.4"); ("longitude", "-75.7")] None [] ] ] ].

Definition ottawa_discovery_web : Prims :=
  Fixture.prims [ (ECData.SITE_LIST_URL, ec_site_list);
                  (Aqhi.AQHI_SITE_LIST_URL, "regions.xml");
                  (ECData.XML_URL_BASE "ON/s0000430" "e", "ottawa.xml");
                  ("https://weather.gc.ca/warnings/report_e.html?on41", "<html></html>");
                  (Aqhi.AQHI_OBSERVATION_URL "ont" "FCWYG", "observation.xml");
                  (Aqhi.AQHI_FORECAST_URL "ont" "FCWYG", "forecast.xml") ]
                [ ("regions.xml", ontario_regions);
                  ("ottawa.xml", ottawa_xml);
                  ("observation.xml", bare_observation);
                  ("forecast.xml", short_forecast) ].

(** The web that serves the list of regions and the two documents of the
    region of Toronto. *)
Definition toronto_discovery_web : Prims :=
  Fixture.prims [ (Aqhi.AQHI_SITE_LIST_URL, "regions.xml");
                  (Aqhi.AQHI_OBSERVATION_URL "ont" "FEVNT", "observation.xml");
                  (Aqhi.AQHI_FORECAST_URL "ont" "FEVNT", "forecast.xml") ]
                [ ("regions.xml", one_region);
                  ("observation.xml", bare_observation);
                  ("forecast.xml", short_forecast) ].
(** * Properties *)

(** ** The builtin [min] *)

Lemma Qltb_lt (a b : Q) : Qltb a b = true <-> (a < b)%Q.
Proof.
  unfold Qltb. rewrite negb_true_iff, <- not_true_iff_false, Qle_bool_iff.
  split; [apply Qnot_le_lt | apply Qlt_not_le].
Qed.

Lemma Qltb_ge (a b : Q) : Qltb a b = false <-> (b <= a)%Q.
Proof.
  unfold Qltb. rewrite negb_false_iff. apply Qle_bool_iff.
Qed.

Section MinSpec.
Context {A : Type}.
Variable key : A -> result Q.

Lemma min_scan_first_minimum (l pre : list A) (best : A) (bestk : Q) (i : nat) :
    pre !! i = Some best ->
    key best = Ok bestk ->
    (forall j r', pre !! j = Some r' ->
       exists d', key r' = Ok d' /\ (bestk <= d')%Q /\ ((j < i)%nat -> (bestk < d')%Q)) ->
    Forall (keyed key) l ->
    exists r, min_scan key best bestk l = Ok r /\ first_minimum key (pre ++ l) r.
  Proof.
    revert pre best bestk i.
    induction l as [|x l IH]; intros pre best bestk i Hi Hk Hmin Hall.
    - exists best. split; [reflexivity|]. rewrite app_nil_r. exists i, bestk. auto.
    - inversion Hall as [|? ? [k Hx] Hall']; subst. simpl. rewrite Hx.
      replace (pre ++ x :: l) with ((pre ++ [x]) ++ l) by (rewrite <- app_assoc; reflexivity).
      destruct (Qltb k bestk) eqn:Hlt.
      + apply Qltb_lt in Hlt.
        apply (IH (pre ++ [x]) x k (length pre)); auto.
        * rewrite lookup_app_r by lia. rewrite Nat.sub_diag. reflexivity.
        * intros j r' Hj. destruct (decide (j < length pre)%nat) as [Hlt'|Hge].
          -- rewrite lookup_app_l in Hj by assumption.
             destruct (Hmin j r' Hj) as (d' & Hd' & Hle & _).
             exists d'. split; [assumption|]. split.
             ++ apply Qlt_le_weak. eapply Qlt_le_trans; eassumption.
             ++ intros _. eapply Qlt_le_trans; eassumption.
          -- rewrite lookup_app_r in Hj by lia.
             destruct (j - length pre)%nat eqn:E; simpl in Hj; [|destruct n; discriminate].
             inversion Hj; subst r'. exists k. split; [assumption|]. split; [apply Qle_refl|].
             intros; lia.
      + apply Qltb_ge in Hlt.
        apply (IH (pre ++ [x]) best bestk i); auto.
        * rewrite lookup_app_l; [assumption|]. eapply lookup_lt_Some; eassumption.
        * intros j r' Hj. destruct (decide (j < length pre)%nat) as [Hlt'|Hge].
          -- rewrite lookup_app_l in Hj by assumption. auto.
          -- rewrite lookup_app_r in Hj by lia.
             destruct (j - length pre)%nat eqn:E; simpl in Hj; [|destruct n; discriminate].
             inversion Hj; subst r'. exists k. split; [assumption|]. split; [assumption|].
             intros Hji. apply lookup_lt_Some in Hi. lia.
  Qed.

Lemma min_first_minimum (l : list A) :
    l <> [] -> Forall (keyed key) l -> exists r, Py.min key l = Ok r /\ first_minimum key l r.
  Proof.
    destruct l as [|x l]; [congruence|]. intros _ Hall.
    inversion Hall as [|? ? [k Hx] Hall']; subst. simpl. rewrite Hx.
    apply (min_scan_first_minimum l [x] x k 0%nat); auto.
    intros j r' Hj. destruct j; simpl in Hj; [|discriminate]. inversion Hj; subst.
    exists k. split; [assumption|]. split; [apply Qle_refl|]. intros; lia.
  Qed.
End MinSpec.
Lemma rmap_Forall {A B} (f : A -> result B) (Q : B -> Prop) (l : list A) (l' : list B) :
  (forall x y, f x = Ok y -> Q y) -> rmap f l = Ok l' -> Forall Q l'.
Proof.
  intros Hf. revert l'. induction l as [|x l IH]; intros l' H; simpl in H.
  - inversion H. constructor.
  - destruct (f x) as [y|] eqn:Hx; [|discriminate].
    destruct (rmap f l) as [ys|] eqn:Hl; [|discriminate].
    inversion H; subst. constructor; eauto.
Qed.

Section MinOutcome.
Context {A : Type}.
Variable key : A -> result Q.

Lemma min_scan_Ok_keyed (l : list A) (best r : A) (bestk : Q) :
    min_scan key best bestk l = Ok r -> Forall (keyed key) l.
  Proof.
    revert best bestk. induction l as [|x l IH]; intros best bestk H; [constructor|].
    cbn [min_scan] in H. destruct (key x) as [k|] eqn:Hx; [|discriminate].
    constructor; [exists k; exact Hx|].
    destruct (Qltb k bestk); eapply IH; exact H.
  Qed.

Lemma min_Ok_keyed (l : list A) (r : A) : Py.min key l = Ok r -> Forall (keyed key) l.
  Proof.
    destruct l as [|x l]; [discriminate|]. cbn [Py.min].
    destruct (key x) as [k|] eqn:Hx; [|discriminate]. intros H.
    constructor; [exists k; exact Hx|]. eapply min_scan_Ok_keyed. exact H.
  Qed.

Lemma min_scan_first_failure (pre post : list A) (x best : A) (bestk : Q) (e : exn) :
    Forall (keyed key) pre -> key x = Raise e ->
    min_scan key best bestk (pre ++ x :: post) = Raise e.
  Proof.
    intros Hpre Hx. revert best bestk.
    induction Hpre as [|y pre [k Hy] _ IH]; intros best bestk; cbn [app min_scan].
    - rewrite Hx. reflexivity.
    - rewrite Hy. destruct (Qltb k bestk); apply IH.
  Qed.

Lemma min_first_failure (pre post : list A) (x : A) (e : exn) :
    Forall (keyed key) pre -> key x = Raise e -> Py.min key (pre ++ x :: post) = Raise e.
  Proof.
    intros Hpre Hx. destruct Hpre as [|y pre [k Hy] Hpre]; cbn [app Py.min].
    - rewrite Hx. reflexivity.
    - rewrite Hy. apply min_scan_first_failure; assumption.
  Qed.
Lemma keyed_or_first_failure (l : list A) :
    Forall (keyed key) l \/
    exists pre x post e, l = pre ++ x :: post /\ Forall (keyed key) pre /\ key x = Raise e.
  Proof.
    induction l as [|y l IH]; [left; constructor|].
    destruct (key y) as [k|e] eqn:Hy.
    - destruct IH as [IH|(pre & x & post & e & -> & Hpre & Hx)].
      + left. constructor; [exists k; exact Hy|exact IH].
      + right. exists (y :: pre), x, post, e. split; [reflexivity|].
        split; [constructor; [exists k; exact Hy|exact Hpre]|exact Hx].
    - right. exists [], y, l, e. split; [reflexivity|]. split; [constructor|exact Hy].
  Qed.
End MinOutcome.

(** ** The key of the resolvers is the geodesic distance to the record *)

Section SiteKey.
Variable P : Prims.
Variables lat lon : pyfloat.
Variables klat klon : string.
Variable key : gmap string value -> result Q.
Hypothesis key_eq : forall site,
  key site = (let+ la := getitem site klat in
              let+ lo := getitem site klon in
              geodesic P (VFloat lat, VFloat lon) (la, lo)).

Lemma key_distance (site : gmap string value) (d : Q) :
    key site = Ok d <-> distance_to P lat lon klat klon site d.
  Proof.
    rewrite key_eq. unfold distance_to, getitem. split.
    - destruct (site !! klat) as [la|]; [|discriminate]. cbn [rbind].
      destruct (site !! klon) as [lo|]; [|discriminate]. cbn [rbind].
      intros H. exists la, lo. auto.
    - intros (la & lo & -> & -> & H). exact H.
  Qed.

Lemma keyed_reachable (site : gmap string value) :
    keyed key site <-> reachable P lat lon klat klon site.
  Proof.
    unfold keyed, reachable. split; intros [d H]; exists d; apply key_distance; exact H.
  Qed.

Lemma first_minimum_nearest (catalog : list (gmap string value)) (r : gmap string value) :
    first_minimum key catalog r -> nearest P lat lon klat klon catalog r.
  Proof.
    intros (i & d & Hi & Hd & Hall). exists i, d. split; [exact Hi|].
    split; [apply key_distance; exact Hd|].
    intros j r' d' Hj Hd'. apply key_distance in Hd'.
    destruct (Hall j r' Hj) as (d'' & Hd'' & Hle & Hlt).
    rewrite Hd' in Hd''. injection Hd'' as <-. split; assumption.
  Qed.

Lemma min_nearest (catalog : list (gmap string value)) :
    catalog <> [] -> Forall (reachable P lat lon klat klon) catalog ->
    exists r, Py.min key catalog = Ok r /\ nearest P lat lon klat klon catalog r.
  Proof.
    intros Hne Hall.
    assert (Hkeyed : Forall (keyed key) catalog).
    { eapply Forall_impl; [exact Hall|]. intros site. apply keyed_reachable. }
    destruct (min_first_minimum key catalog Hne Hkeyed) as (r & Hr & Hmin).
    exists r. split; [exact Hr|]. apply first_minimum_nearest. exact Hmin.
  Qed.

Lemma min_Ok_nearest (catalog : list (gmap string value)) (r : gmap string value) :
    Py.min key catalog = Ok r -> nearest P lat lon klat klon catalog r.
  Proof.
    intros Hr. pose proof (min_Ok_keyed key catalog r Hr) as Hkeyed.
    assert (Hne : catalog <> []) by (intros ->; discriminate Hr).
    destruct (min_first_minimum key catalog Hne Hkeyed) as (r' & Hr' & Hmin).
    rewrite Hr in Hr'. injection Hr' as <-. apply first_minimum_nearest. exact Hmin.
  Qed.

Lemma min_outcomes (catalog : list (gmap string value)) :
    Forall (has_coordinates klat klon) catalog ->
    (catalog = [] /\ Py.min key catalog = Raise ValueError) \/
    (Forall (reachable P lat lon klat klon) catalog /\
     exists r, Py.min key catalog = Ok r /\ nearest P lat lon klat klon catalog r) \/
    (exists pre site post x y e,
        catalog = pre ++ site :: post /\
        Forall (reachable P lat lon klat klon) pre /\
        site !! klat = Some (VFloat x) /\ site !! klon = Some (VFloat y) /\
        geodesic P (VFloat lat, VFloat lon) (VFloat x, VFloat y) = Raise e /\
        Py.min key catalog = Raise e).
  Proof.
    intros Hnum. destruct catalog as [|site0 catalog]; [left; split; reflexivity|].
    right. destruct (keyed_or_first_failure key (site0 :: catalog))
      as [Hall|(pre & site & post & e & Hsplit & Hpre & Hsite)].
    - left. assert (Hreach : Forall (reachable P lat lon klat klon) (site0 :: catalog)).
      { eapply Forall_impl; [exact Hall|]. intros site. apply keyed_reachable. }
      split; [exact Hreach|]. apply min_nearest; [discriminate|exact Hreach].
    - right. rewrite Hsplit in Hnum |- *.
      apply Forall_app in Hnum. destruct Hnum as [_ Hnum].
      apply Forall_cons in Hnum. destruct Hnum as [(x & y & Hx & Hy) _].
      exists pre, site, post, x, y, e. split; [reflexivity|].
      split; [eapply Forall_impl; [exact Hpre|]; intros r; apply keyed_reachable|].
      split; [exact Hx|]. split; [exact Hy|].
      split; [|apply min_first_failure; assumption].
      rewrite key_eq in Hsite. unfold getitem in Hsite. rewrite Hx, Hy in Hsite. exact Hsite.
  Qed.

Lemma reachable_dec_Forall (catalog : list (gmap string value)) :
    forallb (fun site => match key site with Ok _ => true | Raise _ => false end) catalog = true ->
    Forall (reachable P lat lon klat klon) catalog.
  Proof.
    intros H. apply Forall_forall. intros site Hin.
    rewrite forallb_forall in H. specialize (H site). apply keyed_reachable.
    destruct (key site) as [d|] eqn:Hk.
    - exists d. exact Hk.
    - apply list_elem_of_In in Hin. specialize (H Hin). discriminate H.
  Qed.
End SiteKey.

Lemma hydro_sites_numeric (P : Prims) (catalog : list (gmap string value)) :
  ECHydro.get_hydro_sites P = Ok catalog ->
  Forall (has_coordinates "Latitude" "Longitude") catalog.
Proof.
  unfold ECHydro.get_hydro_sites. intros H.
  destruct (requests_get P _); [|discriminate]. simpl in H.
  destruct (decode_utf8_sig P _); [|discriminate]. simpl in H.
  destruct (readline _) as [line rest].
  eapply rmap_Forall; [|exact H].
  intros site site'. unfold ECHydro.parse_site, getitem.
  destruct (site !! "Latitude") as [la|]; [|discriminate]. simpl.
  destruct (float P la) as [lat|]; [|discriminate]. simpl.
  rewrite lookup_insert_ne by discriminate.
  destruct (site !! "Longitude") as [lo|]; [|discriminate]. simpl.
  destruct (float P lo) as [lon'|]; [|discriminate]. simpl.
  intros [= <-]. exists lat, lon'. split.
  - rewrite lookup_insert_ne by discriminate. apply lookup_insert_eq.
  - apply lookup_insert_eq.
Qed.

(** C1: on a non-empty catalog whose records the distance primitive
    accepts, every resolver picks the record nearest to the target, the
    distance being the geodesic distance from the target to the point the
    record holds under its coordinate keys, and among several nearest
    records the first of the catalog: [ECHydro.closest_site] returns that
    record, [ECData.closest_site] and [ECAQHI.closest_aqhi] return the
    identifier read off it. *)
Theorem closest_is_first_minimum (P : Prims) (lat lon : pyfloat) :
  (forall catalog,
      ECHydro.get_hydro_sites P = Ok catalog -> catalog <> [] ->
      Forall (reachable P lat lon "Latitude" "Longitude") catalog ->
      exists r, ECHydro.closest_site P lat lon = Ok r /\
                nearest P lat lon "Latitude" "Longitude" catalog r) /\
  (forall catalog,
      ECData.get_ec_sites P = Ok catalog -> catalog <> [] ->
      Forall (reachable P lat lon "Latitude" "Longitude") catalog ->
      exists r, nearest P lat lon "Latitude" "Longitude" catalog r /\
                ECData.closest_site P lat lon =
                  (let+ prov := getitem r "Province Codes" in
                   let+ code := getitem r "Codes" in
                   Ok (str P prov ++ "/" ++ str P code)%string)) /\
  (forall language_abr catalog,
      ECAQHI.get_aqhi_regions P language_abr = Ok catalog -> catalog <> [] ->
      Forall (reachable P lat lon "latitude" "longitude") catalog ->
      exists r, nearest P lat lon "latitude" "longitude" catalog r /\
                ECAQHI.closest_aqhi P language_abr lat lon =
                  (let+ abbreviation := getitem r "abbreviation" in
                   let+ cgndb := getitem r "cgndb" in
                   Ok (abbreviation, cgndb))).
Proof.
  split; [|split].
  - intros catalog Hload Hne Hall.
    destruct (min_nearest P lat lon "Latitude" "Longitude" (ECHydro.site_distance P lat lon)
                ltac:(reflexivity) catalog Hne Hall) as (r & Hr & Hnear).
    exists r. split; [|exact Hnear].
    unfold ECHydro.closest_site. rewrite Hload. exact Hr.
  - intros catalog Hload Hne Hall.
    destruct (min_nearest P lat lon "Latitude" "Longitude" (ECData.site_distance P lat lon)
                ltac:(reflexivity) catalog Hne Hall) as (r & Hr & Hnear).
    exists r. split; [exact Hnear|].
    unfold ECData.closest_site. rewrite Hload. cbn [rbind]. rewrite Hr. reflexivity.
  - intros abr catalog Hload Hne Hall.
    destruct (min_nearest P lat lon "latitude" "longitude" (Aqhi.site_distance P lat lon)
                ltac:(reflexivity) catalog Hne Hall) as (r & Hr & Hnear).
    exists r. split; [exact Hnear|].
    unfold ECAQHI.closest_aqhi, Aqhi.closest_aqhi.
    unfold ECAQHI.get_aqhi_regions in Hload. rewrite Hload. cbn [rbind].
    rewrite Hr. reflexivity.
Qed.

Lemma closest_is_first_minimum_witness :
  ECHydro.get_hydro_sites two_stations_web = Ok two_stations_catalog /\
  two_stations_catalog <> [] /\
  Forall (reachable two_stations_web (4501 # 100) (-7501 # 100) "Latitude" "Longitude")
         two_stations_catalog /\
  exists r, ECHydro.closest_site two_stations_web (4501 # 100) (-7501 # 100) = Ok r /\
            nearest two_stations_web (4501 # 100) (-7501 # 100) "Latitude" "Longitude"
                    two_stations_catalog r.
Proof.
  assert (H1 : ECHydro.get_hydro_sites two_stations_web = Ok two_stations_catalog)
    by (vm_cast_no_check (eq_refl (Ok two_stations_catalog))).
  assert (H2 : two_stations_catalog <> []).
  { assert (Hlen : length two_stations_catalog = 2%nat) by (vm_compute; reflexivity).
    intros E. rewrite E in Hlen. discriminate Hlen. }
  assert (H3 : Forall (reachable two_stations_web (4501 # 100) (-7501 # 100)
                                 "Latitude" "Longitude") two_stations_catalog).
  { apply (reachable_dec_Forall two_stations_web (4501 # 100) (-7501 # 100)
             "Latitude" "Longitude"
             (ECHydro.site_distance two_stations_web (4501 # 100) (-7501 # 100))
             ltac:(reflexivity)).
    vm_compute. reflexivity. }
  repeat split; try assumption.
  exact (proj1 (closest_is_first_minimum two_stations_web (4501 # 100) (-7501 # 100))
           two_stations_catalog H1 H2 H3).
Defined.

Example closest_two_stations :
  (let+ r := ECHydro.closest_site two_stations_web (4501 # 100) (-7501 # 100) in
   getitem r "ID") = Ok (VStr "A").
Proof. vm_compute. reflexivity. Qed.

(** ** The catalog loaders *)

Lemma rmap_Ok_Forall2 {A B} (f : A -> result B) (l : list A) (l' : list B) :
  rmap f l = Ok l' -> Forall2 (fun x y => f x = Ok y) l l'.
Proof.
  revert l'. induction l as [|x l IH]; intros l' H; simpl in H.
  - inversion H. constructor.
  - destruct (f x) as [y|] eqn:Hx; [|discriminate].
    destruct (rmap f l) as [ys|] eqn:Hl; [|discriminate].
    inversion H; subst. constructor; auto.
Qed.

Lemma rmap_Raise_in {A B} (f : A -> result B) (l : list A) (x : A) (e : exn) :
  In x l -> f x = Raise e -> exists e', rmap f l = Raise e'.
Proof.
  induction l as [|y l IH]; intros Hin Hx; [contradiction|]. simpl.
  destruct (f y) as [v|e0] eqn:Hy; [|eauto].
  destruct Hin as [->|Hin]; [congruence|].
  destruct (IH Hin Hx) as [e' ->]. eauto.
Qed.

Lemma rmap_first_failure {A B} (f : A -> result B) (pre post : list A) (x : A) (e : exn) :
  Forall (fun y => exists v, f y = Ok v) pre -> f x = Raise e ->
  rmap f (pre ++ x :: post) = Raise e.
Proof.
  intros Hpre Hx. induction Hpre as [|y pre [v Hy] _ IH]; cbn [app rmap].
  - rewrite Hx. reflexivity.
  - rewrite Hy, IH. reflexivity.
Qed.

Lemma rmap_all_Ok {A B} (f : A -> result B) (l : list A) :
  Forall (fun y => exists v, f y = Ok v) l -> exists vs, rmap f l = Ok vs.
Proof.
  induction 1 as [|y l [v Hy] _ [vs IH]]; cbn [rmap]; [eauto|].
  rewrite Hy, IH. eauto.
Qed.

Lemma hydro_parse_site_unparsed (P : Prims) (row : gmap string value) (k s : string) :
  k = "Latitude" \/ k = "Longitude" ->
  row !! k = Some (VStr s) -> float_of_string P s = None ->
  exists e, ECHydro.parse_site P row = Raise e.
Proof.
  intros Hk Hrow Hs. unfold ECHydro.parse_site, getitem.
  destruct Hk as [-> | ->].
  - rewrite Hrow. simpl. rewrite Hs. eauto.
  - destruct (row !! "Latitude") as [la|]; [|simpl; eauto]. simpl.
    destruct (float P la) as [lat|]; [|simpl; eauto]. simpl.
    rewrite lookup_insert_ne by discriminate. rewrite Hrow. simpl. rewrite Hs. eauto.
Qed.

Lemma hydro_parse_site_Ok (P : Prims) (row site : gmap string value) :
  ECHydro.parse_site P row = Ok site <-> hydro_record P row site.
Proof.
  unfold ECHydro.parse_site, getitem, hydro_record. split.
  - destruct (row !! "Latitude") as [la|]; [|discriminate]. simpl.
    destruct (float P la) as [lat|] eqn:Hlat; [|discriminate]. simpl.
    rewrite lookup_insert_ne by discriminate.
    destruct (row !! "Longitude") as [lo|]; [|discriminate]. simpl.
    destruct (float P lo) as [lon|] eqn:Hlon; [|discriminate]. simpl.
    intros [= <-]. exists la, lo, lat, lon. repeat split; assumption || reflexivity.
  - intros (la & lo & lat & lon & -> & Hlat & Hlo & Hlon & ->). cbn [rbind].
    rewrite Hlat. cbn [rbind]. rewrite lookup_insert_ne by discriminate.
    rewrite Hlo. cbn [rbind]. rewrite Hlon. reflexivity.
Qed.

Lemma hydro_bad_row_raises (P : Prims) (row : gmap string value) :
  hydro_bad_row P row -> ECHydro.parse_site P row = Raise ValueError.
Proof.
  intros (a & b & Ha & Hb & Hbad). unfold ECHydro.parse_site, getitem, float.
  rewrite Ha. cbn [rbind].
  destruct (float_of_string P a) as [lat|] eqn:Hlat; [|reflexivity]. cbn [rbind].
  rewrite lookup_insert_ne by discriminate. rewrite Hb. cbn [rbind].
  destruct Hbad as [Hbad|Hbad]; [congruence|]. rewrite Hbad. reflexivity.
Qed.

Lemma ec_parse_site_unparsed (P : Prims) (row : gmap string value) (prov : value)
    (k letter s : string) :
  (k = "Latitude" /\ letter = "N") \/ (k = "Longitude" /\ letter = "W") ->
  row !! "Province Codes" = Some prov -> ECHydro.differs prov "HEF" = true ->
  row !! k = Some (VStr s) -> float_of_string P (replace letter "" s) = None ->
  exists e, ECData.parse_site P row = Raise e.
Proof.
  intros Hk Hprov Hdiff Hrow Hs. unfold ECData.parse_site, getitem.
  rewrite Hprov. simpl. rewrite Hdiff.
  destruct Hk as [[-> ->] | [-> ->]].
  - rewrite Hrow. simpl. rewrite Hs. eauto.
  - destruct (row !! "Latitude") as [la|]; [|simpl; eauto]. simpl.
    destruct (value_replace "N" "" la) as [la'|]; [|simpl; eauto]. simpl.
    destruct (float_of_string P la') as [lat|]; [|simpl; eauto]. simpl.
    rewrite lookup_insert_ne by discriminate. rewrite Hrow. simpl. rewrite Hs. eauto.
Qed.

Lemma ec_parse_site_Ok (P : Prims) (row : gmap string value) (out : list (gmap string value)) :
  ECData.parse_site P row = Ok out <-> ec_records P row out.
Proof.
  unfold ECData.parse_site, getitem, ec_records. split.
  - destruct (row !! "Province Codes") as [prov|] eqn:Hprov; [|discriminate]. simpl.
    destruct (ECHydro.differs prov "HEF") eqn:Hdiff.
    + destruct (row !! "Latitude") as [[|la|]|]; try discriminate. simpl.
      destruct (float_of_string P (replace "N" "" la)) as [lat|] eqn:Hlat; [|discriminate].
      simpl. rewrite lookup_insert_ne by discriminate.
      destruct (row !! "Longitude") as [[|lo|]|]; try discriminate. simpl.
      destruct (float_of_string P (replace "W" "" lo)) as [lon|] eqn:Hlon; [|discriminate].
      simpl. intros [= <-]. right. exists prov, la, lo, lat, lon.
      repeat split; assumption || reflexivity.
    + intros [= <-]. left. split; [|reflexivity].
      destruct prov as [|s|]; try discriminate. simpl in Hdiff.
      apply negb_false_iff, String.eqb_eq in Hdiff. subst. reflexivity.
  - intros [[-> ->]|(prov & la & lo & lat & lon & -> & Hdiff & Hla & Hlat & Hlo & Hlon & ->)].
    + reflexivity.
    + cbn [rbind]. rewrite Hdiff, Hla. cbn [rbind value_replace float]. rewrite Hlat.
      cbn [rbind]. rewrite lookup_insert_ne by discriminate. rewrite Hlo.
      cbn [rbind value_replace float]. rewrite Hlon. reflexivity.
Qed.

Lemma ec_bad_row_raises (P : Prims) (row : gmap string value) :
  ec_bad_row P row -> ECData.parse_site P row = Raise ValueError.
Proof.
  intros (prov & a & b & Hprov & Hdiff & Ha & Hb & Hbad).
  unfold ECData.parse_site, getitem. rewrite Hprov. cbn [rbind]. rewrite Hdiff, Ha.
  cbn [rbind value_replace float].
  destruct (float_of_string P (replace "N" "" a)) as [lat|] eqn:Hlat; [|reflexivity].
  cbn [rbind]. rewrite lookup_insert_ne by discriminate. rewrite Hb.
  cbn [rbind value_replace float].
  destruct Hbad as [Hbad|Hbad]; [congruence|]. rewrite Hbad. reflexivity.
Qed.

Lemma aqhi_parse_region_unparsed (P : Prims)
    (children_of : ET.Element -> result (list ET.Element))
    (zone_attrib : gmap string value)
    (region_name_tag : string) (region : ET.Element) (k s : string) :
  k = "latitude" \/ k = "longitude" ->
  ET.attrib region !! k = Some s -> float_of_string P s = None ->
  exists e, Aqhi.parse_region P children_of zone_attrib region_name_tag region = Raise e.
Proof.
  intros Hk Hattr Hs. unfold Aqhi.parse_region, getitem.
  destruct (ET.attrib region !! region_name_tag); [|simpl; eauto]. simpl.
  destruct (ET.attrib region !! "cgndb"); [|simpl; eauto]. simpl.
  destruct Hk as [-> | ->].
  - rewrite Hattr. simpl. rewrite Hs. eauto.
  - destruct (ET.attrib region !! "latitude") as [la|]; [|simpl; eauto]. simpl.
    destruct (float_of_string P la); [|simpl; eauto]. simpl.
    rewrite Hattr. simpl. rewrite Hs. eauto.
Qed.

Lemma aqhi_bad_region_raises (P : Prims)
    (children_of : ET.Element -> result (list ET.Element))
    (zone_attrib : gmap string value) (region_name_tag : string) (region : ET.Element) :
  aqhi_bad_region P region_name_tag region ->
  Aqhi.parse_region P children_of zone_attrib region_name_tag region = Raise ValueError.
Proof.
  intros ([name Hname] & [cgndb Hcgndb] & a & b & Ha & Hb & Hbad).
  unfold Aqhi.parse_region, getitem. rewrite Hname. cbn [rbind]. rewrite Hcgndb.
  cbn [rbind]. rewrite Ha. cbn [rbind float].
  destruct (float_of_string P a) as [lat|] eqn:Hlat; [|reflexivity]. cbn [rbind].
  rewrite Hb. cbn [rbind float].
  destruct Hbad as [Hbad|Hbad]; [congruence|]. rewrite Hbad. reflexivity.
Qed.

Lemma aqhi_parse_region_Ok (P : Prims) (ztag rtag : string) (zone region : ET.Element)
    (abbreviation zone_name : string) (r : gmap string value) :
  ET.attrib zone !! "abreviation" = Some abbreviation ->
  ET.attrib zone !! ztag = Some zone_name ->
  Aqhi.parse_region P ECAQHI.list_of
    {[ "abbreviation" := VStr abbreviation; "zone_name" := VStr zone_name ]} rtag region = Ok r ->
  aqhi_record P ztag rtag zone region r.
Proof.
  intros Ha Hn. unfold Aqhi.parse_region, getitem, ECAQHI.list_of, float.
  destruct (ET.attrib region !! rtag) as [name|] eqn:Hname; [|discriminate]. cbn [rbind].
  destruct (ET.attrib region !! "cgndb") as [cgndb|] eqn:Hcgndb; [|discriminate]. cbn [rbind].
  destruct (ET.attrib region !! "latitude") as [la|] eqn:Hla; [|discriminate]. cbn [rbind].
  destruct (float_of_string P la) as [lat|] eqn:Hlat; [|discriminate]. cbn [rbind].
  destruct (ET.attrib region !! "longitude") as [lo|] eqn:Hlo; [|discriminate]. cbn [rbind].
  destruct (float_of_string P lo) as [lon|] eqn:Hlon; [|discriminate]. cbn [rbind].
  intros [= <-]. exists abbreviation, zone_name, name, cgndb, la, lo, lat, lon.
  repeat split; assumption || reflexivity.
Qed.

Lemma region_loads_parses (P : Prims) (zone_attrib : gmap string value) (rtag : string)
    (region : ET.Element) :
  region_loads P rtag region ->
  exists r, Aqhi.parse_region P ECAQHI.list_of zone_attrib rtag region = Ok r.
Proof.
  intros (name & cgndb & la & lo & lat & lon & Hname & Hcgndb & Hla & Hlat & Hlo & Hlon).
  unfold Aqhi.parse_region, getitem, ECAQHI.list_of, float.
  rewrite Hname. cbn [rbind]. rewrite Hcgndb. cbn [rbind]. rewrite Hla. cbn [rbind].
  rewrite Hlat. cbn [rbind]. rewrite Hlo. cbn [rbind]. rewrite Hlon. cbn [rbind]. eauto.
Qed.

Lemma zone_loads_parses (P : Prims) (ztag rtag : string) (zone : ET.Element) :
  zone_loads P ztag rtag zone ->
  exists recs, Aqhi.parse_zone P ECAQHI.list_of ztag rtag zone = Ok recs.
Proof.
  intros [[[a Ha] [n Hn]] Hregions]. unfold Aqhi.parse_zone, getitem.
  rewrite Ha. cbn [rbind]. rewrite Hn. cbn [rbind].
  apply rmap_all_Ok. eapply Forall_impl; [exact Hregions|].
  intros region. apply region_loads_parses.
Qed.

Lemma getchildren_parse_zone (P : Prims) (ztag rtag : string) (zone : ET.Element)
    (recs : list (gmap string value)) :
  Aqhi.parse_zone P ECData.getchildren ztag rtag zone = Ok recs -> recs = [].
Proof.
  unfold Aqhi.parse_zone, getitem.
  destruct (ET.attrib zone !! "abreviation"); [|discriminate]. cbn [rbind].
  destruct (ET.attrib zone !! ztag); [|discriminate]. cbn [rbind].
  destruct (ET.findall _ zone) as [|region regions]; [intros [= <-]; reflexivity|].
  cbn [rmap]. unfold Aqhi.parse_region at 1, getitem, ECData.getchildren.
  destruct (ET.attrib region !! rtag); [|discriminate]. cbn [rbind].
  destruct (ET.attrib region !! "cgndb"); [|discriminate]. cbn [rbind].
  destruct (ET.attrib region !! "latitude"); [|discriminate]. cbn [rbind].
  destruct (float P _); [|discriminate]. cbn [rbind].
  destruct (ET.attrib region !! "longitude"); [|discriminate]. cbn [rbind].
  destruct (float P _); discriminate.
Qed.

Lemma getchildren_catalog_empty (P : Prims) (ztag rtag : string)
    (catalog : list (gmap string value)) :
  Aqhi.get_aqhi_regions P ECData.getchildren ztag rtag = Ok catalog -> catalog = [].
Proof.
  unfold Aqhi.get_aqhi_regions.
  destruct (requests_get P _); [|discriminate]. cbn [rbind].
  destruct (decode_utf8 P _); [|discriminate]. cbn [rbind].
  destruct (et_fromstring P _); [|discriminate]. cbn [rbind].
  destruct (rmap _ _) as [by_zone|] eqn:Hz; [|discriminate]. cbn [rbind].
  intros [= <-]. apply rmap_Ok_Forall2 in Hz.
  induction Hz as [|zone recs zones by_zone Hzone _ IH]; [reflexivity|].
  cbn [concat]. rewrite IH. apply getchildren_parse_zone in Hzone. rewrite Hzone. reflexivity.
Qed.

(** C6, as amended.  No loader leaves an entry out because its
    coordinates do not parse, and none fills in a placeholder.  An entry
    with a coordinate text that is no number makes the loader raise; the
    exception is [ValueError] when the entries before it load and the
    entry holds both coordinates as text.  A catalog that
    [get_hydro_sites] or [get_ec_sites] returns holds, in order, the
    record of every row, its coordinates replaced by the floats read from
    them ([get_ec_sites] negates the longitude and leaves out the rows of
    the province code HEF, nothing else).  A catalog that
    [ECAQHI.get_aqhi_regions] returns holds, zone by zone and in order,
    the record of every region: the attributes of the region with the
    parsed coordinates, overwritten by the children of the region and
    then by the attributes of the zone.  [ECData.get_aqhi_regions] raises
    at [region.getchildren()], so the only catalog it returns is the
    empty one. *)
Theorem loaders_fail_on_unparsed_coordinates (P : Prims) :
  (forall text,
      fetch_text P ECHydro.SITE_LIST_URL (decode_utf8_sig P) = Ok text ->
      (forall row k s,
          In row (hydro_rows P text) -> k = "Latitude" \/ k = "Longitude" ->
          row !! k = Some (VStr s) -> float_of_string P s = None ->
          exists e, ECHydro.get_hydro_sites P = Raise e) /\
      (forall pre row post,
          hydro_rows P text = pre ++ row :: post ->
          Forall (fun r => exists site, hydro_record P r site) pre ->
          hydro_bad_row P row ->
          ECHydro.get_hydro_sites P = Raise ValueError) /\
      (forall catalog,
          ECHydro.get_hydro_sites P = Ok catalog ->
          Forall2 (hydro_record P) (hydro_rows P text) catalog)) /\
  (forall content line rest,
      requests_get P ECData.SITE_LIST_URL = Ok content ->
      readline (response_text P content) = (line, rest) -> line <> EmptyString ->
      (forall row prov k letter s,
          In row (ec_rows P rest) ->
          (k = "Latitude" /\ letter = "N") \/ (k = "Longitude" /\ letter = "W") ->
          row !! "Province Codes" = Some prov -> ECHydro.differs prov "HEF" = true ->
          row !! k = Some (VStr s) -> float_of_string P (replace letter "" s) = None ->
          exists e, ECData.get_ec_sites P = Raise e) /\
      (forall pre row post,
          ec_rows P rest = pre ++ row :: post ->
          Forall (fun r => exists out, ec_records P r out) pre ->
          ec_bad_row P row ->
          ECData.get_ec_sites P = Raise ValueError) /\
      (forall catalog,
          ECData.get_ec_sites P = Ok catalog ->
          exists sites,
            catalog = concat sites /\ Forall2 (ec_records P) (ec_rows P rest) sites)) /\
  (forall language_abr tree,
      fetch_document P Aqhi.AQHI_SITE_LIST_URL (decode_utf8 P) = Ok tree ->
      (forall region k s,
          In region (aqhi_region_elements tree) ->
          k = "latitude" \/ k = "longitude" ->
          ET.attrib region !! k = Some s -> float_of_string P s = None ->
          exists e, ECAQHI.get_aqhi_regions P language_abr = Raise e) /\
      (forall zpre zone zpost rpre region rpost,
          ET.findall [ET.Child "EC_administrativeZone"] tree = zpre ++ zone :: zpost ->
          Forall (zone_loads P (zone_tag P language_abr) (region_tag P language_abr)) zpre ->
          zone_named (zone_tag P language_abr) zone ->
          regions_of zone = rpre ++ region :: rpost ->
          Forall (region_loads P (region_tag P language_abr)) rpre ->
          aqhi_bad_region P (region_tag P language_abr) region ->
          ECAQHI.get_aqhi_regions P language_abr = Raise ValueError) /\
      (forall catalog,
          ECAQHI.get_aqhi_regions P language_abr = Ok catalog ->
          exists by_zone,
            catalog = concat by_zone /\
            Forall2 (fun zone recs =>
                       Forall2 (aqhi_record P (zone_tag P language_abr)
                                            (region_tag P language_abr) zone)
                               (regions_of zone) recs)
                    (ET.findall [ET.Child "EC_administrativeZone"] tree) by_zone)) /\
  (forall self catalog, ECData.get_aqhi_regions P self = Ok catalog -> catalog = []).
Proof.
  split; [|split; [|split]].
  - intros text Htext. unfold fetch_text in Htext.
    assert (Hload : ECHydro.get_hydro_sites P = rmap (ECHydro.parse_site P) (hydro_rows P text)).
    { unfold ECHydro.get_hydro_sites, hydro_rows.
      destruct (requests_get P _) as [content|]; [|discriminate]. cbn [rbind] in *.
      rewrite Htext. cbn [rbind]. destruct (readline text). reflexivity. }
    split; [|split].
    + intros row k s Hin Hk Hrow Hs.
      destruct (hydro_parse_site_unparsed P row k s Hk Hrow Hs) as [e He].
      rewrite Hload. eapply rmap_Raise_in; eassumption.
    + intros pre row post Hrows Hpre Hbad. rewrite Hload, Hrows.
      apply rmap_first_failure; [|apply hydro_bad_row_raises; exact Hbad].
      eapply Forall_impl; [exact Hpre|]. intros r [site Hsite].
      exists site. apply hydro_parse_site_Ok. exact Hsite.
    + intros catalog Hok. rewrite Hload in Hok.
      apply rmap_Ok_Forall2 in Hok.
      eapply Forall2_impl; [exact Hok|]. intros row site. apply hydro_parse_site_Ok.
  - intros content line rest Hget Hline Hne.
    assert (Hload : ECData.get_ec_sites P =
                    (let+ sites := rmap (ECData.parse_site P) (ec_rows P rest) in
                     Ok (concat sites))).
    { unfold ECData.get_ec_sites, ec_rows. rewrite Hget. simpl. rewrite Hline.
      destruct line; [congruence|]. reflexivity. }
    split; [|split].
    + intros row prov k letter s Hin Hk Hprov Hdiff Hrow Hs.
      destruct (ec_parse_site_unparsed P row prov k letter s Hk Hprov Hdiff Hrow Hs) as [e He].
      rewrite Hload.
      destruct (rmap_Raise_in _ _ _ _ Hin He) as [e' ->]. simpl. eauto.
    + intros pre row post Hrows Hpre Hbad. rewrite Hload, Hrows.
      rewrite (rmap_first_failure (ECData.parse_site P) pre post row ValueError);
        [reflexivity| |apply ec_bad_row_raises; exact Hbad].
      eapply Forall_impl; [exact Hpre|]. intros r [out Hout].
      exists out. apply ec_parse_site_Ok. exact Hout.
    + intros catalog Hok. rewrite Hload in Hok.
      destruct (rmap (ECData.parse_site P) (ec_rows P rest)) as [sites|] eqn:Hr; [|discriminate].
      simpl in Hok. inversion Hok; subst. exists sites. split; [reflexivity|].
      apply rmap_Ok_Forall2 in Hr.
      eapply Forall2_impl; [exact Hr|]. intros row out. apply ec_parse_site_Ok.
  - intros abr tree Hdoc. unfold fetch_document in Hdoc.
    assert (Hload : ECAQHI.get_aqhi_regions P abr =
                    (let+ by_zone :=
                       rmap (Aqhi.parse_zone P ECAQHI.list_of (zone_tag P abr) (region_tag P abr))
                            (ET.findall [ET.Child "EC_administrativeZone"] tree) in
                     Ok (concat by_zone))).
    { unfold ECAQHI.get_aqhi_regions, Aqhi.get_aqhi_regions, zone_tag, region_tag.
      destruct (requests_get P _) as [content|]; [|discriminate]. cbn [rbind] in *.
      destruct (decode_utf8 P content) as [text|]; [|discriminate]. cbn [rbind] in *.
      rewrite Hdoc. reflexivity. }
    split; [|split].
    + intros region k s Hin Hk Hattr Hs. rewrite Hload.
      unfold aqhi_region_elements in Hin. apply in_flat_map in Hin.
      destruct Hin as (zone & Hzone & Hregion).
      assert (Hz : exists e, Aqhi.parse_zone P ECAQHI.list_of (zone_tag P abr)
                                             (region_tag P abr) zone = Raise e).
      { unfold Aqhi.parse_zone, getitem.
        destruct (ET.attrib zone !! "abreviation") as [a|]; [|simpl; eauto]. simpl.
        destruct (ET.attrib zone !! zone_tag P abr) as [n|]; [|simpl; eauto]. simpl.
        destruct (aqhi_parse_region_unparsed P ECAQHI.list_of
                    {[ "abbreviation" := VStr a; "zone_name" := VStr n ]}
                    (region_tag P abr) region k s Hk Hattr Hs) as [e He].
        eapply rmap_Raise_in; eassumption. }
      destruct Hz as [e He].
      destruct (rmap_Raise_in _ _ _ _ Hzone He) as [e' ->]. simpl. eauto.
    + intros zpre zone zpost rpre region rpost Hzones Hzpre [[a Ha] [n Hn]] Hregions Hrpre Hbad.
      rewrite Hload, Hzones.
      rewrite (rmap_first_failure _ zpre zpost zone ValueError); [reflexivity| |].
      * eapply Forall_impl; [exact Hzpre|]. intros z. apply zone_loads_parses.
      * unfold Aqhi.parse_zone, getitem. rewrite Ha. cbn [rbind]. rewrite Hn. cbn [rbind].
        unfold regions_of in Hregions. rewrite Hregions.
        apply rmap_first_failure; [|apply aqhi_bad_region_raises; exact Hbad].
        eapply Forall_impl; [exact Hrpre|]. intros r. apply region_loads_parses.
    + intros catalog Hok. rewrite Hload in Hok.
      destruct (rmap _ _) as [by_zone|] eqn:Hz; [|discriminate]. cbn [rbind] in Hok.
      injection Hok as <-. exists by_zone. split; [reflexivity|].
      apply rmap_Ok_Forall2 in Hz. eapply Forall2_impl; [exact Hz|].
      intros zone recs Hzone. unfold Aqhi.parse_zone, getitem in Hzone.
      destruct (ET.attrib zone !! "abreviation") as [a|] eqn:Ha; [|discriminate].
      cbn [rbind] in Hzone.
      destruct (ET.attrib zone !! zone_tag P abr) as [n|] eqn:Hn; [|discriminate].
      cbn [rbind] in Hzone. apply rmap_Ok_Forall2 in Hzone.
      eapply Forall2_impl; [exact Hzone|]. intros region r.
      apply aqhi_parse_region_Ok; assumption.
  - intros self catalog. unfold ECData.get_aqhi_regions. apply getchildren_catalog_empty.
Qed.

Lemma loaders_fail_on_unparsed_coordinates_witness :
  In (<["Latitude" := VStr ""]> (<["ID" := VStr "A"]> (<["Name" := VStr "first"]>
        (<["Longitude" := VStr "-75.0"]> (<["Prov" := VStr "ON"]> ∅)))))
     (hydro_rows blank_latitude_web blank_latitude) /\
  exists e, ECHydro.get_hydro_sites blank_latitude_web = Raise e.
Proof.
  assert (Hin : In (<["Latitude" := VStr ""]> (<["ID" := VStr "A"]> (<["Name" := VStr "first"]>
                     (<["Longitude" := VStr "-75.0"]> (<["Prov" := VStr "ON"]> ∅)))))
                   (hydro_rows blank_latitude_web blank_latitude)).
  { left. vm_cast_no_check
            (eq_refl (<["Latitude" := VStr ""]> (<["ID" := VStr "A"]> (<["Name" := VStr "first"]>
                        (<["Longitude" := VStr "-75.0"]>
                           (<["Prov" := VStr "ON"]> (∅ : gmap string value))))))). }
  split; [exact Hin|].
  refine (proj1 (proj1 (loaders_fail_on_unparsed_coordinates blank_latitude_web)
                   blank_latitude _) _ "Latitude" "" Hin _ _ _).
  - reflexivity.
  - left. reflexivity.
  - vm_compute. reflexivity.
  - reflexivity.
Defined.

(** C6, counterexample: station A has an empty latitude and station B is
    well formed; the loader raises [ValueError] instead of returning the
    catalog that holds B alone. *)
Lemma loader_does_not_skip_bad_entry :
  float_of_string blank_latitude_web "" = None /\
  ECHydro.get_hydro_sites blank_latitude_web = Raise ValueError /\
  rmap (ECHydro.parse_site blank_latitude_web)
       (tl (hydro_rows blank_latitude_web blank_latitude)) = Ok [station_B].
Proof.
  split; [vm_compute; reflexivity|]. split; [vm_compute; reflexivity|].
  vm_cast_no_check (eq_refl (Ok [station_B])).
Qed.

(** The children of a region are written after its coordinates: a child
    element tagged [latitude] replaces the float by its text. *)
Example aqhi_child_replaces_latitude :
  (let+ catalog := ECAQHI.get_aqhi_regions latitude_child_web "EN" in
   rmap (fun r => getitem r "latitude") catalog) = Ok [VStr "north"].
Proof. vm_compute. reflexivity. Qed.

(** ** Frame reasoning for method bodies *)

Section Frame.
Context {St : Type}.
Variable R : St -> St -> Prop.
Hypothesis R_refl : forall s, R s s.
Hypothesis R_trans : forall s1 s2 s3, R s1 s2 -> R s2 s3 -> R s1 s3.

Lemma related_ret {A} (a : A) : related R (ret a).
Proof. intros s. apply R_refl. Qed.

Lemma related_raise {A} (e : exn) : related R (@raise St A e).
Proof. intros s. apply R_refl. Qed.

Lemma related_lift {A} (r : result A) : related R (lift r).
Proof. intros s. apply R_refl. Qed.

Lemma related_gets {A} (f : St -> A) : related R (gets f).
Proof. intros s. apply R_refl. Qed.

Lemma related_modify (f : St -> St) : (forall s, R s (f s)) -> related R (modify f).
Proof. intros H s. apply H. Qed.

Lemma related_bind {A B} (m : M St A) (k : A -> M St B) :
  related R m -> (forall a, related R (k a)) -> related R (bind m k).
Proof.
  intros Hm Hk s. unfold bind. specialize (Hm s).
  destruct (m s) as [s' [a|e]]; simpl in *; [|assumption].
  eapply R_trans; [exact Hm|]. apply Hk.
Qed.

Lemma related_for_each {A} (l : list A) (body : A -> M St unit) :
  (forall x, In x l -> related R (body x)) -> related R (for_each l body).
Proof.
  intros Hb. induction l as [|x l IH]; simpl.
  - apply related_ret.
  - apply related_bind.
    + apply Hb. left. reflexivity.
    + intros _. apply IH. intros y Hy. apply Hb. right. exact Hy.
Qed.

Lemma related_try_except {A} (m : M St A) (e : exn) (h : M St A) :
  related R m -> related R h -> related R (try_except m e h).
Proof.
  intros Hm Hh s. unfold try_except. specialize (Hm s).
  destruct (m s) as [s' [a|e']]; simpl in *; [assumption|].
  destruct (decide (e' = e)); simpl; [|assumption].
  eapply R_trans; [exact Hm|]. apply Hh.
Qed.
End Frame.

Ltac frame_intro := repeat match goal with |- forall _ : _, _ => intro end; cbv beta.

Create HintDb frame.

Ltac frame_step :=
  lazymatch goal with
  | |- related _ (ret _) => apply related_ret; assumption
  | |- related _ (raise _) => apply related_raise; assumption
  | |- related _ (lift _) => apply related_lift; assumption
  | |- related _ (gets _) => apply related_gets; assumption
  | |- related _ (modify _) => apply related_modify; intros ?; simpl
  | |- related _ (bind _ _) => apply related_bind; try assumption; frame_intro
  | |- related _ (for_each _ _) => apply related_for_each; try assumption; frame_intro
  | |- related _ (try_except _ _ _) => apply related_try_except; try assumption
  | |- related _ (match ?x with _ => _ end) => destruct x
  | |- related _ (fun _ => (_, _)) => intros ?; simpl
  | |- related _ _ => solve [auto with frame]
  end.

Ltac frame := repeat frame_step.

(** ** ECHydro: one request per fetch *)

Lemma hydro_fetch_requests_once (P : Prims) (s : ECHydro.t) :
  ECHydro.requested (fst (ECHydro.fetch_new_data P s)) =
  ECHydro.READINGS_URL (ECHydro.province s) (ECHydro.station s) :: ECHydro.requested s.
Proof.
  unfold ECHydro.fetch_new_data.
  unfold bind at 1. simpl. unfold bind at 1. simpl.
  unfold bind at 1. unfold ECHydro.http_get at 1.
  destruct (requests_get P _) as [content|e]; [|reflexivity].
  match goal with |- ECHydro.requested (fst (?m ?s0)) = _ =>
    assert (H : related same_requests m) end.
  { assert (Hr : forall s, same_requests s s) by reflexivity.
    assert (Ht : forall s1 s2 s3, same_requests s1 s2 -> same_requests s2 s3 -> same_requests s1 s3)
      by (unfold same_requests; congruence).
    frame; reflexivity. }
  rewrite H. reflexivity.
Qed.

(** ** Strings *)

Lemma prefix_app (a b : string) : String.prefix a (a ++ b)%string = true.
Proof.
  induction a as [|c a IH]; simpl.
  - destruct b; reflexivity.
  - destruct (ascii_dec c c); [assumption|congruence].
Qed.

Lemma prefix_inv (a b : string) :
  String.prefix a b = true -> exists post, b = (a ++ post)%string.
Proof.
  revert b. induction a as [|c a IH]; intros b H.
  - exists b. reflexivity.
  - destruct b as [|c' b]; simpl in H; [discriminate|].
    destruct (ascii_dec c c'); [|discriminate]. subst.
    destruct (IH b H) as [post ->]. exists post. reflexivity.
Qed.

Lemma contains_app (sub pre post : string) :
  contains sub (pre ++ sub ++ post)%string = true.
Proof.
  induction pre as [|c pre IH].
  - change (EmptyString ++ sub ++ post)%string with (sub ++ post)%string.
    pose proof (prefix_app sub post) as H.
    destruct (sub ++ post)%string; cbn [contains]; rewrite H; reflexivity.
  - change (String c pre ++ sub ++ post)%string with (String c (pre ++ sub ++ post))%string.
    cbn [contains]. rewrite IH. apply orb_true_r.
Qed.

Lemma contains_inv (sub s : string) :
  contains sub s = true -> exists pre post, s = (pre ++ sub ++ post)%string.
Proof.
  induction s as [|c s IH]; intros H.
  - cbn [contains] in H. rewrite orb_false_r in H.
    destruct (prefix_inv _ _ H) as [post ->]. exists EmptyString, post. reflexivity.
  - cbn [contains] in H. apply orb_true_iff in H. destruct H as [H|H].
    + destruct (prefix_inv _ _ H) as [post ->]. exists EmptyString, post. reflexivity.
    + destruct (IH H) as (pre & post & ->). exists (String c pre), post. reflexivity.
Qed.

Lemma occurrences_app (c : ascii) (a b : string) :
  occurrences c (a ++ b)%string = (occurrences c a + occurrences c b)%nat.
Proof.
  induction a as [|c' a IH]; [reflexivity|].
  change (String c' a ++ b)%string with (String c' (a ++ b))%string.
  cbn [occurrences]. rewrite IH. lia.
Qed.

Lemma append_assoc (a b c : string) : ((a ++ b) ++ c)%string = (a ++ b ++ c)%string.
Proof.
  induction a as [|x a IH]; [reflexivity|].
  change (String x ((a ++ b) ++ c) = String x (a ++ b ++ c))%string.
  f_equal. exact IH.
Qed.

Lemma append_inv_head (a b c : string) : (a ++ b)%string = (a ++ c)%string -> b = c.
Proof.
  induction a as [|x a IH]; intros H; [exact H|].
  change (String x (a ++ b) = String x (a ++ c))%string in H.
  injection H. auto.
Qed.

Lemma split_at_separator (c : ascii) (x x' r r' : string) :
  occurrences c x = O -> occurrences c x' = O ->
  (x ++ String c r)%string = (x' ++ String c r')%string -> x = x' /\ r = r'.
Proof.
  revert x'. induction x as [|a x IH]; intros x' Hx Hx' H.
  - destruct x' as [|a' x']; simpl in *.
    + injection H. auto.
    + injection H as Ha _. subst a'. rewrite Ascii.eqb_refl in Hx'. discriminate.
  - destruct x' as [|a' x']; simpl in *.
    + injection H as Ha _. subst a. rewrite Ascii.eqb_refl in Hx. discriminate.
    + injection H as Ha H. subst a'.
      destruct (Ascii.eqb a c); [discriminate|]. simpl in *.
      destruct (IH x' Hx Hx' H) as [-> ->]. auto.
Qed.

(** ** ECHydro: the notification match *)

Lemma hydro_message_slashes (prov stn : string) :
  identifier prov -> identifier stn ->
  occurrences "/" (ECHydro.HYDRO_MESSAGE prov stn) = 5%nat.
Proof.
  intros [Hp _] [Hs _]. unfold ECHydro.HYDRO_MESSAGE.
  rewrite !occurrences_app, Hp, Hs. reflexivity.
Qed.

Lemma hydro_message_injective (prov stn prov' stn' : string) :
  identifier prov -> identifier stn -> identifier prov' -> identifier stn' ->
  contains (ECHydro.HYDRO_MESSAGE prov stn) (ECHydro.HYDRO_MESSAGE prov' stn') = true ->
  prov' = prov /\ stn' = stn.
Proof.
  intros Hp Hs Hp' Hs' H.
  destruct (contains_inv _ _ H) as (pre & post & E).
  assert (Hn : occurrences "/" pre = O).
  { apply (f_equal (occurrences "/")) in E.
    rewrite !occurrences_app, !hydro_message_slashes in E by assumption. lia. }
  destruct pre as [|c pre].
  - change (EmptyString ++ ?x)%string with x in E.
    unfold ECHydro.HYDRO_MESSAGE in E. rewrite !append_assoc in E.
    apply append_inv_head in E.
    destruct Hp as [Hp1 Hp2], Hp' as [Hp'1 Hp'2], Hs as [Hs1 Hs2], Hs' as [Hs'1 Hs'2].
    destruct (split_at_separator "/" prov' prov _ _ Hp'1 Hp1 E) as [-> E1].
    apply (append_inv_head "hourly/") in E1. apply append_inv_head in E1.
    apply (append_inv_head "_") in E1.
    destruct (split_at_separator "_" stn' stn _ _ Hs'2 Hs2 E1) as [-> _]. auto.
  - exfalso. unfold ECHydro.HYDRO_MESSAGE in E. simpl in E. injection E as Hc _.
    subst c. simpl in Hn. discriminate.
Qed.

Lemma hydro_process_message_hit (P : Prims) (s : ECHydro.t) (body : string) :
  contains (ECHydro.HYDRO_MESSAGE (ECHydro.province s) (ECHydro.station s)) body = true ->
  ECHydro.requested (fst (ECHydro.process_message P body s)) =
    ECHydro.READINGS_URL (ECHydro.province s) (ECHydro.station s) :: ECHydro.requested s.
Proof.
  intros H. unfold ECHydro.process_message, bind, gets. simpl. rewrite H.
  apply hydro_fetch_requests_once.
Qed.

Lemma hydro_process_message_miss (P : Prims) (s : ECHydro.t) (body : string) :
  contains (ECHydro.HYDRO_MESSAGE (ECHydro.province s) (ECHydro.station s)) body = false ->
  ECHydro.process_message P body s = (s, Ok tt).
Proof.
  intros H. unfold ECHydro.process_message, bind, gets. simpl. rewrite H. reflexivity.
Qed.

(** C8: a notification triggers a fetch exactly when its body contains
    the path formatted from the identifiers of the instance: a body built
    around that path always matches, and the path of another pair of
    identifiers never does. *)
Theorem process_message_matches_by_containment (P : Prims) (s : ECHydro.t) (body : string) :
  let path := ECHydro.HYDRO_MESSAGE (ECHydro.province s) (ECHydro.station s) in
  (contains path body = true ->
   ECHydro.requested (fst (ECHydro.process_message P body s)) =
     ECHydro.READINGS_URL (ECHydro.province s) (ECHydro.station s) :: ECHydro.requested s) /\
  (contains path body = false -> ECHydro.process_message P body s = (s, Ok tt)) /\
  (forall pre post, body = (pre ++ path ++ post)%string -> contains path body = true) /\
  (forall prov' stn',
      identifier (ECHydro.province s) -> identifier (ECHydro.station s) ->
      identifier prov' -> identifier stn' ->
      (prov', stn') <> (ECHydro.province s, ECHydro.station s) ->
      body = ECHydro.HYDRO_MESSAGE prov' stn' -> contains path body = false).
Proof.
  intros path. repeat split.
  - apply hydro_process_message_hit.
  - apply hydro_process_message_miss.
  - intros pre post ->. apply contains_app.
  - intros prov' stn' Hp Hs Hp' Hs' Hne ->.
    destruct (contains path (ECHydro.HYDRO_MESSAGE prov' stn')) eqn:E; [|reflexivity].
    exfalso. apply Hne.
    destruct (hydro_message_injective _ _ _ _ Hp Hs Hp' Hs' E) as [-> ->]. reflexivity.
Qed.

Lemma process_message_matches_by_containment_witness :
  contains (ECHydro.HYDRO_MESSAGE "BC" "08MG005") notice_08MG005 = true /\
  ECHydro.requested
    (fst (ECHydro.process_message (Fixture.prims [] []) notice_08MG005 station_08MG005)) =
    [ECHydro.READINGS_URL "BC" "08MG005"] /\
  contains (ECHydro.HYDRO_MESSAGE "BC" "08MG005") (ECHydro.HYDRO_MESSAGE "BC" "08MG006") = false.
Proof.
  pose proof (process_message_matches_by_containment (Fixture.prims [] []) station_08MG005
                notice_08MG005) as (H1 & _ & _ & _).
  pose proof (process_message_matches_by_containment (Fixture.prims [] []) station_08MG005
                (ECHydro.HYDRO_MESSAGE "BC" "08MG006")) as (_ & _ & _ & H4).
  split; [vm_compute; reflexivity|]. split.
  - apply H1. vm_compute. reflexivity.
  - apply (H4 "BC" "08MG006");
      first [ split; vm_compute; reflexivity | discriminate | reflexivity ].
Defined.

(** ** The change notifiers: one event per poll *)

Lemma try_except_ret_state {St A} (m : M St A) (e : exn) (a : A) (s : St) :
  fst (try_except m e (ret a) s) = fst (m s).
Proof.
  unfold try_except. destruct (m s) as [s' [x|e']]; [reflexivity|].
  destruct (decide (e' = e)); reflexivity.
Qed.

Section StoreForecasts.
Context {St : Type}.
Variable R : St -> St -> Prop.
Hypothesis R_refl : forall s, R s s.
Hypothesis R_trans : forall s1 s2 s3, R s1 s2 -> R s2 s3 -> R s1 s3.
Variable over : (gmap string Aqhi.aqhi_value -> gmap string Aqhi.aqhi_value) -> St -> St.
Hypothesis R_over : forall f s, R s (over f s).

Lemma related_daily_loop (abr : string) (fs : list ET.Element) (period : value) :
  related R (Aqhi.daily_loop over abr period fs).
Proof.
  revert period. induction fs as [|f fs IH]; intros period; cbn [Aqhi.daily_loop].
  - apply related_ret; assumption.
  - apply related_bind; [assumption| |].
    + apply related_lift; assumption.
    + intros p. apply related_bind; [assumption| |].
      * apply related_modify. intros s. apply R_over.
      * intros _. apply IH.
Qed.

Lemma related_store_forecasts (abr : string) (tree : ET.Element) :
  related R (Aqhi.store_forecasts over abr tree).
Proof.
  unfold Aqhi.store_forecasts.
  apply related_bind; [assumption| |].
  { apply related_modify. intros s. apply R_over. }
  intros _. apply related_bind; [assumption| |].
  { apply related_daily_loop. }
  intros _. apply related_for_each; [assumption|assumption|].
  intros f _. unfold Aqhi.hourly_body.
  apply related_bind; [assumption| |].
  { apply related_lift; assumption. }
  intros utc. apply related_modify. intros s. apply R_over.
Qed.
End StoreForecasts.

Lemma aqhi_same_requests_refl (s : ECAQHI.t) : aqhi_same_requests s s.
Proof. reflexivity. Qed.

Lemma aqhi_same_requests_trans (s1 s2 s3 : ECAQHI.t) :
  aqhi_same_requests s1 s2 -> aqhi_same_requests s2 s3 -> aqhi_same_requests s1 s3.
Proof. unfold aqhi_same_requests. congruence. Qed.




(** ** ec_cache.py: the cache key *)

Lemma ascii_compare_lt_trans (a b c : ascii) :
  Ascii.compare a b = Lt -> Ascii.compare b c = Lt -> Ascii.compare a c = Lt.
Proof.
  unfold Ascii.compare. rewrite !N.compare_lt_iff. apply N.lt_trans.
Qed.

Lemma ascii_compare_eq (a b : ascii) : Ascii.compare a b = Eq -> a = b.
Proof. apply Ascii.compare_eq_iff. Qed.

Lemma string_compare_lt_trans (a b c : string) :
  String.compare a b = Lt -> String.compare b c = Lt -> String.compare a c = Lt.
Proof.
  revert b c. induction a as [|x a IH]; intros [|y b] [|z c]; simpl; try congruence.
  destruct (Ascii.compare x y) eqn:Hxy; try discriminate.
  - apply ascii_compare_eq in Hxy. subst y.
    destruct (Ascii.compare x z) eqn:Hxz; try congruence. apply IH.
  - intros _. destruct (Ascii.compare y z) eqn:Hyz; try discriminate.
    + apply ascii_compare_eq in Hyz. subst z. rewrite Hxy. reflexivity.
    + intros _. rewrite (ascii_compare_lt_trans x y z Hxy Hyz). reflexivity.
Qed.

Lemma string_ltb_lt (a b : string) : String.ltb a b = true <-> String.compare a b = Lt.
Proof. unfold String.ltb. destruct (String.compare a b); split; congruence. Qed.

Lemma item_ltb_asym (a b : string * string) :
  ECCache.item_ltb a b = true -> ECCache.item_ltb b a = false.
Proof.
  unfold ECCache.item_ltb, String.ltb.
  rewrite (String.compare_antisym (fst b) (fst a)), (String.compare_antisym (snd b) (snd a)).
  destruct (String.compare (fst a) (fst b)); simpl; try congruence.
  destruct (String.compare (snd a) (snd b)); simpl; congruence.
Qed.

Lemma item_ltb_total (a b : string * string) :
  ECCache.item_ltb a b = false -> ECCache.item_ltb b a = false -> a = b.
Proof.
  unfold ECCache.item_ltb, String.ltb.
  rewrite (String.compare_antisym (fst b) (fst a)), (String.compare_antisym (snd b) (snd a)).
  destruct (String.compare (fst a) (fst b)) eqn:Hk; simpl; try congruence.
  destruct (String.compare (snd a) (snd b)) eqn:Hv; simpl; try congruence.
  intros _ _. apply String.compare_eq_iff in Hk, Hv.
  destruct a, b; simpl in *; congruence.
Qed.

Lemma item_ltb_trans (a b c : string * string) :
  ECCache.item_ltb a b = true -> ECCache.item_ltb b c = true -> ECCache.item_ltb a c = true.
Proof.
  unfold ECCache.item_ltb.
  destruct (String.compare (fst a) (fst b)) eqn:Hab; try discriminate.
  - apply String.compare_eq_iff in Hab. rewrite Hab.
    destruct (String.compare (fst b) (fst c)) eqn:Hbc; try discriminate; [|reflexivity].
    rewrite !string_ltb_lt. apply string_compare_lt_trans.
  - intros _. destruct (String.compare (fst b) (fst c)) eqn:Hbc; try discriminate.
    + apply String.compare_eq_iff in Hbc. rewrite <- Hbc, Hab. reflexivity.
    + intros _. rewrite (string_compare_lt_trans _ _ _ Hab Hbc). reflexivity.
Qed.

Lemma item_ltb_le_lt (z x y : string * string) :
  ECCache.item_ltb z x = false -> ECCache.item_ltb z y = true -> ECCache.item_ltb x y = true.
Proof.
  intros Hzx Hzy. destruct (ECCache.item_ltb x y) eqn:Hxy; [reflexivity|].
  destruct (ECCache.item_ltb y x) eqn:Hyx.
  - rewrite (item_ltb_trans z y x Hzy Hyx) in Hzx. discriminate.
  - rewrite (item_ltb_total x y Hxy Hyx) in Hzx. congruence.
Qed.

Lemma insert_sorted_pair (x y : string * string) (l : list (string * string)) :
  ECCache.insert_sorted x (y :: l) =
  if ECCache.item_ltb y x then y :: ECCache.insert_sorted x l else x :: y :: l.
Proof. reflexivity. Qed.

Lemma insert_sorted_comm (x y : string * string) (l : list (string * string)) :
  ECCache.insert_sorted x (ECCache.insert_sorted y l) =
  ECCache.insert_sorted y (ECCache.insert_sorted x l).
Proof.
  assert (Hbase : forall t,
             ECCache.insert_sorted x t = x :: t -> ECCache.insert_sorted y t = y :: t ->
             ECCache.insert_sorted x (y :: t) = ECCache.insert_sorted y (x :: t)).
  { intros t Hx Hy. rewrite !insert_sorted_pair, Hx, Hy.
    destruct (ECCache.item_ltb y x) eqn:Hyx; cbv beta iota.
    - rewrite (item_ltb_asym _ _ Hyx). reflexivity.
    - destruct (ECCache.item_ltb x y) eqn:Hxy; [reflexivity|].
      rewrite (item_ltb_total _ _ Hxy Hyx). reflexivity. }
  induction l as [|z l IH].
  - apply Hbase; reflexivity.
  - rewrite (insert_sorted_pair y z l), (insert_sorted_pair x z l).
    destruct (ECCache.item_ltb z y) eqn:Hzy, (ECCache.item_ltb z x) eqn:Hzx; cbv beta iota.
    + rewrite !insert_sorted_pair, Hzy, Hzx, IH. reflexivity.
    + rewrite (insert_sorted_pair x z), Hzx, (insert_sorted_pair y x).
      rewrite (item_ltb_le_lt z x y Hzx Hzy), insert_sorted_pair, Hzy. reflexivity.
    + rewrite (insert_sorted_pair y z), Hzy, (insert_sorted_pair x y).
      rewrite (item_ltb_le_lt z y x Hzy Hzx), insert_sorted_pair, Hzx. reflexivity.
    + apply Hbase; rewrite insert_sorted_pair; [rewrite Hzx|rewrite Hzy]; reflexivity.
Qed.

Lemma sorted_Permutation (l1 l2 : list (string * string)) :
  Permutation l1 l2 -> ECCache.sorted l1 = ECCache.sorted l2.
Proof.
  induction 1 as [|x l1 l2 _ IH|x y l|l1 l2 l3 _ IH1 _ IH2]; simpl.
  - reflexivity.
  - rewrite IH. reflexivity.
  - apply insert_sorted_comm.
  - congruence.
Qed.

(** ** ec_cache.py: hits and expiry *)

Lemma cache_get_stores (session_get : nat -> string -> ECCache.params_t -> result string)
    (s s1 : ECCache.t) (now now' : Z) (url : string) (params : ECCache.params_t)
    (cache_time : Z) (resp : ECCache.response) :
  ECCache.get session_get now now' url params cache_time s = (s1, Ok resp) ->
  exists expiry,
    ECCache._cache s1 !! (url, ECCache.sorted params) = Some (expiry, resp).
Proof.
  unfold ECCache.get, ECCache._flush_cache, bind, modify, gets, ret. simpl.
  destruct (filter _ (ECCache._cache s) !! (url, ECCache.sorted params)) as [[e r]|] eqn:Hl.
  - intros [= <- <-]. simpl. exists e. exact Hl.
  - unfold ECCache.super_get. simpl.
    destruct (session_get _ url params) as [body|e]; [|discriminate].
    intros [= <- <-]. simpl. eexists. apply lookup_insert_eq.
Qed.

Lemma cache_get_hit (session_get : nat -> string -> ECCache.params_t -> result string)
    (s : ECCache.t) (now now' : Z) (url : string) (params : ECCache.params_t)
    (cache_time expiry : Z) (resp : ECCache.response) :
  ECCache._cache s !! (url, ECCache.sorted params) = Some (expiry, resp) ->
  (now <= expiry)%Z ->
  exists s', ECCache.get session_get now now' url params cache_time s = (s', Ok resp) /\
             ECCache.upstream s' = ECCache.upstream s.
Proof.
  intros Hl Hle.
  unfold ECCache.get, ECCache._flush_cache, bind, modify, gets, ret. simpl.
  assert (Hf : filter (fun kv => ¬ (fst (snd kv) < now)%Z) (ECCache._cache s)
                 !! (url, ECCache.sorted params) = Some (expiry, resp)).
  { apply map_lookup_filter_Some. split; [exact Hl|]. simpl. lia. }
  rewrite Hf. eexists. split; reflexivity.
Qed.

Lemma cache_get_expired (session_get : nat -> string -> ECCache.params_t -> result string)
    (s s' : ECCache.t) (now now' : Z) (url : string) (params : ECCache.params_t)
    (cache_time expiry : Z) (resp : ECCache.response) (r : result ECCache.response) :
  ECCache._cache s !! (url, ECCache.sorted params) = Some (expiry, resp) ->
  (expiry < now)%Z ->
  ECCache.get session_get now now' url params cache_time s = (s', r) ->
  ECCache.upstream s' = (url, params) :: ECCache.upstream s.
Proof.
  intros Hl Hlt.
  unfold ECCache.get, ECCache._flush_cache, bind, modify, gets, ret. simpl.
  assert (Hf : filter (fun kv => ¬ (fst (snd kv) < now)%Z) (ECCache._cache s)
                 !! (url, ECCache.sorted params) = None).
  { apply map_lookup_filter_None. right. intros x Hx. rewrite Hl in Hx.
    inversion Hx; subst. simpl. lia. }
  rewrite Hf. unfold ECCache.super_get. simpl.
  destruct (session_get _ url params); intros [= <- _]; reflexivity.
Qed.

(** C10: a second [get] with the same URL and the same items in any
    order, made no later than the expiry of the entry the first call left
    in the cache, returns the response object of that entry without
    calling the session again; made after the expiry it calls the session
    again, for the entry has been flushed. *)
Theorem cache_hit_returns_stored_response
    (session_get : nat -> string -> ECCache.params_t -> result string)
    (s s1 : ECCache.t) (url : string) (params1 params2 : ECCache.params_t)
    (now1 now1' cache_time1 : Z) (resp : ECCache.response) :
  ECCache.get session_get now1 now1' url params1 cache_time1 s = (s1, Ok resp) ->
  Permutation params1 params2 ->
  exists expiry,
    ECCache._cache s1 !! (url, ECCache.sorted params1) = Some (expiry, resp) /\
    (forall now2 now2' cache_time2,
        (now2 <= expiry)%Z ->
        exists s2,
          ECCache.get session_get now2 now2' url params2 cache_time2 s1 = (s2, Ok resp) /\
          ECCache.upstream s2 = ECCache.upstream s1) /\
    (forall now2 now2' cache_time2 s2 r,
        (expiry < now2)%Z ->
        ECCache.get session_get now2 now2' url params2 cache_time2 s1 = (s2, r) ->
        ECCache.upstream s2 = (url, params2) :: ECCache.upstream s1).
Proof.
  intros Hfirst Hperm.
  destruct (cache_get_stores _ _ _ _ _ _ _ _ _ Hfirst) as [expiry Hl].
  exists expiry. split; [exact Hl|].
  rewrite (sorted_Permutation _ _ Hperm) in Hl. split.
  - intros now2 now2' ct2 Hle. eapply cache_get_hit; eassumption.
  - intros now2 now2' ct2 s2 r Hlt Hget. eapply cache_get_expired; eassumption.
Qed.

Lemma cache_hit_returns_stored_response_witness :
  exists expiry,
    ECCache._cache after_first_get
      !! ("https://geo.weather.gc.ca/geomet",
          ECCache.sorted [("layers", "RADAR"); ("format", "png")])
      = Some (expiry, ECCache.mk_response 0 "https://geo.weather.gc.ca/geomet") /\
    (forall now2 now2' cache_time2,
        (now2 <= expiry)%Z ->
        exists s2,
          ECCache.get echo_session now2 now2' "https://geo.weather.gc.ca/geomet"
            [("format", "png"); ("layers", "RADAR")] cache_time2 after_first_get
            = (s2, Ok (ECCache.mk_response 0 "https://geo.weather.gc.ca/geomet")) /\
          ECCache.upstream s2 = ECCache.upstream after_first_get) /\
    (forall now2 now2' cache_time2 s2 r,
        (expiry < now2)%Z ->
        ECCache.get echo_session now2 now2' "https://geo.weather.gc.ca/geomet"
          [("format", "png"); ("layers", "RADAR")] cache_time2 after_first_get = (s2, r) ->
        ECCache.upstream s2 =
          ("https://geo.weather.gc.ca/geomet", [("format", "png"); ("layers", "RADAR")])
            :: ECCache.upstream after_first_get).
Proof.
  apply (cache_hit_returns_stored_response echo_session empty_cache after_first_get
           "https://geo.weather.gc.ca/geomet"
           [("layers", "RADAR"); ("format", "png")] [("format", "png"); ("layers", "RADAR")]
           1000 1000 ECCache.CACHE_EXPIRE_TIME).
  - reflexivity.
  - apply perm_swap.
Defined.

(** ** ECData: the rate limit *)

(** C9: an [update] called while the limit is exceeded (the window of 60
    seconds is still open and two calls were already counted in it)
    returns [None], requests nothing and changes no attribute (only the
    limiter counts the call); [update] never lets a
    [RateLimitException] through, so the caller sees the same [None] as
    after a refresh. *)
Theorem rate_limited_update_is_silent (P : Prims) (s : ECData.t) (now : Q) :
  Qle_bool (60 - (now - ECData.last_reset s)) 0 = false ->
  (2 <= ECData.num_calls s)%nat ->
  ECData.update P now s =
    (ECData.set_limiter (S (ECData.num_calls s)) (ECData.last_reset s) s, Ok tt) /\
  (let s' := fst (ECData.update P now s) in
   ECData.requested s' = ECData.requested s /\
   ECData.metadata s' = ECData.metadata s /\
   ECData.conditions s' = ECData.conditions s /\
   ECData.alerts s' = ECData.alerts s /\
   ECData.daily_forecasts s' = ECData.daily_forecasts s /\
   ECData.hourly_forecasts s' = ECData.hourly_forecasts s /\
   ECData.aqhi s' = ECData.aqhi s /\
   ECData.forecast_time s' = ECData.forecast_time s) /\
  (forall (s0 s1 : ECData.t) (now0 : Q) (r : result unit),
      ECData.update P now0 s0 = (s1, r) ->
      r = Ok tt \/ exists e, r = Raise e /\ e <> RateLimitException).
Proof.
  intros Hopen Hcalls.
  assert (Hupd : ECData.update P now s =
                 (ECData.set_limiter (S (ECData.num_calls s)) (ECData.last_reset s) s, Ok tt)).
  { unfold ECData.update, ECData.ignore_ratelimit_error, ECData.limits,
      try_except, bind, gets, modify, ret, raise. simpl.
    rewrite Hopen. simpl.
    destruct (ECData.num_calls s) as [|[|n]] eqn:E; [lia|lia|]. simpl. reflexivity. }
  split; [exact Hupd|]. split.
  - rewrite Hupd. simpl. repeat split; reflexivity.
  - intros s0 s1 now0 r. unfold ECData.update, ECData.ignore_ratelimit_error, try_except.
    destruct (ECData.limits 2 60 now0 (ECData.update_body P) s0) as [s2 [[]|e]].
    + intros [= _ <-]. left. reflexivity.
    + destruct (decide (e = RateLimitException)) as [->|Hne].
      * unfold ret. intros [= _ <-]. left. reflexivity.
      * intros [= _ <-]. right. exists e. split; [reflexivity|exact Hne].
Qed.

Lemma rate_limited_update_is_silent_witness :
  ECData.update (Fixture.prims [] []) 30 ottawa_after_two_calls =
    (ECData.set_limiter 3 0 ottawa_after_two_calls, Ok tt).
Proof.
  apply (proj1 (rate_limited_update_is_silent (Fixture.prims [] []) ottawa_after_two_calls 30
                  ltac:(reflexivity) ltac:(simpl; lia))).
Defined.

(** ** ECData: what each part of [update] leaves alone *)

Lemma station_frame_refl (s : ECData.t) : station_frame s s.
Proof. repeat split. Qed.

Lemma station_frame_trans (s1 s2 s3 : ECData.t) :
  station_frame s1 s2 -> station_frame s2 s3 -> station_frame s1 s3.
Proof. unfold station_frame. intros (? & ? & ? & ?) (? & ? & ? & ?). repeat split; congruence. Qed.

Lemma conditions_meta_not_air_quality (c : string) (meta : ECData.cond_meta) :
  In (c, meta) ECData.conditions_meta -> c <> "air_quality".
Proof.
  intros H ->. unfold ECData.conditions_meta in H. simpl in H.
  repeat (destruct H as [H|H]; [discriminate H|]). exact H.
Qed.

Lemma update_station_frame (P : Prims) : related station_frame (ECData.update_station P).
Proof.
  pose proof station_frame_refl as Hr. pose proof station_frame_trans as Ht.
  unfold ECData.update_station, ECData.update_metadata, ECData.update_conditions,
    ECData.update_text_summary, ECData.update_alerts, ECData.reset_alerts, ECData.classify,
    ECData.update_forecasts, ECData.http_get.
  frame; unfold station_frame; simpl; repeat split;
    try (rewrite lookup_insert_ne by discriminate; reflexivity).
  - rewrite lookup_insert_ne; [reflexivity|].
    eapply conditions_meta_not_air_quality; eassumption.
  - rewrite lookup_alter_ne; [reflexivity|].
    eapply conditions_meta_not_air_quality; eassumption.
Qed.

Lemma observation_frame_refl (s : ECData.t) : observation_frame s s.
Proof. repeat split. Qed.

Lemma observation_frame_trans (s1 s2 s3 : ECData.t) :
  observation_frame s1 s2 -> observation_frame s2 s3 -> observation_frame s1 s3.
Proof. unfold observation_frame. intros (? & ?) (? & ?). repeat split; congruence. Qed.

Lemma update_aqhi_observation_frame (P : Prims) :
  related observation_frame (ECData.update_aqhi_observation P).
Proof.
  pose proof observation_frame_refl as Hr. pose proof observation_frame_trans as Ht.
  unfold ECData.update_aqhi_observation, ECData.http_get.
  frame; unfold observation_frame; simpl; repeat split;
    try (rewrite lookup_insert_ne by discriminate; reflexivity).
Qed.

Lemma update_station_fails (P : Prims) (s : ECData.t) (c : ascii) (l : string) (e : exn) :
  ECData.language s = String c l ->
  fetch_document P (ECData.XML_URL_BASE (ECData.station_id s) (String c EmptyString))
                 (fun content => Ok (decode_latin1 P content)) = Raise e ->
  ECData.update_station P s =
    (ECData.log_request
       (ECData.XML_URL_BASE (ECData.station_id s) (String c EmptyString)) s, Raise e).
Proof.
  intros Hl Hdoc. unfold fetch_document in Hdoc.
  unfold ECData.update_station, bind, gets, lift, ECData.http_get. simpl. rewrite Hl.
  destruct (requests_get P _) as [content|e']; simpl in *.
  - rewrite Hdoc. reflexivity.
  - congruence.
Qed.

Lemma update_aqhi_observation_fails (P : Prims) (s : ECData.t) (zone region : value) (e : exn) :
  ECData.aqhi_id s !! 0%nat = Some zone -> ECData.aqhi_id s !! 1%nat = Some region ->
  fetch_document P (Aqhi.AQHI_OBSERVATION_URL (str P zone) (str P region)) (decode_utf8 P)
    = Raise e ->
  ECData.update_aqhi_observation P s =
    (ECData.log_request (Aqhi.AQHI_OBSERVATION_URL (str P zone) (str P region)) s, Raise e).
Proof.
  intros Hz Hg Hdoc. unfold fetch_document in Hdoc.
  unfold ECData.update_aqhi_observation, bind, gets, lift, ECData.http_get, ECData.index.
  simpl. rewrite Hz, Hg.
  destruct (requests_get P _) as [content|e']; simpl in *; [|congruence].
  destruct (decode_utf8 P content) as [text|e']; simpl in *; [|congruence].
  rewrite Hdoc. reflexivity.
Qed.

Lemma update_aqhi_forecasts_fails (P : Prims) (s : ECData.t) (zone region : value) (e : exn) :
  ECData.aqhi_id s !! 0%nat = Some zone -> ECData.aqhi_id s !! 1%nat = Some region ->
  fetch_document P (Aqhi.AQHI_FORECAST_URL (str P zone) (str P region))
                 (fun content => Ok (decode_latin1 P content)) = Raise e ->
  ECData.update_aqhi_forecasts P s =
    (ECData.log_request (Aqhi.AQHI_FORECAST_URL (str P zone) (str P region)) s, Raise e).
Proof.
  intros Hz Hg Hdoc. unfold fetch_document in Hdoc.
  unfold ECData.update_aqhi_forecasts, bind, gets, lift, ECData.http_get, ECData.index.
  simpl. rewrite Hz, Hg.
  destruct (requests_get P _) as [content|e']; simpl in *; [|congruence].
  rewrite Hdoc. reflexivity.
Qed.

(** C3, as amended: when the document of a sub-feed cannot be retrieved,
    decoded or parsed, the output fields of that sub-feed keep the values
    they had before the fetch: nothing is assigned before the document is
    parsed.  For [ECData.update] these are the station document (every
    attribute is kept), the air quality observation ([aqhi] and the
    [air_quality] condition are kept) and the air quality forecast
    ([aqhi['forecasts']] is kept); for [ECHydro.fetch_new_data] and the
    two fetches of [ECAQHI] every attribute is kept. *)
Theorem failed_document_keeps_subfeed (P : Prims) :
  (forall (s : ECData.t) c l e,
      ECData.language s = String c l ->
      fetch_document P (ECData.XML_URL_BASE (ECData.station_id s) (String c EmptyString))
                     (fun content => Ok (decode_latin1 P content)) = Raise e ->
      ECData.update_body P s =
        (ECData.log_request
           (ECData.XML_URL_BASE (ECData.station_id s) (String c EmptyString)) s, Raise e)) /\
  (forall (s s1 : ECData.t) zone region e,
      ECData.update_station P s = (s1, Ok tt) ->
      ECData.aqhi_id s !! 0%nat = Some zone -> ECData.aqhi_id s !! 1%nat = Some region ->
      fetch_document P (Aqhi.AQHI_OBSERVATION_URL (str P zone) (str P region)) (decode_utf8 P)
        = Raise e ->
      snd (ECData.update_body P s) = Raise e /\
      ECData.aqhi (fst (ECData.update_body P s)) = ECData.aqhi s /\
      ECData.conditions (fst (ECData.update_body P s)) !! "air_quality" =
        ECData.conditions s !! "air_quality") /\
  (forall (s s1 s2 : ECData.t) zone region e,
      ECData.update_station P s = (s1, Ok tt) ->
      ECData.update_aqhi_observation P s1 = (s2, Ok tt) ->
      ECData.aqhi_id s !! 0%nat = Some zone -> ECData.aqhi_id s !! 1%nat = Some region ->
      fetch_document P (Aqhi.AQHI_FORECAST_URL (str P zone) (str P region))
                     (fun content => Ok (decode_latin1 P content)) = Raise e ->
      snd (ECData.update_body P s) = Raise e /\
      ECData.aqhi (fst (ECData.update_body P s)) !! "forecasts" =
        ECData.aqhi s !! "forecasts") /\
  (forall (s : ECHydro.t) e,
      fetch_text P (ECHydro.READINGS_URL (ECHydro.province s) (ECHydro.station s))
                 (decode_utf8_sig P) = Raise e ->
      ECHydro.fetch_new_data P s =
        (ECHydro.log_request
           (ECHydro.READINGS_URL (ECHydro.province s) (ECHydro.station s)) s, Raise e)) /\
  (forall (s : ECAQHI.t) e,
      let url := Aqhi.AQHI_OBSERVATION_URL (str P (fst (ECAQHI.aqhi_id s)))
                                           (str P (snd (ECAQHI.aqhi_id s))) in
      fetch_document P url (decode_utf8 P) = Raise e ->
      ECAQHI.fetch_new_observation P s = (ECAQHI.log_request url s, Raise e)) /\
  (forall (s : ECAQHI.t) e,
      let url := Aqhi.AQHI_FORECAST_URL (str P (fst (ECAQHI.aqhi_id s)))
                                        (str P (snd (ECAQHI.aqhi_id s))) in
      fetch_document P url (fun content => Ok (decode_latin1 P content)) = Raise e ->
      ECAQHI.fetch_new_forecast P s = (ECAQHI.log_request url s, Raise e)).
Proof.
  repeat apply conj.
  - intros s c l e Hl Hdoc. unfold ECData.update_body, bind.
    rewrite (update_station_fails P s c l e Hl Hdoc). reflexivity.
  - intros s s1 zone region e Hs1 Hz Hg Hdoc.
    pose proof (update_station_frame P s) as Hf. rewrite Hs1 in Hf. simpl in Hf.
    destruct Hf as (Haqhi & Hid & _ & Hcond).
    unfold ECData.update_body, bind. rewrite Hs1.
    rewrite (update_aqhi_observation_fails P s1 zone region e) by congruence.
    simpl. auto.
  - intros s s1 s2 zone region e Hs1 Hs2 Hz Hg Hdoc.
    pose proof (update_station_frame P s) as Hf. rewrite Hs1 in Hf. simpl in Hf.
    destruct Hf as (Haqhi & Hid & _ & _).
    pose proof (update_aqhi_observation_frame P s1) as Hf. rewrite Hs2 in Hf. simpl in Hf.
    destruct Hf as (Hfc & Hid2).
    unfold ECData.update_body, bind. rewrite Hs1, Hs2.
    rewrite (update_aqhi_forecasts_fails P s2 zone region e) by congruence.
    simpl. split; [reflexivity|]. congruence.
  - intros s e Hdoc. unfold fetch_text in Hdoc.
    unfold ECHydro.fetch_new_data, bind, gets, lift, ECHydro.http_get. simpl.
    destruct (requests_get P _) as [content|e']; simpl in *; [|congruence].
    rewrite Hdoc. reflexivity.
  - intros s e url Hdoc. subst url. unfold fetch_document in Hdoc.
    unfold ECAQHI.fetch_new_observation, bind, gets, lift, ECAQHI.http_get. simpl.
    destruct (requests_get P _) as [content|e']; simpl in *; [|congruence].
    destruct (decode_utf8 P content) as [text|e']; simpl in *; [|congruence].
    rewrite Hdoc. reflexivity.
  - intros s e url Hdoc. subst url. unfold fetch_document in Hdoc.
    unfold ECAQHI.fetch_new_forecast, bind, gets, lift, ECAQHI.http_get. simpl.
    destruct (requests_get P _) as [content|e']; simpl in *; [|congruence].
    rewrite Hdoc. reflexivity.
Qed.

Lemma failed_document_keeps_subfeed_witness :
  ECData.update_body (Fixture.prims [] []) ottawa_with_alert =
    (ECData.log_request (ECData.XML_URL_BASE "ON/s0000430" "e") ottawa_with_alert,
     Raise RequestException).
Proof.
  apply (proj1 (failed_document_keeps_subfeed (Fixture.prims [] []))
           ottawa_with_alert "e"%char "nglish" RequestException).
  - reflexivity.
  - reflexivity.
Defined.

(** C3, counterexample: the station document is served and parses, the
    page of the alert it announces cannot be retrieved.  [update] raises
    and the warning of the earlier update is gone: the categories were
    emptied before the page was requested. *)
Lemma failed_alert_page_empties_alerts :
  snd (ECData.update_body ottawa_web ottawa_with_alert) = Raise RequestException /\
  ECData.alerts ottawa_with_alert !! "warnings" =
    Some (ECData.mk_category
            [ECData.mk_alert "Wind Warning" "3:00 PM EST" "Strong winds."] "Warnings") /\
  ECData.alerts (fst (ECData.update_body ottawa_web ottawa_with_alert)) !! "warnings" =
    Some (ECData.mk_category [] "Warnings").
Proof. vm_compute. repeat split; reflexivity. Qed.

(** ** ECData: elements the station document may lack *)

(** C4, the failing input: the document of a site without current
    conditions is retrieved and parsed, [get_condition] answers the
    missing temperature with a record without value, and [update] raises
    [AttributeError] at the first metadata field instead of storing
    [None]. *)
Lemma update_raises_on_missing_element :
  fetch_document no_conditions_web (ECData.XML_URL_BASE "ON/s0000430" "e")
                 (fun content => Ok (decode_latin1 no_conditions_web content))
    = Ok no_conditions_xml /\
  ET.find [ET.Child "currentConditions"; ET.Child "dateTime"; ET.Child "timeStamp"]
          no_conditions_xml = None /\
  ECData.get_condition no_conditions_xml (ECData.cc "temperature") None = ∅ /\
  snd (ECData.update_body no_conditions_web ottawa) = Raise AttributeError /\
  ECData.metadata (fst (ECData.update_body no_conditions_web ottawa)) !! "timestamp" = None.
Proof. vm_compute. repeat split; reflexivity. Qed.

(** ** ECHydro: what a fetch stores *)

Lemma hydro_fetch_stores (P : Prims) (s s' : ECHydro.t) (text : string) :
  fetch_text P (ECHydro.READINGS_URL (ECHydro.province s) (ECHydro.station s))
             (decode_utf8_sig P) = Ok text ->
  ECHydro.fetch_new_data P s = (s', Ok tt) ->
  hydro_merged P s s' text.
Proof.
  intros Htext Hfetch. unfold hydro_merged. unfold fetch_text in Htext.
  unfold ECHydro.fetch_new_data, bind, gets, lift, ECHydro.http_get in Hfetch.
  simpl in Hfetch.
  destruct (requests_get P _) as [content|]; simpl in *; [|discriminate].
  rewrite Htext in Hfetch. unfold hydro_rows.
  destruct (readline text) as [line rest].
  destruct (last _) as [latest|]; [|inversion Hfetch; subst; simpl; split; reflexivity].
  unfold getitem, modify, ret in Hfetch.
  destruct (latest !! "Water Level") as [wl|] eqn:Hwl; [|discriminate].
  destruct (latest !! "Discharge") as [dc|] eqn:Hdc;
    [|destruct (ECHydro.differs wl ""); [destruct (float P wl)|]; discriminate].
  destruct (latest !! "Date") as [d|] eqn:Hd;
    [|destruct (ECHydro.differs wl ""); [destruct (float P wl)|];
      try discriminate; (destruct (ECHydro.differs dc ""); [destruct (float P dc)|]);
      discriminate].
  split.
  - intros key column label units Hin. unfold hydro_quantities in Hin.
    destruct Hin as [Hin|[Hin|[]]]; inversion Hin; subst; clear Hin.
    + exists wl. split; [exact Hwl|].
      destruct (ECHydro.differs wl "") eqn:Ewl.
      * destruct (float P wl) as [v|] eqn:Ev; [|discriminate]. exists v. split; [reflexivity|].
        destruct (ECHydro.differs dc "");
          [destruct (float P dc); [|discriminate]|];
          (destruct (ECHydro.isoparse_value P d); [|discriminate]);
          inversion Hfetch; subst; simpl;
          rewrite ?lookup_insert_ne by discriminate; apply lookup_insert_eq.
      * destruct (ECHydro.differs dc "");
          [destruct (float P dc); [|discriminate]|];
          (destruct (ECHydro.isoparse_value P d); [|discriminate]);
          inversion Hfetch; subst; simpl;
          rewrite ?lookup_insert_ne by discriminate; reflexivity.
    + exists dc. split; [exact Hdc|].
      destruct (ECHydro.differs dc "") eqn:Edc.
      * destruct (float P dc) as [v|] eqn:Ev;
          [|destruct (ECHydro.differs wl ""); [destruct (float P wl)|]; discriminate].
        exists v. split; [reflexivity|].
        destruct (ECHydro.differs wl "");
          [destruct (float P wl); [|discriminate]|];
          (destruct (ECHydro.isoparse_value P d); [|discriminate]);
          inversion Hfetch; subst; simpl; apply lookup_insert_eq.
      * destruct (ECHydro.differs wl "");
          [destruct (float P wl); [|discriminate]|];
          (destruct (ECHydro.isoparse_value P d); [|discriminate]);
          inversion Hfetch; subst; simpl;
          rewrite ?lookup_insert_ne by discriminate; reflexivity.
  - intros key Hk1 Hk2.
    destruct (ECHydro.differs wl "");
      [destruct (float P wl); [|discriminate]|];
      (destruct (ECHydro.differs dc ""); [destruct (float P dc); [|discriminate]|]);
      (destruct (ECHydro.isoparse_value P d); [|discriminate]);
      inversion Hfetch; subst; simpl;
      rewrite ?lookup_insert_ne by congruence; reflexivity.
Qed.

(** ** ECData: the loop over [conditions_meta] *)

Section ConditionsLoop.
Variable xml_object : ET.Element.
Variable language : string.
Abbreviation store_condition := (store_condition xml_object language).

Lemma store_conditions_other (l : list (string * ECData.cond_meta))
    (m : gmap string (gmap string value)) (c : string) :
  ~ In c (map fst l) -> fold_left store_condition l m !! c = m !! c.
Proof.
  revert m. induction l as [|[c0 m0] l IH]; intros m Hc; simpl; [reflexivity|].
  rewrite IH by (intros H; apply Hc; right; exact H).
  unfold store_condition. simpl. apply lookup_insert_ne. intros ->. apply Hc. left. reflexivity.
Qed.

Lemma store_conditions_lookup (l : list (string * ECData.cond_meta))
    (m : gmap string (gmap string value)) (c : string) (meta : ECData.cond_meta) :
  List.NoDup (map fst l) -> In (c, meta) l ->
  fold_left store_condition l m !! c = Some (condition_entry xml_object language meta).
Proof.
  revert m. induction l as [|[c0 m0] l IH]; intros m Hnd Hin; [contradiction|].
  simpl in *. inversion Hnd as [|? ? Hc0 Hnd']; subst.
  destruct Hin as [Heq|Hin].
  - inversion Heq; subst. rewrite store_conditions_other by exact Hc0.
    unfold store_condition. simpl. apply lookup_insert_eq.
  - apply IH; assumption.
Qed.
End ConditionsLoop.

Lemma update_conditions_stores (xml_object : ET.Element) (s : ECData.t)
    (l : list (string * ECData.cond_meta)) :
  ECData.language s = "english" \/ ECData.language s = "french" ->
  for_each l (fun '(c, meta) =>
      let* language := gets ECData.language in
      let* lbl := lift (ECData.by_language language (ECData.english meta) (ECData.french meta)) in
      do* modify (ECData.over_conditions (insert c ({[ "label" := VStr lbl ]} : gmap string value))) in
      modify (ECData.over_conditions
                (alter (fun d => ECData.get_condition xml_object (ECData.xpath meta)
                                   (ECData.attribute meta) ∪ d) c))) s
  = (ECData.over_conditions
       (fun m => fold_left (store_condition xml_object (ECData.language s)) l m) s, Ok tt).
Proof.
  intros Hlang. revert s Hlang. induction l as [|[c meta] l IH]; intros s Hlang.
  - destruct s; reflexivity.
  - cbn [for_each]. unfold bind at 1.
    match goal with |- context [ (let* language := gets ECData.language in _) s ] =>
      set (step := (let* language := gets ECData.language in _) s) end.
    assert (Hstep : step = (ECData.over_conditions
                              (fun m => store_condition xml_object (ECData.language s) m (c, meta))
                              s, Ok tt)).
    { subst step. unfold bind, gets, lift, modify, ECData.by_language. simpl.
      unfold store_condition, condition_entry. simpl.
      destruct Hlang as [-> | ->]; simpl; unfold ECData.over_conditions; simpl;
        rewrite alter_insert_eq; reflexivity. }
    rewrite Hstep. rewrite IH by (destruct s; exact Hlang).
    destruct s; reflexivity.
Qed.

Lemma conditions_over_conditions
    (f : gmap string (gmap string value) -> gmap string (gmap string value)) (s : ECData.t) :
  ECData.conditions (ECData.over_conditions f s) = f (ECData.conditions s).
Proof. reflexivity. Qed.

Lemma conditions_meta_keys_NoDup : List.NoDup (map fst ECData.conditions_meta).
Proof.
  apply NoDup_ListNoDup. apply (bool_decide_unpack _). vm_compute. exact I.
Qed.

(** C5, as amended: a successful [ECHydro.fetch_new_data] overwrites a
    measurement when the latest reading has a value in its column and
    keeps the measurement it had when the column is empty (every other
    key is kept as well, and without readings nothing changes): the
    measurements are merged.  The loop of [ECData.update] over
    [conditions_meta] assigns every condition a new entry made of the
    label and of what the document holds, whatever the entry was. *)
Theorem successful_fetch_stores (P : Prims) :
  (forall (s s' : ECHydro.t) (text : string),
      fetch_text P (ECHydro.READINGS_URL (ECHydro.province s) (ECHydro.station s))
                 (decode_utf8_sig P) = Ok text ->
      ECHydro.fetch_new_data P s = (s', Ok tt) ->
      hydro_merged P s s' text) /\
  (forall (xml_object : ET.Element) (s : ECData.t),
      ECData.language s = "english" \/ ECData.language s = "french" ->
      exists s',
        ECData.update_conditions xml_object s = (s', Ok tt) /\
        forall c meta,
          In (c, meta) ECData.conditions_meta ->
          ECData.conditions s' !! c =
            Some (condition_entry xml_object (ECData.language s) meta)).
Proof.
  split.
  - apply hydro_fetch_stores.
  - intros xml_object s Hlang.
    exists (ECData.over_conditions
              (fun m => fold_left (store_condition xml_object (ECData.language s))
                                  ECData.conditions_meta m) s).
    split.
    + exact (update_conditions_stores xml_object s ECData.conditions_meta Hlang).
    + intros c meta Hin. rewrite conditions_over_conditions.
      apply store_conditions_lookup; [|exact Hin].
      apply conditions_meta_keys_NoDup.
Qed.

Lemma successful_fetch_stores_witness :
  hydro_merged readings_web station_with_level after_readings readings_without_level.
Proof.
  apply (proj1 (successful_fetch_stores readings_web) station_with_level after_readings
           readings_without_level).
  - vm_compute. reflexivity.
  - vm_compute. reflexivity.
Defined.

(** C5, counterexample: the latest reading has a discharge and an empty
    water level; the fetch succeeds and the water level of the earlier
    fetch, 1.5, is still in the mapping, next to the new discharge. *)
Lemma stale_water_level_survives :
  snd (ECHydro.fetch_new_data readings_web station_with_level) = Ok tt /\
  match last (hydro_rows readings_web readings_without_level) with
  | Some latest => latest !! "Water Level"
  | None => None
  end = Some (VStr "") /\
  reading station_with_level "water_level" = Some (VFloat (15 # 10)) /\
  reading after_readings "water_level" = Some (VFloat (15 # 10)) /\
  reading after_readings "discharge" = Some (VFloat (25 # 10)).
Proof. vm_compute. repeat split; reflexivity. Qed.

(** * Alert classification *)


(** ** Regular expressions *)

Lemma accepts_Lit_prefix (w s : string) :
  Re.accepts (Re.Lit w) s (fun _ => true) = String.prefix w s.
Proof.
  revert s. induction w as [|c w IH]; intros s.
  - destruct s; reflexivity.
  - destruct s as [|c' s]; [reflexivity|].
    cbn [Re.Lit Re.accepts String.prefix]. rewrite IH.
    destruct (ascii_dec c c') as [->|Hne].
    + rewrite Ascii.eqb_refl. reflexivity.
    + apply Ascii.eqb_neq in Hne. rewrite Hne. reflexivity.
Qed.

Lemma accepts_Lit (w s : string) (k : string -> bool) :
  Re.accepts (Re.Lit w) s k = true <-> exists post, s = (w ++ post)%string /\ k post = true.
Proof.
  revert s. induction w as [|c w IH]; intros s.
  - cbn [Re.Lit Re.accepts]. split.
    + intros H. exists s. split; [reflexivity|exact H].
    + intros (post & -> & H). exact H.
  - cbn [Re.Lit Re.accepts]. destruct s as [|c' s].
    + split; [discriminate|]. intros (post & E & _). discriminate E.
    + rewrite andb_true_iff, IH, Ascii.eqb_eq. split.
      * intros (-> & post & -> & H). exists post. split; [reflexivity|exact H].
      * intros (post & E & H). injection E as -> ->. split; [reflexivity|].
        exists post. split; [reflexivity|exact H].
Qed.

Lemma star_suffix (once : string -> (string -> bool) -> bool) :
  (forall s k, once s k = true -> exists a b, s = (a ++ b)%string /\ k b = true) ->
  forall fuel s k,
    Re.star once fuel s k = true -> exists a b, s = (a ++ b)%string /\ k b = true.
Proof.
  intros Honce. induction fuel as [|n IH]; intros s k H; cbn [Re.star] in H;
    apply orb_true_iff in H; destruct H as [H|H];
    try (exists EmptyString, s; split; [reflexivity|exact H]); [discriminate|].
  apply Honce in H. destruct H as (a & b & -> & H).
  apply andb_true_iff in H. destruct H as [_ H].
  destruct (IH _ _ H) as (a' & b' & -> & Hk).
  exists (a ++ a')%string, b'. split; [|exact Hk]. symmetry. apply append_assoc.
Qed.

Lemma accepts_suffix (r : Re.re) (s : string) (k : string -> bool) :
  Re.accepts r s k = true -> exists a b, s = (a ++ b)%string /\ k b = true.
Proof.
  revert s k. induction r as [|c| |r1 IH1 r2 IH2|r1 IH1 r2 IH2|r IH|r IH|r IH|];
    intros s k H; cbn [Re.accepts] in H.
  - exists EmptyString, s. auto.
  - destruct s as [|c' s]; [discriminate|]. apply andb_true_iff in H. destruct H as [_ H].
    exists (String c' EmptyString), s. auto.
  - destruct s as [|c' s]; [discriminate|]. apply andb_true_iff in H. destruct H as [_ H].
    exists (String c' EmptyString), s. auto.
  - apply IH1 in H. destruct H as (a & b & -> & H).
    apply IH2 in H. destruct H as (a' & b' & -> & H).
    exists (a ++ a')%string, b'. split; [|exact H]. symmetry. apply append_assoc.
  - apply orb_true_iff in H. destruct H as [H|H]; [apply IH1 in H|apply IH2 in H]; exact H.
  - eapply star_suffix; [|exact H]. intros s' k'. apply IH.
  - apply orb_true_iff in H. destruct H as [H|H]; [apply IH in H; exact H|].
    exists EmptyString, s. auto.
  - apply andb_true_iff in H. destruct H as [_ H]. exists EmptyString, s. auto.
  - exists EmptyString, s. split; [reflexivity|].
    destruct s as [|c [|c' s]]; try discriminate; [exact H|].
    apply andb_true_iff in H. apply H.
Qed.

Lemma search_spec (r : Re.re) (s : string) :
  Re.search r s = true <->
  exists pre post, s = (pre ++ post)%string /\ Re.matches r post = true.
Proof.
  induction s as [|c s IH]; cbn [Re.search].
  - rewrite orb_false_r. split.
    + intros H. exists EmptyString, EmptyString. auto.
    + intros (pre & post & E & H). destruct pre; [|discriminate E].
      change (EmptyString = post) in E. subst post. exact H.
  - rewrite orb_true_iff, IH. split.
    + intros [H|(pre & post & -> & H)].
      * exists EmptyString, (String c s). auto.
      * exists (String c pre), post. auto.
    + intros (pre & post & E & H). destruct pre as [|c' pre].
      * left. change (String c s = post) in E. subst post. exact H.
      * right. change (String c s = String c' (pre ++ post))%string in E.
        injection E as -> ->. exists pre, post. auto.
Qed.

Lemma search_dotstar (r : Re.re) (s : string) :
  Re.search (Re.Cat (Re.Star Re.Any) r) s = Re.search r s.
Proof.
  apply eq_true_iff_eq. rewrite !search_spec. split.
  - intros (pre & post & -> & H). unfold Re.matches in H. cbn [Re.accepts] in H.
    apply (star_suffix _ (fun s k => accepts_suffix Re.Any s k)) in H.
    destruct H as (a & b & -> & H).
    exists (pre ++ a)%string, b. split; [|exact H]. symmetry. apply append_assoc.
  - intros (pre & post & -> & H). exists pre, post. split; [reflexivity|].
    unfold Re.matches. cbn [Re.accepts Re.star]. unfold Re.matches in H. rewrite H.
    reflexivity.
Qed.

Lemma search_literal (w : string) (rest : Re.re) (s : string) :
  (forall s', Re.matches rest s' = true) ->
  Re.search (Re.Cat (Re.Lit w) rest) s = contains w s.
Proof.
  intros Hrest. apply eq_true_iff_eq. rewrite search_spec. split.
  - intros (pre & post & -> & H). unfold Re.matches in H. cbn [Re.accepts] in H.
    apply accepts_Lit in H. destruct H as (post' & -> & _). apply contains_app.
  - intros H. apply contains_inv in H. destruct H as (pre & post & ->).
    exists pre, (w ++ post)%string. split; [reflexivity|].
    unfold Re.matches. cbn [Re.accepts]. apply accepts_Lit.
    exists post. split; [reflexivity|]. apply Hrest.
Qed.

(** The tail of an active pattern, [((?!term).)*$], on a text without
    newline: the terminator does not occur. *)
Lemma tail_without_term (term s : string) (n : nat) :
  term <> EmptyString -> one_line s -> (String.length s < n)%nat ->
  Re.star (Re.accepts (Re.Cat (Re.NotAhead (Re.Lit term)) Re.Any)) n s
          (fun s' => Re.accepts Re.Eol s' (fun _ => true))
  = negb (contains term s).
Proof.
  intros Hterm. revert n. induction s as [|c s IH]; intros n Hline Hn.
  - destruct n; [inversion Hn|]. destruct term; [congruence|]. reflexivity.
  - destruct n as [|n]; [inversion Hn|].
    unfold one_line in Hline. cbn [occurrences] in Hline.
    destruct (Ascii.eqb c Re.newline) eqn:Hc; [discriminate|].
    cbn [Re.star Re.accepts contains]. rewrite accepts_Lit_prefix, Hc.
    assert (Heol : match s with
                   | EmptyString => false && true
                   | String _ _ => false
                   end = false) by (destruct s; reflexivity).
    rewrite Heol. cbn [orb negb andb].
    rewrite IH by (cbn [String.length] in Hn; unfold one_line; simpl in *; lia).
    assert (Hlt : (String.length s <? String.length (String c s))%nat = true)
      by (apply Nat.ltb_lt; simpl; lia).
    rewrite Hlt. cbn [andb]. rewrite negb_orb. reflexivity.
Qed.

Lemma one_line_app (a b : string) : one_line (a ++ b)%string -> one_line a /\ one_line b.
Proof. unfold one_line. rewrite occurrences_app. lia. Qed.

Lemma tail_matches (term post : string) :
  term <> EmptyString -> one_line post ->
  Re.accepts (Re.Cat (Re.Star (Re.Cat (Re.NotAhead (Re.Lit term)) Re.Any)) Re.Eol) post
             (fun _ => true)
  = negb (contains term post).
Proof.
  intros Hterm Hline. cbn [Re.accepts]. apply tail_without_term; auto.
Qed.

Lemma search_active_literal (kw term t : string) :
  term <> EmptyString -> one_line t ->
  Re.search (ECData.active_pattern (Re.Lit kw) term) t = true <-> unended [kw] term t.
Proof.
  intros Hterm Hline. unfold ECData.active_pattern. rewrite search_dotstar, search_spec.
  split.
  - intros (pre & post & -> & H). unfold Re.matches in H.
    change (Re.accepts (Re.Lit kw) post
              (fun s' => Re.accepts (Re.Cat (Re.Star (Re.Cat (Re.NotAhead (Re.Lit term)) Re.Any))
                                            Re.Eol) s' (fun _ => true)) = true) in H.
    apply accepts_Lit in H. destruct H as (post' & -> & H).
    rewrite tail_matches in H.
    + exists pre, kw, post'. split; [left; reflexivity|]. split; [reflexivity|].
      apply negb_true_iff. exact H.
    + exact Hterm.
    + apply one_line_app in Hline. destruct Hline as [_ Hline].
      apply one_line_app in Hline. apply Hline.
  - intros (pre & kw' & post & [<-|[]] & -> & H).
    exists pre, (kw ++ post)%string. split; [reflexivity|]. unfold Re.matches.
    change (Re.accepts (Re.Lit kw) (kw ++ post)
              (fun s' => Re.accepts (Re.Cat (Re.Star (Re.Cat (Re.NotAhead (Re.Lit term)) Re.Any))
                                            Re.Eol) s' (fun _ => true)) = true).
    apply accepts_Lit. exists post. split; [reflexivity|].
    rewrite tail_matches.
    + rewrite H. reflexivity.
    + exact Hterm.
    + apply one_line_app in Hline. destruct Hline as [_ Hline].
      apply one_line_app in Hline. apply Hline.
Qed.

Lemma search_active_either (a b term t : string) :
  term <> EmptyString -> one_line t ->
  Re.search (ECData.active_pattern (Re.Alt (Re.Lit a) (Re.Lit b)) term) t = true <->
  unended [a; b] term t.
Proof.
  intros Hterm Hline.
  assert (Hor : Re.search (ECData.active_pattern (Re.Alt (Re.Lit a) (Re.Lit b)) term) t = true <->
                Re.search (ECData.active_pattern (Re.Lit a) term) t = true \/
                Re.search (ECData.active_pattern (Re.Lit b) term) t = true).
  { unfold ECData.active_pattern. rewrite !search_dotstar, !search_spec. split.
    - intros (pre & post & -> & H). unfold Re.matches in H. cbn [Re.accepts] in H.
      apply orb_true_iff in H. destruct H as [H|H]; [left|right]; exists pre, post;
        (split; [reflexivity|exact H]).
    - intros [(pre & post & -> & H)|(pre & post & -> & H)]; exists pre, post;
        (split; [reflexivity|]); unfold Re.matches in *; cbn [Re.accepts] in *;
        rewrite H; [reflexivity|apply orb_true_r]. }
  rewrite Hor, !search_active_literal by assumption. unfold unended. split.
  - intros [(pre & kw & post & [<-|[]] & E & H)|(pre & kw & post & [<-|[]] & E & H)].
    + exists pre, a, post. split; [left; reflexivity|]. auto.
    + exists pre, b, post. split; [right; left; reflexivity|]. auto.
  - intros (pre & kw & post & [<-|[<-|[]]] & E & H).
    + left. exists pre, a, post. split; [left; reflexivity|]. auto.
    + right. exists pre, b, post. split; [left; reflexivity|]. auto.
Qed.

(** ** ECData: the classification of an alert title *)

Lemma classify_step (P : Prims) (alert_html title category : string) (meta : ECData.alert_meta)
    (s s1 : ECData.t) :
  ECData.language s = "english" \/ ECData.language s = "french" ->
  (let* language := gets ECData.language in
   let* lm := lift (ECData.by_language language (ECData.alert_english meta)
                                       (ECData.alert_french meta)) in
   if Re.search (ECData.pattern lm) title
   then
     let html_title := ECData.find_html_title P alert_html title in
     let* date_match := lift (soup_select P alert_html (ECData.date_pattern html_title)) in
     let* detail :=
       (if negb (String.eqb category "endings")
        then let* detail_match := lift (soup_select P alert_html (ECData.detail_pattern html_title)) in
             ret (match detail_match with
                  | [] => EmptyString
                  | d :: _ => re_sub_period P d
                  end)
        else ret EmptyString) in
     modify (ECData.over_alerts
               (ECData.append_alert category
                  (ECData.mk_alert (str_title P title) (hd EmptyString date_match) detail)))
   else ret tt) s = (s1, Ok tt) ->
  ECData.language s1 = ECData.language s /\
  if Re.search (ECData.pattern (in_language (ECData.language s) meta)) title
  then exists a, ECData.title a = str_title P title /\
                 ECData.alerts s1 = alter (filed a) category (ECData.alerts s)
  else ECData.alerts s1 = ECData.alerts s.
Proof.
  intros Hlang. unfold bind, gets, lift, modify, ret, ECData.by_language, in_language.
  destruct Hlang as [E|E]; rewrite E; simpl.
  - destruct (Re.search _ title); [|intros [= <-]; auto].
    destruct (soup_select P alert_html _) as [date_match|]; [|discriminate].
    destruct (negb _).
    + destruct (soup_select P alert_html _) as [detail_match|]; [|discriminate].
      intros [= <-]. simpl. split; [exact E|].
      eexists (ECData.mk_alert _ _ _). split; reflexivity.
    + intros [= <-]. simpl. split; [exact E|].
      eexists (ECData.mk_alert _ _ _). split; reflexivity.
  - destruct (Re.search _ title); [|intros [= <-]; auto].
    destruct (soup_select P alert_html _) as [date_match|]; [|discriminate].
    destruct (negb _).
    + destruct (soup_select P alert_html _) as [detail_match|]; [|discriminate].
      intros [= <-]. simpl. split; [exact E|].
      eexists (ECData.mk_alert _ _ _). split; reflexivity.
    + intros [= <-]. simpl. split; [exact E|].
      eexists (ECData.mk_alert _ _ _). split; reflexivity.
Qed.

Lemma classify_loop (P : Prims) (alert_html title : string)
    (l : list (string * ECData.alert_meta)) (s s' : ECData.t) :
  List.NoDup (map fst l) ->
  ECData.language s = "english" \/ ECData.language s = "french" ->
  for_each l (fun '(category, meta) =>
    let* language := gets ECData.language in
    let* lm := lift (ECData.by_language language (ECData.alert_english meta)
                                        (ECData.alert_french meta)) in
    if Re.search (ECData.pattern lm) title
    then
      let html_title := ECData.find_html_title P alert_html title in
      let* date_match := lift (soup_select P alert_html (ECData.date_pattern html_title)) in
      let* detail :=
        (if negb (String.eqb category "endings")
         then let* detail_match := lift (soup_select P alert_html (ECData.detail_pattern html_title)) in
              ret (match detail_match with
                   | [] => EmptyString
                   | d :: _ => re_sub_period P d
                   end)
         else ret EmptyString) in
      modify (ECData.over_alerts
                (ECData.append_alert category
                   (ECData.mk_alert (str_title P title) (hd EmptyString date_match) detail)))
    else ret tt) s = (s', Ok tt) ->
  (forall category meta,
      In (category, meta) l ->
      if Re.search (ECData.pattern (in_language (ECData.language s) meta)) title
      then exists a, ECData.title a = str_title P title /\
                     ECData.alerts s' !! category = filed a <$> ECData.alerts s !! category
      else ECData.alerts s' !! category = ECData.alerts s !! category) /\
  (forall category, ~ In category (map fst l) ->
                    ECData.alerts s' !! category = ECData.alerts s !! category).
Proof.
  revert s. induction l as [|[c0 m0] l IH]; intros s Hnd Hlang Hrun.
  - inversion Hrun; subst. split; [intros ? ? []|reflexivity].
  - cbn [for_each] in Hrun. unfold bind at 1 in Hrun.
    match type of Hrun with
    | (let (_, _) := ?m s in _) = _ => destruct (m s) as [s1 [[]|e]] eqn:Hstep
    end; [|discriminate].
    apply classify_step in Hstep; [|exact Hlang]. destruct Hstep as [Hl1 Hstep].
    inversion Hnd as [|? ? Hc0 Hnd']; subst.
    destruct (IH s1 Hnd' ltac:(rewrite Hl1; exact Hlang) Hrun) as [IHin IHout].
    split.
    + intros category meta [Heq|Hin].
      * inversion Heq; subst. rewrite (IHout category Hc0).
        destruct (Re.search _ title).
        -- destruct Hstep as (a & Ha & ->). exists a. split; [exact Ha|].
           apply lookup_alter_eq.
        -- rewrite Hstep. reflexivity.
      * specialize (IHin category meta Hin). rewrite Hl1 in IHin.
        assert (Hne : c0 <> category).
        { intros ->. apply Hc0. apply in_map_iff. exists (category, meta). auto. }
        assert (Hsame : ECData.alerts s1 !! category = ECData.alerts s !! category).
        { destruct (Re.search (ECData.pattern (in_language (ECData.language s) m0)) title).
          - destruct Hstep as (a & _ & ->). apply lookup_alter_ne. exact Hne.
          - rewrite Hstep. reflexivity. }
        rewrite Hsame in IHin. exact IHin.
    + intros category Hout. rewrite IHout by (intros H; apply Hout; right; exact H).
      assert (Hne : c0 <> category) by (intros ->; apply Hout; left; reflexivity).
      destruct (Re.search (ECData.pattern (in_language (ECData.language s) m0)) title).
      * destruct Hstep as (a & _ & ->). apply lookup_alter_ne. exact Hne.
      * rewrite Hstep. reflexivity.
Qed.

Lemma alerts_meta_keys_NoDup : List.NoDup (map fst ECData.alerts_meta).
Proof.
  apply NoDup_ListNoDup. apply (bool_decide_unpack _). vm_compute. exact I.
Qed.

Lemma search_word (w s : string) : Re.search (Re.Lit w) s = contains w s.
Proof.
  apply eq_true_iff_eq. rewrite search_spec. split.
  - intros (pre & post & -> & H). unfold Re.matches in H.
    apply accepts_Lit in H. destruct H as (post' & -> & _). apply contains_app.
  - intros H. apply contains_inv in H. destruct H as (pre & post & ->).
    exists pre, (w ++ post)%string. split; [reflexivity|].
    unfold Re.matches. apply accepts_Lit. exists post. auto.
Qed.

(** Each pattern of [alerts_meta] says what [category_matches] says. *)
Lemma pattern_matches (language category title : string) (meta : ECData.alert_meta) :
  one_line title ->
  In (category, meta) ECData.alerts_meta ->
  Re.search (ECData.pattern (in_language language meta)) title = true <->
  category_matches language category title.
Proof.
  intros Hline Hin. unfold in_language, category_matches, terminator.
  cbn [ECData.alerts_meta In] in Hin.
  destruct Hin as [H|[H|[H|[H|[H|[]]]]]]; injection H as <- <-;
    destruct (String.eqb language "english");
    cbn [String.eqb Ascii.eqb Bool.eqb ECData.alert_english ECData.alert_french ECData.pattern
         Fixture.assoc alert_keywords];
    try (first [ apply (search_active_literal "WARNING")
               | apply (search_active_literal "WATCH")
               | apply (search_active_literal "ADVISORY")
               | apply (search_active_literal "STATEMENT")
               | apply (search_active_literal "VEILLE")
               | apply (search_active_literal "AVIS")
               | apply (search_active_literal "BULLETIN")
               | apply (search_active_either "ALERTE" "AVERTISSEMENT") ];
         [discriminate|exact Hline]).
  - change (Re.search (Re.Cat (Re.Star Re.Any) (Re.Lit "ENDED")) title = true <->
            contains "ENDED" title = true).
    rewrite search_dotstar, search_word. reflexivity.
  - change (Re.search (Re.Cat (Re.Star Re.Any)
                              (Re.Cat (Re.Lit "TERMINÉ") (Re.Opt (Re.Chr "E")))) title = true <->
            contains "TERMINÉ" title = true).
    rewrite search_dotstar, search_literal; [reflexivity|].
    intros s'. unfold Re.matches. cbn [Re.accepts]. apply orb_true_r.
Qed.

(** C7 (as the code has it): the patterns of the five categories are not
    exclusive, and the loop over the categories has no early exit.  For a
    title on one line, an active category matches when a keyword of the
    language occurs with no terminator after it, and the endings match when
    the terminator occurs; classification files the title under every
    category that matches, and leaves the other categories as they were. *)
Theorem title_filed_under_every_match (P : Prims) (alert_html title : string)
    (s s' : ECData.t) :
  one_line title ->
  ECData.language s = "english" \/ ECData.language s = "french" ->
  ECData.classify P alert_html title s = (s', Ok tt) ->
  forall category meta,
    In (category, meta) ECData.alerts_meta ->
    (Re.search (ECData.pattern (in_language (ECData.language s) meta)) title = true <->
     category_matches (ECData.language s) category title) /\
    (category_matches (ECData.language s) category title ->
     exists a, ECData.title a = str_title P title /\
               ECData.alerts s' !! category = filed a <$> ECData.alerts s !! category) /\
    (~ category_matches (ECData.language s) category title ->
     ECData.alerts s' !! category = ECData.alerts s !! category).
Proof.
  intros Hline Hlang Hrun category meta Hin.
  pose proof (pattern_matches (ECData.language s) category title meta Hline Hin) as Hpat.
  split; [exact Hpat|].
  apply classify_loop in Hrun; [|exact alerts_meta_keys_NoDup|exact Hlang].
  destruct Hrun as [Hfiled _]. specialize (Hfiled category meta Hin).
  destruct (Re.search _ title).
  - split; [intros _; exact Hfiled|].
    intros Hno. exfalso. apply Hno. apply Hpat. reflexivity.
  - split; [|intros _; exact Hfiled].
    intros Hyes. apply Hpat in Hyes. discriminate.
Qed.

Lemma title_filed_under_every_match_witness :
  one_line "SNOWFALL WARNING" /\
  (ECData.language english_object = "english" \/ ECData.language english_object = "french") /\
  forall category meta,
    In (category, meta) ECData.alerts_meta ->
    (Re.search (ECData.pattern (in_language (ECData.language english_object) meta))
               "SNOWFALL WARNING" = true <->
     category_matches (ECData.language english_object) category "SNOWFALL WARNING") /\
    (category_matches (ECData.language english_object) category "SNOWFALL WARNING" ->
     exists a, ECData.title a = str_title no_pages "SNOWFALL WARNING" /\
               ECData.alerts
                 (fst (ECData.classify no_pages EmptyString "SNOWFALL WARNING" english_object))
                 !! category
               = filed a <$> ECData.alerts english_object !! category) /\
    (~ category_matches (ECData.language english_object) category "SNOWFALL WARNING" ->
     ECData.alerts
       (fst (ECData.classify no_pages EmptyString "SNOWFALL WARNING" english_object))
       !! category
     = ECData.alerts english_object !! category).
Proof.
  split; [reflexivity|]. split; [left; reflexivity|].
  apply (title_filed_under_every_match no_pages EmptyString "SNOWFALL WARNING" english_object).
  - reflexivity.
  - left. reflexivity.
  - vm_compute. reflexivity.
Defined.

(** C7, counterexample: an upgraded watch matches the patterns of both
    the warnings and the watches and is filed under both; a title that
    reports an ended advisory before an active warning matches the
    warnings and the endings. *)
Lemma title_matches_two_categories :
  english_match "warnings" "TORNADO WATCH UPGRADED TO TORNADO WARNING" = Some true /\
  english_match "watches" "TORNADO WATCH UPGRADED TO TORNADO WARNING" = Some true /\
  titles_under "warnings"
    (fst (ECData.classify no_pages EmptyString "TORNADO WATCH UPGRADED TO TORNADO WARNING"
                          english_object))
  = Some ["Tornado Watch Upgraded To Tornado Warning"] /\
  titles_under "watches"
    (fst (ECData.classify no_pages EmptyString "TORNADO WATCH UPGRADED TO TORNADO WARNING"
                          english_object))
  = Some ["Tornado Watch Upgraded To Tornado Warning"] /\
  english_match "warnings" "FROST ADVISORY ENDED, WIND WARNING" = Some true /\
  english_match "endings" "FROST ADVISORY ENDED, WIND WARNING" = Some true.
Proof. vm_compute. repeat split; reflexivity. Qed.


(** * Further properties *)

(** ** ec_hydro.py *)

Lemma same_station_refl (s : ECHydro.t) : same_station s s.
Proof. repeat split. Qed.

Lemma same_station_trans (s1 s2 s3 : ECHydro.t) :
  same_station s1 s2 -> same_station s2 s3 -> same_station s1 s3.
Proof. unfold same_station. intuition congruence. Qed.

Lemma hydro_fetch_same_station (P : Prims) : related same_station (ECHydro.fetch_new_data P).
Proof.
  pose proof same_station_refl as Hr. pose proof same_station_trans as Ht.
  unfold ECHydro.fetch_new_data, ECHydro.http_get. frame; repeat split.
Qed.

Lemma try_except_pass {St A} (m : M St A) (e : exn) (a : A) (s : St) :
  snd (try_except m e (ret a) s) <> Raise e.
Proof.
  unfold try_except. destruct (m s) as [s' [x|e']]; [discriminate|].
  destruct (decide (e' = e)) as [_|Hne]; [discriminate|].
  cbn [snd]. intros [= H]. exact (Hne H).
Qed.

Lemma deliver_state {St} (bodies : list string) (timeout : bool)
    (callback : string -> M St unit) (s : St) :
  fst (deliver bodies timeout callback s) = fst (for_each bodies callback s).
Proof.
  unfold deliver, bind. destruct (for_each bodies callback s) as [s' [[]|e]]; [|reflexivity].
  destruct timeout; reflexivity.
Qed.

Lemma repeat_snoc_cons {A} (x : A) (n : nat) (l : list A) :
  repeat x n ++ x :: l = x :: repeat x n ++ l.
Proof. induction n as [|n IH]; [reflexivity|]. cbn [repeat app]. rewrite IH. reflexivity. Qed.

Lemma hydro_messages_requests (P : Prims) (prov stn : string) (bodies : list string) :
  forall s : ECHydro.t,
    ECHydro.province s = prov -> ECHydro.station s = stn ->
    same_station s (fst (for_each bodies (ECHydro.process_message P) s)) /\
    exists n : nat,
      ECHydro.requested (fst (for_each bodies (ECHydro.process_message P) s)) =
        repeat (ECHydro.READINGS_URL prov stn) n ++ ECHydro.requested s /\
      (n <= length (List.filter (contains (ECHydro.HYDRO_MESSAGE prov stn)) bodies))%nat /\
      (n = 0%nat -> Forall (fun body => contains (ECHydro.HYDRO_MESSAGE prov stn) body = false)
                           bodies).
Proof.
  induction bodies as [|body rest IH]; intros s Hp Hs.
  - split; [apply same_station_refl|]. exists 0%nat. cbn. repeat split; [lia|constructor].
  - cbn [for_each List.filter]. unfold bind.
    destruct (contains (ECHydro.HYDRO_MESSAGE prov stn) body) eqn:Hhit.
    + pose proof (hydro_process_message_hit P s body) as Hreq.
      rewrite Hp, Hs in Hreq. specialize (Hreq Hhit).
      assert (Hsame : same_station s (fst (ECHydro.process_message P body s))).
      { unfold ECHydro.process_message, bind, gets. cbn [fst snd]. rewrite Hp, Hs, Hhit.
        apply hydro_fetch_same_station. }
      destruct (ECHydro.process_message P body s) as [s1 [[]|e]]; cbn [fst] in Hreq, Hsame.
      * destruct Hsame as (H1 & H2 & H3).
        destruct (IH s1) as (Hst & n & Hn & Hle & _); [congruence|congruence|].
        split.
        { apply (same_station_trans _ s1); [repeat split; assumption|exact Hst]. }
        exists (S n). rewrite Hn, Hreq. split; [apply repeat_snoc_cons|].
        split; [cbn [length]; lia|discriminate].
      * split; [exact Hsame|]. exists 1%nat. cbn [fst]. rewrite Hreq.
        split; [reflexivity|]. split; [cbn [length]; lia|discriminate].
    + rewrite hydro_process_message_miss by (rewrite Hp, Hs; exact Hhit).
      destruct (IH s Hp Hs) as (Hst & n & Hn & Hle & Hzero).
      split; [exact Hst|]. exists n. split; [exact Hn|]. split; [exact Hle|].
      intros Hn0. constructor; [exact Hhit|apply Hzero; exact Hn0].
Qed.

(** X1: whatever messages the connection hands to the callback during a
    poll of the hydrometric object, and whether or not it times out
    afterwards, the poll never changes the station the object stands for
    and never lets [socket.timeout] escape; all its requests are for the
    readings of that station, at most one for each message that names the
    station, and none exactly when no message names it. *)
Theorem hydro_poll_any_delivery (P : Prims) (s : ECHydro.t) (bodies : list string)
    (timeout : bool) :
  let run := ECHydro.update_with P (deliver bodies timeout) s in
  same_station s (fst run) /\
  snd run <> Raise SocketTimeout /\
  exists n : nat,
    ECHydro.requested (fst run) =
      repeat (ECHydro.READINGS_URL (ECHydro.province s) (ECHydro.station s)) n
        ++ ECHydro.requested s /\
    (n <= length (List.filter (names_station s) bodies))%nat /\
    (n = 0%nat <-> Forall (fun body => names_station s body = false) bodies).
Proof.
  cbv zeta. unfold ECHydro.update_with. rewrite try_except_ret_state, deliver_state.
  destruct (hydro_messages_requests P (ECHydro.province s) (ECHydro.station s) bodies s
              eq_refl eq_refl) as (Hst & n & Hn & Hle & Hzero).
  split; [exact Hst|]. split; [apply try_except_pass|].
  exists n. split; [exact Hn|]. split; [exact Hle|]. split; [exact Hzero|].
  intros Hall. unfold names_station in Hle.
  assert (E : List.filter
                (contains (ECHydro.HYDRO_MESSAGE (ECHydro.province s) (ECHydro.station s)))
                bodies = []).
  { clear -Hall. induction Hall as [|body rest Hb _ IH]; [reflexivity|].
    cbn [List.filter]. unfold names_station in Hb. rewrite Hb. exact IH. }
  rewrite E in Hle. cbn [length] in Hle. lia.
Qed.

(** X2: a fetch of the hydrometric readings is not atomic.  When the
    latest reading has a water level that parses and a discharge that is
    not empty and does not parse, the fetch raises [ValueError] after the
    water level has been stored: the object keeps the new water level
    beside the discharge and the timestamp of the earlier fetch. *)
Theorem hydro_fetch_fails_half_way (P : Prims) (s : ECHydro.t) (text : string)
    (latest : gmap string value) (wl dc : string) (v : pyfloat) :
  fetch_text P (ECHydro.READINGS_URL (ECHydro.province s) (ECHydro.station s))
             (decode_utf8_sig P) = Ok text ->
  last (hydro_rows P text) = Some latest ->
  latest !! "Water Level" = Some (VStr wl) -> wl <> EmptyString ->
  float_of_string P wl = Some v ->
  latest !! "Discharge" = Some (VStr dc) -> dc <> EmptyString ->
  float_of_string P dc = None ->
  exists s',
    ECHydro.fetch_new_data P s = (s', Raise ValueError) /\
    ECHydro.measurements s' =
      <["water_level" := measurement "Water Level" v "m"]> (ECHydro.measurements s) /\
    ECHydro.measurements s' !! "discharge" = ECHydro.measurements s !! "discharge" /\
    ECHydro.timestamp s' = ECHydro.timestamp s.
Proof.
  intros Htext Hlast Hwl Hwl0 Hv Hdc Hdc0 Hbad.
  unfold fetch_text in Htext. unfold hydro_rows in Hlast.
  unfold ECHydro.fetch_new_data, bind, gets, lift, ECHydro.http_get. cbn [fst snd].
  destruct (requests_get P _) as [content|]; [|discriminate]. cbn [rbind] in Htext.
  rewrite Htext. destruct (readline text) as [line rest]. rewrite Hlast.
  unfold getitem. rewrite Hwl, Hdc.
  assert (Ewl : ECHydro.differs (VStr wl) "" = true).
  { simpl. apply negb_true_iff, String.eqb_neq. exact Hwl0. }
  assert (Edc : ECHydro.differs (VStr dc) "" = true).
  { simpl. apply negb_true_iff, String.eqb_neq. exact Hdc0. }
  rewrite Ewl, Edc. unfold float. rewrite Hv, Hbad. unfold modify. cbn [fst snd].
  eexists. split; [reflexivity|]. cbn [ECHydro.measurements ECHydro.timestamp
    ECHydro.set_measurement ECHydro.log_request].
  split; [reflexivity|]. split; [|reflexivity].
  apply lookup_insert_ne. discriminate.
Qed.

Lemma hydro_fetch_fails_half_way_witness :
  exists s',
    ECHydro.fetch_new_data bad_discharge_web station_08MG005 = (s', Raise ValueError) /\
    ECHydro.measurements s' =
      <["water_level" := measurement "Water Level" (17 # 10) "m"]>
        (ECHydro.measurements station_08MG005) /\
    ECHydro.measurements s' !! "discharge" =
      ECHydro.measurements station_08MG005 !! "discharge" /\
    ECHydro.timestamp s' = ECHydro.timestamp station_08MG005.
Proof.
  apply (hydro_fetch_fails_half_way bad_discharge_web station_08MG005
           readings_bad_discharge latest_bad_discharge "1.7" "n/a" (17 # 10)).
  - reflexivity.
  - unfold latest_bad_discharge.
    destruct (last (hydro_rows bad_discharge_web readings_bad_discharge)) eqn:E;
      [reflexivity|].
    assert (H : length (hydro_rows bad_discharge_web readings_bad_discharge) = 1%nat)
      by (vm_compute; reflexivity).
    apply last_None in E. rewrite E in H. discriminate H.
  - vm_compute. reflexivity.
  - discriminate.
  - vm_compute. reflexivity.
  - vm_compute. reflexivity.
  - discriminate.
  - vm_compute. reflexivity.
Defined.

(** X3: once the hydrometric station list has loaded, the resolver has
    three outcomes.  On a list without stations it raises [ValueError].
    When the distance primitive accepts the coordinates of every record,
    it returns the record nearest to the target, the first of the list
    among several nearest.  Otherwise it raises what the distance
    primitive raises for the first record whose coordinates it refuses.
    A missing coordinate is not among the outcomes: the loader leaves a
    float under both coordinates of every record. *)
Theorem hydro_resolver_total (P : Prims) (lat lon : pyfloat)
    (catalog : list (gmap string value)) :
  ECHydro.get_hydro_sites P = Ok catalog ->
  (catalog = [] /\ ECHydro.closest_site P lat lon = Raise ValueError) \/
  (Forall (reachable P lat lon "Latitude" "Longitude") catalog /\
   exists r, ECHydro.closest_site P lat lon = Ok r /\
             nearest P lat lon "Latitude" "Longitude" catalog r) \/
  (exists pre site post x y e,
      catalog = pre ++ site :: post /\
      Forall (reachable P lat lon "Latitude" "Longitude") pre /\
      site !! "Latitude" = Some (VFloat x) /\ site !! "Longitude" = Some (VFloat y) /\
      geodesic P (VFloat lat, VFloat lon) (VFloat x, VFloat y) = Raise e /\
      ECHydro.closest_site P lat lon = Raise e).
Proof.
  intros Hload. unfold ECHydro.closest_site. rewrite Hload. cbn [rbind].
  apply (min_outcomes P lat lon "Latitude" "Longitude" (ECHydro.site_distance P lat lon)
           ltac:(reflexivity)).
  apply (hydro_sites_numeric P). exact Hload.
Qed.

Lemma hydro_resolver_total_witness :
  (two_stations_catalog = [] /\
   ECHydro.closest_site two_stations_web (4501 # 100) (-7501 # 100) = Raise ValueError) \/
  (Forall (reachable two_stations_web (4501 # 100) (-7501 # 100) "Latitude" "Longitude")
          two_stations_catalog /\
   exists r, ECHydro.closest_site two_stations_web (4501 # 100) (-7501 # 100) = Ok r /\
             nearest two_stations_web (4501 # 100) (-7501 # 100) "Latitude" "Longitude"
                     two_stations_catalog r) \/
  (exists pre site post x y e,
      two_stations_catalog = pre ++ site :: post /\
      Forall (reachable two_stations_web (4501 # 100) (-7501 # 100) "Latitude" "Longitude")
             pre /\
      site !! "Latitude" = Some (VFloat x) /\ site !! "Longitude" = Some (VFloat y) /\
      geodesic two_stations_web (VFloat (4501 # 100), VFloat (-7501 # 100))
               (VFloat x, VFloat y) = Raise e /\
      ECHydro.closest_site two_stations_web (4501 # 100) (-7501 # 100) = Raise e).
Proof.
  apply (hydro_resolver_total two_stations_web (4501 # 100) (-7501 # 100) two_stations_catalog).
  vm_cast_no_check (eq_refl (Ok two_stations_catalog)).
Defined.

(** The distance primitive of the fixture refuses a point that is not
    finite: with a target whose latitude is [nan] the resolver raises
    [ValueError] at the first station. *)
Example hydro_resolver_refuses_nan :
  ECHydro.closest_site two_stations_web NaN (-7501 # 100) = Raise ValueError.
Proof. vm_compute. reflexivity. Qed.

(** X4: a hydrometric object constructed with a province and a station
    never consults the station list, whatever coordinates come with them:
    construction issues exactly one request, for the readings of that
    station, and the object stands for the station it was given, without
    a location name, whether or not the fetch succeeds. *)
Theorem hydro_init_with_station (P : Prims) (prov stn : string)
    (coordinates : option (pyfloat * pyfloat)) (s : ECHydro.t) :
  prov <> EmptyString -> stn <> EmptyString ->
  let s' := fst (ECHydro.__init__ P (Some prov) (Some stn) coordinates s) in
  ECHydro.requested s' = ECHydro.READINGS_URL prov stn :: ECHydro.requested s /\
  ECHydro.province s' = prov /\ ECHydro.station s' = stn /\ ECHydro.location s' = None.
Proof.
  intros Hp Hs. destruct prov as [|c prov]; [congruence|]. destruct stn as [|d stn]; [congruence|].
  set (s0 := ECHydro.mk ∅ None None (String c prov) (String d stn)
                        (ECHydro.inbox s) (ECHydro.requested s)).
  assert (E : ECHydro.__init__ P (Some (String c prov)) (Some (String d stn)) coordinates s
              = ECHydro.fetch_new_data P s0) by reflexivity.
  rewrite E. clear E.
  pose proof (hydro_fetch_requests_once P s0) as Hreq.
  pose proof (hydro_fetch_same_station P s0) as (H1 & H2 & H3).
  cbv zeta. rewrite Hreq, H1, H2, H3. repeat split.
Qed.

Lemma hydro_init_with_station_witness :
  let s' := fst (ECHydro.__init__ readings_web (Some "BC") (Some "08MG005") None new_hydro) in
  ECHydro.requested s' = ECHydro.READINGS_URL "BC" "08MG005" :: ECHydro.requested new_hydro /\
  ECHydro.province s' = "BC" /\ ECHydro.station s' = "08MG005" /\ ECHydro.location s' = None.
Proof.
  apply (hydro_init_with_station readings_web "BC" "08MG005" None new_hydro); discriminate.
Defined.

(** X5: a hydrometric object constructed from coordinates alone stands
    for the station of the list nearest to them by geodesic distance, the
    first of the list among several nearest: its province and station
    are the [Prov] and [ID] of that record, its location is the name of
    the record in title case, and construction has requested the station
    list and then the readings of that station, nothing else. *)
Theorem hydro_init_by_coordinates (P : Prims) (province station : option string)
    (lat lon : pyfloat) (catalog : list (gmap string value)) (s s' : ECHydro.t) :
  ECHydro.both_given province station = None ->
  ECHydro.get_hydro_sites P = Ok catalog ->
  ECHydro.__init__ P province station (Some (lat, lon)) s = (s', Ok tt) ->
  exists r prov id name,
    nearest P lat lon "Latitude" "Longitude" catalog r /\
    r !! "Prov" = Some prov /\ r !! "ID" = Some id /\ r !! "Name" = Some (VStr name) /\
    ECHydro.province s' = str P prov /\ ECHydro.station s' = str P id /\
    ECHydro.location s' = Some (str_title P name) /\
    ECHydro.requested s' =
      ECHydro.READINGS_URL (str P prov) (str P id) :: ECHydro.SITE_LIST_URL
        :: ECHydro.requested s.
Proof.
  intros Hnone Hload Hrun. unfold ECHydro.__init__ in Hrun. rewrite Hnone in Hrun.
  unfold bind at 1 in Hrun. unfold modify at 1 in Hrun. cbn [fst snd] in Hrun.
  unfold bind at 1 in Hrun.
  unfold bind at 1 in Hrun. unfold lift at 1 in Hrun. cbn [fst snd] in Hrun.
  unfold bind at 1 in Hrun. unfold ECHydro.call_closest_site in Hrun.
  unfold bind at 1 in Hrun. unfold modify at 1 in Hrun. cbn [fst snd] in Hrun.
  unfold lift at 1 in Hrun.
  destruct (ECHydro.closest_site P lat lon) as [r|] eqn:Hc; [|discriminate].
  assert (Hmin : nearest P lat lon "Latitude" "Longitude" catalog r).
  { unfold ECHydro.closest_site in Hc. rewrite Hload in Hc. cbn [rbind] in Hc.
    apply (min_Ok_nearest P lat lon "Latitude" "Longitude" (ECHydro.site_distance P lat lon)
             ltac:(reflexivity)). exact Hc. }
  unfold bind at 1 in Hrun. unfold lift at 1, getitem at 1 in Hrun.
  destruct (r !! "Prov") as [prov|] eqn:Hprov; [|discriminate].
  unfold bind at 1 in Hrun. unfold modify at 1 in Hrun. cbn [fst snd] in Hrun.
  unfold bind at 1 in Hrun. unfold lift at 1, getitem at 1 in Hrun.
  destruct (r !! "ID") as [id|] eqn:Hid; [|discriminate].
  unfold bind at 1 in Hrun. unfold modify at 1 in Hrun. cbn [fst snd] in Hrun.
  unfold bind at 1 in Hrun. unfold lift at 1, getitem at 1 in Hrun.
  destruct (r !! "Name") as [name|] eqn:Hname; [|discriminate].
  unfold bind at 1 in Hrun. unfold lift at 1 in Hrun.
  destruct name as [|name|]; try discriminate.
  unfold modify at 1 in Hrun. cbn [fst snd] in Hrun.
  match type of Hrun with ECHydro.fetch_new_data P ?s0 = _ =>
    pose proof (hydro_fetch_requests_once P s0) as Hreq;
    pose proof (hydro_fetch_same_station P s0) as (H1 & H2 & H3)
  end.
  rewrite Hrun in Hreq, H1, H2, H3. cbn [fst] in Hreq, H1, H2, H3.
  exists r, prov, id, name. repeat split; assumption.
Qed.

Lemma hydro_init_by_coordinates_witness :
  exists r prov id name,
    nearest two_stations_with_readings (4501 # 100) (-7501 # 100) "Latitude" "Longitude"
            two_stations_catalog r /\
    r !! "Prov" = Some prov /\ r !! "ID" = Some id /\ r !! "Name" = Some (VStr name) /\
    ECHydro.province
      (fst (ECHydro.__init__ two_stations_with_readings None None
              (Some (Finite (4501 # 100), Finite (-7501 # 100))) new_hydro)) = str two_stations_with_readings prov /\
    ECHydro.station
      (fst (ECHydro.__init__ two_stations_with_readings None None
              (Some (Finite (4501 # 100), Finite (-7501 # 100))) new_hydro)) = str two_stations_with_readings id /\
    ECHydro.location
      (fst (ECHydro.__init__ two_stations_with_readings None None
              (Some (Finite (4501 # 100), Finite (-7501 # 100))) new_hydro))
      = Some (str_title two_stations_with_readings name) /\
    ECHydro.requested
      (fst (ECHydro.__init__ two_stations_with_readings None None
              (Some (Finite (4501 # 100), Finite (-7501 # 100))) new_hydro)) =
      ECHydro.READINGS_URL (str two_stations_with_readings prov)
                           (str two_stations_with_readings id)
        :: ECHydro.SITE_LIST_URL :: ECHydro.requested new_hydro.
Proof.
  apply (hydro_init_by_coordinates two_stations_with_readings None None
           (4501 # 100) (-7501 # 100) two_stations_catalog new_hydro).
  - reflexivity.
  - vm_cast_no_check (eq_refl (Ok two_stations_catalog)).
  - assert (H : snd (ECHydro.__init__ two_stations_with_readings None None
                       (Some (Finite (4501 # 100), Finite (-7501 # 100))) new_hydro) = Ok tt)
      by (vm_compute; reflexivity).
    destruct (ECHydro.__init__ two_stations_with_readings None None
                (Some (Finite (4501 # 100), Finite (-7501 # 100))) new_hydro) as [s' r].
    cbn [snd] in H. rewrite H. reflexivity.
Defined.

(** X6: a successful fetch of the hydrometric readings reads the
    latest line only and stamps the object with it: when the file has
    readings, the timestamp of the object is the date of the last line,
    parsed, whatever the lines before it hold. *)
Theorem hydro_timestamp_of_latest_reading (P : Prims) (s s' : ECHydro.t) (text : string)
    (latest : gmap string value) :
  fetch_text P (ECHydro.READINGS_URL (ECHydro.province s) (ECHydro.station s))
             (decode_utf8_sig P) = Ok text ->
  last (hydro_rows P text) = Some latest ->
  ECHydro.fetch_new_data P s = (s', Ok tt) ->
  exists d ts,
    latest !! "Date" = Some d /\ ECHydro.isoparse_value P d = Ok ts /\
    ECHydro.timestamp s' = Some ts.
Proof.
  intros Htext Hlast Hrun. unfold fetch_text in Htext. unfold hydro_rows in Hlast.
  unfold ECHydro.fetch_new_data, bind, gets, lift, ECHydro.http_get in Hrun.
  cbn [fst snd] in Hrun.
  destruct (requests_get P _) as [content|]; [|discriminate]. cbn [rbind] in Htext.
  rewrite Htext in Hrun. destruct (readline text) as [line rest]. rewrite Hlast in Hrun.
  unfold getitem, modify, ret in Hrun.
  destruct (latest !! "Water Level") as [wl|]; [|discriminate].
  destruct (latest !! "Discharge") as [dc|];
    [|destruct (ECHydro.differs wl ""); [destruct (float P wl)|]; discriminate].
  destruct (latest !! "Date") as [d|];
    [|destruct (ECHydro.differs wl ""); [destruct (float P wl)|];
      try discriminate; (destruct (ECHydro.differs dc ""); [destruct (float P dc)|]);
      discriminate].
  exists d.
  destruct (ECHydro.differs wl ""); [destruct (float P wl); [|discriminate]|];
    (destruct (ECHydro.differs dc ""); [destruct (float P dc); [|discriminate]|]);
    (destruct (ECHydro.isoparse_value P d) as [ts|]; [|discriminate]);
    injection Hrun as <-; exists ts; repeat split.
Qed.

Lemma hydro_timestamp_of_latest_reading_witness :
  exists d ts,
    default ∅ (last (hydro_rows readings_web readings_without_level)) !! "Date" = Some d /\
    ECHydro.isoparse_value readings_web d = Ok ts /\
    ECHydro.timestamp after_readings = Some ts.
Proof.
  apply (hydro_timestamp_of_latest_reading readings_web station_with_level after_readings
           readings_without_level).
  - reflexivity.
  - destruct (last (hydro_rows readings_web readings_without_level)) eqn:E; [reflexivity|].
    assert (H : length (hydro_rows readings_web readings_without_level) = 2%nat)
      by (vm_compute; reflexivity).
    apply last_None in E. rewrite E in H. discriminate H.
  - unfold after_readings.
    assert (H : snd (ECHydro.fetch_new_data readings_web station_with_level) = Ok tt)
      by (vm_compute; reflexivity).
    destruct (ECHydro.fetch_new_data readings_web station_with_level) as [s' r].
    cbn [snd] in H. rewrite H. reflexivity.
Defined.

(** ** ec_aqhi.py *)

Section StoreSpec.
Context {St : Type}.
Variable get : St -> gmap string Aqhi.aqhi_value.
Variable over : (gmap string Aqhi.aqhi_value -> gmap string Aqhi.aqhi_value) -> St -> St.
Hypothesis get_over : forall f s, get (over f s) = f (get s).
Variable abr : string.

Lemma daily_loop_appends (fs : list ET.Element) (period : value) (s s' : St)
    (dl hl : list (gmap string value)) :
  Aqhi.daily_loop over abr period fs s = (s', Ok tt) ->
  get s !! "forecasts" = Some (Aqhi.AForecasts dl hl) ->
  exists dl',
    Forall2 (fun f e => e !! "aqhi" = Some (daily_index f)) fs dl' /\
    get s' !! "forecasts" = Some (Aqhi.AForecasts (dl ++ dl') hl) /\
    same_but "forecasts" (get s) (get s').
Proof.
  revert period s dl. induction fs as [|f fs IH]; intros period s dl Hrun Hget.
  - inversion Hrun; subst. exists []. rewrite app_nil_r.
    split; [constructor|]. split; [exact Hget|]. intros k _. reflexivity.
  - cbn [Aqhi.daily_loop] in Hrun. unfold bind at 1 in Hrun. unfold lift at 1 in Hrun.
    destruct (Aqhi.scan_periods abr period _) as [p|]; [|discriminate].
    unfold bind at 1 in Hrun. unfold modify at 1 in Hrun. cbn [fst snd] in Hrun.
    match type of Hrun with Aqhi.daily_loop _ _ _ _ (over (Aqhi.append_daily ?e) _) = _ =>
      set (entry := e) in * end.
    assert (Hnext : get (over (Aqhi.append_daily entry) s) !! "forecasts"
                    = Some (Aqhi.AForecasts (dl ++ [entry]) hl)).
    { rewrite get_over. unfold Aqhi.append_daily. rewrite lookup_alter_eq, Hget. reflexivity. }
    destruct (IH p _ _ Hrun Hnext) as (dl' & Hall & Hfc & Hother).
    exists (entry :: dl'). split; [|split].
    + constructor; [|exact Hall]. subst entry. unfold daily_index.
      rewrite lookup_insert_ne by discriminate. apply lookup_insert_eq.
    + rewrite Hfc. rewrite <- app_assoc. reflexivity.
    + intros k Hk. rewrite (Hother k Hk), get_over. unfold Aqhi.append_daily.
      apply lookup_alter_ne. congruence.
Qed.

Lemma hourly_loop_appends (fs : list ET.Element) (s s' : St)
    (dl hl : list (gmap string value)) :
  for_each fs (Aqhi.hourly_body over) s = (s', Ok tt) ->
  get s !! "forecasts" = Some (Aqhi.AForecasts dl hl) ->
  get s' !! "forecasts" = Some (Aqhi.AForecasts dl (hl ++ map hourly_entry fs)) /\
  same_but "forecasts" (get s) (get s').
Proof.
  revert s hl. induction fs as [|f fs IH]; intros s hl Hrun Hget.
  - inversion Hrun; subst. cbn [map]. rewrite app_nil_r. split; [exact Hget|].
    intros k _. reflexivity.
  - cbn [for_each] in Hrun. unfold bind at 1 in Hrun. unfold Aqhi.hourly_body at 1 in Hrun.
    unfold bind at 1 in Hrun. unfold lift at 1, getitem at 1 in Hrun.
    destruct (ET.attrib f !! "UTCTime") as [utc|] eqn:Hutc; [|discriminate].
    unfold modify at 1 in Hrun. cbn [fst snd] in Hrun.
    match type of Hrun with for_each _ _ (over (Aqhi.append_hourly ?e) _) = _ =>
      set (entry := e) in * end.
    assert (Hnext : get (over (Aqhi.append_hourly entry) s) !! "forecasts"
                    = Some (Aqhi.AForecasts dl (hl ++ [entry]))).
    { rewrite get_over. unfold Aqhi.append_hourly. rewrite lookup_alter_eq, Hget. reflexivity. }
    destruct (IH _ _ Hrun Hnext) as (Hfc & Hother). split.
    + rewrite Hfc. rewrite <- app_assoc. cbn [map app]. unfold hourly_entry at 2.
      rewrite Hutc. reflexivity.
    + intros k Hk. rewrite (Hother k Hk), get_over. unfold Aqhi.append_hourly.
      apply lookup_alter_ne. congruence.
Qed.

Lemma store_forecasts_replaces (tree : ET.Element) (s s' : St) :
  Aqhi.store_forecasts over abr tree s = (s', Ok tt) ->
  forecasts_of tree (get s') /\ same_but "forecasts" (get s) (get s').
Proof.
  unfold Aqhi.store_forecasts. intros Hrun.
  unfold bind at 1 in Hrun. unfold modify at 1 in Hrun. cbn [fst snd] in Hrun.
  unfold bind at 1 in Hrun.
  match type of Hrun with
  | (let (_, _) := Aqhi.daily_loop _ _ _ ?fs ?s0 in _) = _ =>
      destruct (Aqhi.daily_loop over abr VNone fs s0) as [s1 [[]|]] eqn:Hdaily;
      [|discriminate]
  end.
  assert (H0 : get (over (insert "forecasts" (Aqhi.AForecasts [] [])) s) !! "forecasts"
               = Some (Aqhi.AForecasts [] [])).
  { rewrite get_over. apply lookup_insert_eq. }
  destruct (daily_loop_appends _ _ _ _ _ _ Hdaily H0) as (daily & Hall & H1 & Hother1).
  destruct (hourly_loop_appends _ _ _ _ _ Hrun H1) as (H2 & Hother2).
  split.
  - exists daily. split; [exact H2|exact Hall].
  - intros k Hk. rewrite (Hother2 k Hk), (Hother1 k Hk), get_over.
    apply lookup_insert_ne. congruence.
Qed.
End StoreSpec.

Lemma same_region_refl (s : ECAQHI.t) : same_region s s.
Proof. repeat split. Qed.

Lemma same_region_trans (s1 s2 s3 : ECAQHI.t) :
  same_region s1 s2 -> same_region s2 s3 -> same_region s1 s3.
Proof. unfold same_region. intuition congruence. Qed.

Lemma aqhi_observation_same_region (P : Prims) :
  related same_region (ECAQHI.fetch_new_observation P).
Proof.
  pose proof same_region_refl as Hr. pose proof same_region_trans as Ht.
  unfold ECAQHI.fetch_new_observation, ECAQHI.http_get. frame; repeat split.
Qed.

Lemma aqhi_forecast_same_region (P : Prims) :
  related same_region (ECAQHI.fetch_new_forecast P).
Proof.
  pose proof same_region_refl as Hr. pose proof same_region_trans as Ht.
  unfold ECAQHI.fetch_new_forecast, ECAQHI.http_get.
  frame; try (apply related_store_forecasts; try assumption; intros); repeat split.
Qed.

Lemma aqhi_observation_requests (P : Prims) (s : ECAQHI.t) :
  ECAQHI.requested (fst (ECAQHI.fetch_new_observation P s)) =
  observation_url P s :: ECAQHI.requested s.
Proof.
  unfold ECAQHI.fetch_new_observation, observation_url.
  unfold bind at 1. simpl. unfold bind at 1. unfold ECAQHI.http_get at 1.
  destruct (requests_get P _) as [content|e]; [|reflexivity].
  match goal with |- ECAQHI.requested (fst (?m ?s0)) = _ =>
    assert (H : related aqhi_same_requests m) end.
  { pose proof aqhi_same_requests_refl. pose proof aqhi_same_requests_trans.
    frame; reflexivity. }
  rewrite H. reflexivity.
Qed.

Lemma aqhi_forecast_requests (P : Prims) (s : ECAQHI.t) :
  ECAQHI.requested (fst (ECAQHI.fetch_new_forecast P s)) =
  forecast_url P s :: ECAQHI.requested s.
Proof.
  unfold ECAQHI.fetch_new_forecast, forecast_url.
  unfold bind at 1. simpl. unfold bind at 1. unfold ECAQHI.http_get at 1.
  destruct (requests_get P _) as [content|e]; [|reflexivity].
  match goal with |- ECAQHI.requested (fst (?m ?s0)) = _ =>
    assert (H : related aqhi_same_requests m) end.
  { pose proof aqhi_same_requests_refl as Hr. pose proof aqhi_same_requests_trans as Ht.
    frame. apply related_store_forecasts; try assumption. reflexivity. }
  rewrite H. reflexivity.
Qed.



(** X8: a successful fetch of the air quality forecast replaces the two
    series: under [forecasts] the dictionary then holds one daily entry
    for every daily forecast of the document and exactly the entries of
    its hourly forecasts, whatever the series held before, and the
    observation entries are as they were. *)
Theorem aqhi_forecast_replaces_series (P : Prims) (s s' : ECAQHI.t) (tree : ET.Element) :
  fetch_document P (forecast_url P s) (fun content => Ok (decode_latin1 P content)) = Ok tree ->
  ECAQHI.fetch_new_forecast P s = (s', Ok tt) ->
  forecasts_of tree (ECAQHI.aqhi s') /\
  same_but "forecasts" (ECAQHI.aqhi s) (ECAQHI.aqhi s').
Proof.
  intros Hdoc Hrun. unfold fetch_document, forecast_url in Hdoc.
  unfold ECAQHI.fetch_new_forecast in Hrun.
  unfold bind at 1 in Hrun. unfold gets at 1 in Hrun. cbn [fst snd] in Hrun.
  unfold bind at 1 in Hrun. unfold ECAQHI.http_get at 1 in Hrun. cbn [fst snd] in Hrun.
  destruct (requests_get P _) as [content|]; [|discriminate]. cbn [rbind] in Hdoc.
  unfold bind at 1 in Hrun. unfold lift at 1 in Hrun. rewrite Hdoc in Hrun.
  unfold bind at 1 in Hrun. unfold gets at 1 in Hrun. cbn [fst snd] in Hrun.
  apply (store_forecasts_replaces ECAQHI.aqhi ECAQHI.over_aqhi) in Hrun; [|reflexivity].
  exact Hrun.
Qed.

Lemma aqhi_forecast_replaces_series_witness :
  forecasts_of short_forecast
               (ECAQHI.aqhi (fst (ECAQHI.fetch_new_forecast short_forecast_web toronto))) /\
  same_but "forecasts" (ECAQHI.aqhi toronto)
           (ECAQHI.aqhi (fst (ECAQHI.fetch_new_forecast short_forecast_web toronto))).
Proof.
  apply (aqhi_forecast_replaces_series short_forecast_web toronto _ short_forecast).
  - reflexivity.
  - assert (H : snd (ECAQHI.fetch_new_forecast short_forecast_web toronto) = Ok tt)
      by (vm_compute; reflexivity).
    destruct (ECAQHI.fetch_new_forecast short_forecast_web toronto) as [s' r].
    cbn [snd] in H. rewrite H. reflexivity.
Defined.

(** X9: a notification is dispatched on the first path it contains.  A
    body that names the observation of the region triggers the fetch of
    the observation only, even when it names the forecast as well; a
    body that names the forecast alone triggers the fetch of the
    forecast; any other body changes nothing. *)
Theorem aqhi_message_dispatch (P : Prims) (s : ECAQHI.t) (body : string) :
  let zone := str P (fst (ECAQHI.aqhi_id s)) in
  let region := str P (snd (ECAQHI.aqhi_id s)) in
  match contains (ECAQHI.OBSERVATION_MESSAGE zone region) body,
        contains (ECAQHI.FORECAST_MESSAGE zone region) body with
  | true, _ =>
      ECAQHI.requested (fst (ECAQHI.process_message P body s)) =
        observation_url P s :: ECAQHI.requested s
  | false, true =>
      ECAQHI.requested (fst (ECAQHI.process_message P body s)) =
        forecast_url P s :: ECAQHI.requested s
  | false, false => ECAQHI.process_message P body s = (s, Ok tt)
  end.
Proof.
  intros zone region. subst zone region.
  unfold ECAQHI.process_message, bind, gets. cbn [fst snd].
  destruct (contains (ECAQHI.OBSERVATION_MESSAGE _ _) body).
  - apply aqhi_observation_requests.
  - destruct (contains (ECAQHI.FORECAST_MESSAGE _ _) body).
    + apply aqhi_forecast_requests.
    + reflexivity.
Qed.

Lemma split_without_separator (c : ascii) (s : string) :
  occurrences c s = O -> split c s = [s].
Proof.
  induction s as [|a s IH]; [reflexivity|]. cbn [occurrences split].
  destruct (Ascii.eqb a c); [discriminate|]. intros H. rewrite IH by exact H. reflexivity.
Qed.

Lemma split_pair (c : ascii) (x y : string) :
  occurrences c x = O -> occurrences c y = O ->
  split c (x ++ String c y)%string = [x; y].
Proof.
  intros Hx Hy. induction x as [|a x IH].
  - change (split c (String c y) = [EmptyString; y]). cbn [split].
    rewrite Ascii.eqb_refl, split_without_separator by exact Hy. reflexivity.
  - change (split c (String a (x ++ String c y)) = [String a x; y]).
    cbn [occurrences] in Hx. cbn [split].
    destruct (Ascii.eqb a c); [discriminate|]. rewrite IH by exact Hx. reflexivity.
Qed.

(** X10: an air quality object constructed with an identifier
    [zone/region] stands for the zone in lower case and the region in
    upper case, never consults the list of regions, and fetches the
    observation before the forecast: the observation is always
    requested, and when its fetch fails construction fails with the same
    exception and the forecast is not requested.  An identifier without
    a slash makes construction raise [IndexError] before any request. *)
Theorem aqhi_init_with_identifier (P : Prims) (coordinates : option (value * value))
    (language : string) (s : ECAQHI.t) :
  (forall zone region,
      occurrences "/" zone = O -> occurrences "/" region = O ->
      let id := (VStr (str_lower P zone), VStr (str_upper P region)) in
      let s0 := ECAQHI.mk language (str_upper P (String.substring 0 2 language)) ∅
                          EmptyString id (ECAQHI.inbox s) (ECAQHI.requested s) in
      let run := ECAQHI.__init__ P (Some (zone ++ "/" ++ region)%string) coordinates language s in
      ECAQHI.aqhi_id (fst run) = id /\
      match ECAQHI.fetch_new_observation P s0 with
      | (_, Ok _) =>
          ECAQHI.requested (fst run) =
            forecast_url P s0 :: observation_url P s0 :: ECAQHI.requested s
      | (_, Raise e) =>
          snd run = Raise e /\
          ECAQHI.requested (fst run) = observation_url P s0 :: ECAQHI.requested s
      end) /\
  (forall id,
      occurrences "/" id = O ->
      let run := ECAQHI.__init__ P (Some id) coordinates language s in
      snd run = Raise IndexError /\ ECAQHI.requested (fst run) = ECAQHI.requested s).
Proof.
  split.
  - intros zone region Hz Hr id s0 run.
    assert (E : run = (do* ECAQHI.fetch_new_observation P in ECAQHI.fetch_new_forecast P) s0).
    { subst run. unfold ECAQHI.__init__.
      unfold bind at 1. unfold modify at 1. cbn [fst snd].
      unfold bind at 1.
      change (zone ++ "/" ++ region)%string with (zone ++ String "/" region)%string.
      rewrite (split_pair "/" zone region Hz Hr). reflexivity. }
    rewrite E. clear E run. unfold bind.
    pose proof (aqhi_observation_requests P s0) as Hreq.
    pose proof (aqhi_observation_same_region P s0) as (Hid & _ & _).
    destruct (ECAQHI.fetch_new_observation P s0) as [s1 [[]|e]]; cbn [fst snd] in *.
    + pose proof (aqhi_forecast_requests P s1) as Hreq'.
      pose proof (aqhi_forecast_same_region P s1) as (Hid' & _ & _).
      split; [rewrite Hid', Hid; reflexivity|].
      rewrite Hreq', Hreq. unfold forecast_url. rewrite Hid. reflexivity.
    + split; [exact Hid|]. split; [reflexivity|exact Hreq].
  - intros id Hid run. subst run. unfold ECAQHI.__init__.
    unfold bind at 1. unfold modify at 1. cbn [fst snd].
    unfold bind at 1. rewrite (split_without_separator "/" id Hid).
    split; reflexivity.
Qed.

Lemma aqhi_init_with_identifier_witness :
  ECAQHI.aqhi_id (fst (ECAQHI.__init__ bare_observation_web (Some "ont/fevnt") None "english"
                                       new_aqhi))
  = (VStr "ont", VStr "FEVNT").
Proof.
  exact (proj1 (proj1 (aqhi_init_with_identifier bare_observation_web None "english" new_aqhi)
                      "ont" "fevnt" eq_refl eq_refl)).
Defined.

Lemma parse_region_of_zone (P : Prims)
    (children_of : ET.Element -> result (list ET.Element))
    (zone_attrib r : gmap string value) (rtag : string)
    (region : ET.Element) (a n : string) :
  zone_attrib !! "abbreviation" = Some (VStr a) ->
  zone_attrib !! "zone_name" = Some (VStr n) ->
  Aqhi.parse_region P children_of zone_attrib rtag region = Ok r ->
  r !! "abbreviation" = Some (VStr a) /\ r !! "zone_name" = Some (VStr n).
Proof.
  intros Ha Hn. unfold Aqhi.parse_region, getitem.
  destruct (ET.attrib region !! rtag); [|discriminate]. cbn [rbind].
  destruct (ET.attrib region !! "cgndb"); [|discriminate]. cbn [rbind].
  destruct (ET.attrib region !! "latitude"); [|discriminate]. cbn [rbind].
  destruct (float P _); [|discriminate]. cbn [rbind].
  destruct (ET.attrib region !! "longitude"); [|discriminate]. cbn [rbind].
  destruct (float P _); [|discriminate]. cbn [rbind].
  destruct (children_of region); [|discriminate]. cbn [rbind].
  intros [= <-]. split; apply lookup_union_Some_l; assumption.
Qed.

(** X11: when [ECAQHI.get_aqhi_regions] loads the list of air quality
    regions, the catalog has one record for every [region] element of the
    document, and every record carries the abbreviation and the name of
    an administrative zone of the document under [abbreviation] and
    [zone_name]: the attributes of the zone are written last, so no child
    element of a region can replace them, and the resolver always finds
    an abbreviation to return. *)
Theorem aqhi_regions_carry_zone (P : Prims) (language_abr : string)
    (tree : ET.Element) (catalog : list (gmap string value)) :
  fetch_document P Aqhi.AQHI_SITE_LIST_URL (decode_utf8 P) = Ok tree ->
  ECAQHI.get_aqhi_regions P language_abr = Ok catalog ->
  length catalog = length (aqhi_region_elements tree) /\
  Forall (fun r => exists zone,
                     In zone (ET.findall [ET.Child "EC_administrativeZone"] tree) /\
                     of_zone (zone_tag P language_abr) zone r) catalog.
Proof.
  intros Hdoc Hload. unfold fetch_document in Hdoc.
  unfold ECAQHI.get_aqhi_regions, Aqhi.get_aqhi_regions in Hload.
  fold (zone_tag P language_abr) in Hload. fold (region_tag P language_abr) in Hload.
  set (zone_name_tag := zone_tag P language_abr) in *.
  destruct (requests_get P _) as [content|]; [|discriminate]. cbn [rbind] in Hdoc, Hload.
  destruct (decode_utf8 P content) as [text|]; [|discriminate]. cbn [rbind] in Hdoc, Hload.
  rewrite Hdoc in Hload. cbn [rbind] in Hload. unfold aqhi_region_elements.
  destruct (rmap _ _) as [by_zone|] eqn:Hzones; [|discriminate]. cbn [rbind] in Hload.
  injection Hload as <-. apply rmap_Ok_Forall2 in Hzones.
  induction Hzones as [|zone recs zones by_zone Hzone Hrest IH].
  - split; [reflexivity|constructor].
  - destruct IH as [IHlen IHall]. cbn [concat flat_map]. rewrite !length_app, IHlen.
    unfold Aqhi.parse_zone, getitem in Hzone.
    destruct (ET.attrib zone !! "abreviation") as [a|] eqn:Ha; [|discriminate].
    cbn [rbind] in Hzone.
    destruct (ET.attrib zone !! zone_name_tag) as [n|] eqn:Hn; [|discriminate].
    cbn [rbind] in Hzone. apply rmap_Ok_Forall2 in Hzone.
    split.
    + f_equal. symmetry. eapply Forall2_length. exact Hzone.
    + apply Forall_app. split.
      * clear -Hzone Ha Hn.
        induction Hzone as [|region r regions recs Hr _ IH]; constructor; [|exact IH].
        exists zone. split; [left; reflexivity|]. exists a, n.
        split; [exact Ha|]. split; [exact Hn|].
        eapply parse_region_of_zone; [| |exact Hr].
        -- apply lookup_insert_eq.
        -- rewrite lookup_insert_ne by discriminate. apply lookup_insert_eq.
      * eapply Forall_impl; [exact IHall|]. intros r (z & Hin & Hz).
        exists z. split; [right; exact Hin|exact Hz].
Qed.

Lemma aqhi_regions_carry_zone_witness :
  length one_region_catalog = length (aqhi_region_elements one_region) /\
  Forall (fun r => exists zone,
                     In zone (ET.findall [ET.Child "EC_administrativeZone"] one_region) /\
                     of_zone "name_en_CA" zone r) one_region_catalog.
Proof.
  apply (aqhi_regions_carry_zone one_region_web "EN" one_region one_region_catalog).
  - reflexivity.
  - vm_cast_no_check (eq_refl (Ok one_region_catalog)).
Defined.

(** X12: an air quality object constructed from coordinates alone reads
    them as numbers, asks the resolver in the language of the object and
    stands for the region the resolver returns; construction has
    requested the list of regions, then the observation and then the
    forecast of that region, and nothing else. *)
Theorem aqhi_init_by_coordinates (P : Prims) (la lo : value) (language : string)
    (s s' : ECAQHI.t) :
  ECAQHI.__init__ P None (Some (la, lo)) language s = (s', Ok tt) ->
  exists lat lon id,
    float P la = Ok lat /\ float P lo = Ok lon /\
    ECAQHI.closest_aqhi P (str_upper P (String.substring 0 2 language)) lat lon = Ok id /\
    ECAQHI.aqhi_id s' = id /\
    ECAQHI.requested s' =
      forecast_url P s' :: observation_url P s' :: Aqhi.AQHI_SITE_LIST_URL
        :: ECAQHI.requested s.
Proof.
  intros Hrun. unfold ECAQHI.__init__ in Hrun.
  unfold bind at 1 in Hrun. unfold modify at 1 in Hrun. cbn [fst snd] in Hrun.
  unfold bind at 1 in Hrun.
  unfold bind at 1 in Hrun. unfold lift at 1 in Hrun. cbn [fst snd] in Hrun.
  unfold bind at 1 in Hrun. unfold lift at 1 in Hrun.
  destruct (float P la) as [lat|]; [|discriminate].
  unfold bind at 1 in Hrun. unfold lift at 1 in Hrun.
  destruct (float P lo) as [lon|]; [|discriminate].
  unfold bind at 1 in Hrun. unfold modify at 1 in Hrun. cbn [fst snd] in Hrun.
  unfold bind at 1 in Hrun. unfold lift at 1 in Hrun.
  destruct (ECAQHI.closest_aqhi P _ lat lon) as [id|] eqn:Hclosest; [|discriminate].
  unfold modify at 1 in Hrun. cbn [fst snd] in Hrun.
  unfold bind at 1 in Hrun.
  match type of Hrun with
  | (let (_, _) := ECAQHI.fetch_new_observation P ?s0 in _) = _ =>
      pose proof (aqhi_observation_requests P s0) as Hreq;
      pose proof (aqhi_observation_same_region P s0) as (Hid & _ & _);
      destruct (ECAQHI.fetch_new_observation P s0) as [s1 [[]|]]; [|discriminate]
  end.
  cbn [fst] in Hreq, Hid.
  pose proof (aqhi_forecast_requests P s1) as Hreq'.
  pose proof (aqhi_forecast_same_region P s1) as (Hid' & _ & _).
  rewrite Hrun in Hreq', Hid'. cbn [fst] in Hreq', Hid'.
  exists lat, lon, id. repeat split.
  - exact Hclosest.
  - rewrite Hid', Hid. reflexivity.
  - rewrite Hreq', Hreq. unfold forecast_url, observation_url.
    rewrite Hid', Hid. reflexivity.
Qed.

Lemma aqhi_init_by_coordinates_witness :
  exists lat lon id,
    float toronto_discovery_web (VStr "43.7") = Ok lat /\
    float toronto_discovery_web (VFloat (-794 # 10)) = Ok lon /\
    ECAQHI.closest_aqhi toronto_discovery_web
      (str_upper toronto_discovery_web (String.substring 0 2 "english")) lat lon = Ok id /\
    ECAQHI.aqhi_id
      (fst (ECAQHI.__init__ toronto_discovery_web None
              (Some (VStr "43.7", VFloat (-794 # 10))) "english" new_aqhi)) = id /\
    ECAQHI.requested
      (fst (ECAQHI.__init__ toronto_discovery_web None
              (Some (VStr "43.7", VFloat (-794 # 10))) "english" new_aqhi)) =
      forecast_url toronto_discovery_web
        (fst (ECAQHI.__init__ toronto_discovery_web None
                (Some (VStr "43.7", VFloat (-794 # 10))) "english" new_aqhi))
      :: observation_url toronto_discovery_web
           (fst (ECAQHI.__init__ toronto_discovery_web None
                   (Some (VStr "43.7", VFloat (-794 # 10))) "english" new_aqhi))
      :: Aqhi.AQHI_SITE_LIST_URL :: ECAQHI.requested new_aqhi.
Proof.
  apply (aqhi_init_by_coordinates toronto_discovery_web (VStr "43.7") (VFloat (-794 # 10))
           "english" new_aqhi).
  assert (H : snd (ECAQHI.__init__ toronto_discovery_web None
                     (Some (VStr "43.7", VFloat (-794 # 10))) "english" new_aqhi) = Ok tt)
    by (vm_compute; reflexivity).
  destruct (ECAQHI.__init__ toronto_discovery_web None
              (Some (VStr "43.7", VFloat (-794 # 10))) "english" new_aqhi) as [s' r].
  cbn [snd] in H. rewrite H. reflexivity.
Defined.

Lemma aqhi_process_message_same_region (P : Prims) (body : string) :
  related same_region (ECAQHI.process_message P body).
Proof.
  pose proof same_region_refl as Hr. pose proof same_region_trans as Ht.
  unfold ECAQHI.process_message. frame.
  - apply aqhi_observation_same_region.
  - apply aqhi_forecast_same_region.
Qed.

Lemma aqhi_process_message_requests (P : Prims) (s : ECAQHI.t) (body : string) :
  (names_region P s body = true /\
   exists url, (url = observation_url P s \/ url = forecast_url P s) /\
               ECAQHI.requested (fst (ECAQHI.process_message P body s)) =
                 url :: ECAQHI.requested s) \/
  (names_region P s body = false /\ ECAQHI.process_message P body s = (s, Ok tt)).
Proof.
  unfold names_region, ECAQHI.process_message, bind, gets. cbn [fst snd].
  destruct (contains (ECAQHI.OBSERVATION_MESSAGE _ _) body).
  - left. split; [reflexivity|]. exists (observation_url P s).
    split; [left; reflexivity|apply aqhi_observation_requests].
  - destruct (contains (ECAQHI.FORECAST_MESSAGE _ _) body).
    + left. split; [reflexivity|]. exists (forecast_url P s).
      split; [right; reflexivity|apply aqhi_forecast_requests].
    + right. split; reflexivity.
Qed.

Lemma aqhi_messages_requests (P : Prims) (id : value * value) (bodies : list string) :
  forall s : ECAQHI.t,
    ECAQHI.aqhi_id s = id ->
    same_region s (fst (for_each bodies (ECAQHI.process_message P) s)) /\
    exists urls : list string,
      ECAQHI.requested (fst (for_each bodies (ECAQHI.process_message P) s)) =
        urls ++ ECAQHI.requested s /\
      Forall (fun url => url = observation_url P s \/ url = forecast_url P s) urls /\
      (length urls <= length (List.filter (names_region P s) bodies))%nat /\
      (urls = [] -> Forall (fun body => names_region P s body = false) bodies).
Proof.
  induction bodies as [|body rest IH]; intros s Hid.
  - split; [apply same_region_refl|]. exists []. cbn. repeat split; constructor.
  - cbn [for_each List.filter]. unfold bind.
    pose proof (aqhi_process_message_same_region P body s) as Hsame.
    destruct (aqhi_process_message_requests P s body)
      as [(Hhit & url & Hurl & Hreq)|(Hmiss & Hrun)].
    + rewrite Hhit.
      destruct (ECAQHI.process_message P body s) as [s1 [[]|e]]; cbn [fst] in Hreq, Hsame.
      * assert (Hid1 : ECAQHI.aqhi_id s1 = id) by (destruct Hsame as (H1 & _); congruence).
        destruct (IH s1 Hid1) as (Hst & urls & Hreq1 & Hall & Hle & _).
        assert (Eo : observation_url P s1 = observation_url P s)
          by (unfold observation_url; rewrite Hid1, Hid; reflexivity).
        assert (Ef : forecast_url P s1 = forecast_url P s)
          by (unfold forecast_url; rewrite Hid1, Hid; reflexivity).
        assert (En : List.filter (names_region P s1) rest = List.filter (names_region P s) rest).
        { apply filter_ext. intros b. unfold names_region. rewrite Hid1, Hid. reflexivity. }
        split; [apply (same_region_trans _ s1); assumption|].
        exists (urls ++ [url]). rewrite Hreq1, Hreq, <- app_assoc.
        split; [reflexivity|]. split.
        { apply Forall_app. split; [|constructor; [exact Hurl|constructor]].
          eapply Forall_impl; [exact Hall|]. intros u. cbv beta. rewrite Eo, Ef. auto. }
        split; [rewrite length_app, <- En; cbn [length]; lia|].
        intros E. destruct urls; discriminate E.
      * split; [exact Hsame|]. exists [url]. cbn [fst]. rewrite Hreq.
        split; [reflexivity|]. split; [constructor; [exact Hurl|constructor]|].
        split; [cbn [length]; lia|discriminate].
    + rewrite Hmiss, Hrun. destruct (IH s Hid) as (Hst & urls & Hreq & Hall & Hle & Hnil).
      split; [exact Hst|]. exists urls. split; [exact Hreq|]. split; [exact Hall|].
      split; [exact Hle|]. intros E. constructor; [exact Hmiss|apply Hnil; exact E].
Qed.

(** X13: whatever messages the connection hands to the callback during a
    poll of the air quality object, and whether or not it times out
    afterwards, the poll never changes the region or the language of the
    object and never lets [socket.timeout] escape; all its requests are
    for the observation or the forecast of that region, at most one for
    each message that names the region, and none exactly when no message
    names it. *)
Theorem aqhi_poll_any_delivery (P : Prims) (s : ECAQHI.t) (bodies : list string)
    (timeout : bool) :
  let run := ECAQHI.update_with P (deliver bodies timeout) s in
  same_region s (fst run) /\
  snd run <> Raise SocketTimeout /\
  exists urls : list string,
    ECAQHI.requested (fst run) = urls ++ ECAQHI.requested s /\
    Forall (fun url => url = observation_url P s \/ url = forecast_url P s) urls /\
    (length urls <= length (List.filter (names_region P s) bodies))%nat /\
    (urls = [] <-> Forall (fun body => names_region P s body = false) bodies).
Proof.
  cbv zeta. unfold ECAQHI.update_with. rewrite try_except_ret_state, deliver_state.
  destruct (aqhi_messages_requests P (ECAQHI.aqhi_id s) bodies s eq_refl)
    as (Hst & urls & Hreq & Hall & Hle & Hnil).
  split; [exact Hst|]. split; [apply try_except_pass|].
  exists urls. split; [exact Hreq|]. split; [exact Hall|]. split; [exact Hle|].
  split; [exact Hnil|]. intros Hnone.
  assert (E : List.filter (names_region P s) bodies = []).
  { clear -Hnone. induction Hnone as [|body rest Hb _ IH]; [reflexivity|].
    cbn [List.filter]. rewrite Hb. exact IH. }
  rewrite E in Hle. destruct urls; [reflexivity|cbn [length] in Hle; lia].
Qed.

(** ** ec_data.py *)

Lemma same_object_refl (s : ECData.t) : same_object s s.
Proof. repeat split. Qed.

Lemma same_object_trans (s1 s2 s3 : ECData.t) :
  same_object s1 s2 -> same_object s2 s3 -> same_object s1 s3.
Proof. unfold same_object. intuition congruence. Qed.

Lemma update_body_same_object (P : Prims) : related same_object (ECData.update_body P).
Proof.
  pose proof same_object_refl as Hr. pose proof same_object_trans as Ht.
  unfold ECData.update_body, ECData.update_station, ECData.update_metadata,
    ECData.update_conditions, ECData.update_text_summary, ECData.update_alerts,
    ECData.reset_alerts, ECData.classify, ECData.update_forecasts,
    ECData.update_aqhi_observation, ECData.update_aqhi_forecasts, ECData.http_get.
  frame; try (apply related_store_forecasts; try assumption; intros); repeat split.
Qed.

(** X14: the limiter is transparent for a call it admits.  When the
    window of 60 seconds has run out, or fewer than two calls were counted
    in it, [update] counts the call (restarting the window if it ran out,
    whatever the count was) and runs its body: an exception of the body
    other than [RateLimitException] reaches the caller, and the call stays
    counted whether the body returns or raises. *)
Theorem update_runs_when_admitted (P : Prims) (s : ECData.t) (now : Q) :
  admitted now s ->
  ECData.update P now s = ECData.ignore_ratelimit_error (ECData.update_body P) (counted now s) /\
  (forall s' e, e <> RateLimitException ->
                ECData.update_body P (counted now s) = (s', Raise e) ->
                ECData.update P now s = (s', Raise e)) /\
  ECData.num_calls (fst (ECData.update P now s)) = ECData.num_calls (counted now s) /\
  ECData.last_reset (fst (ECData.update P now s)) = ECData.last_reset (counted now s).
Proof.
  intros Hadm.
  assert (E : ECData.update P now s =
              ECData.ignore_ratelimit_error (ECData.update_body P) (counted now s)).
  { unfold ECData.update, ECData.ignore_ratelimit_error, ECData.limits, counted, window_elapsed,
      admitted, window_elapsed in *.
    unfold try_except, bind, gets, modify, ret, raise. cbn [fst snd].
    destruct (Qle_bool (60 - (now - ECData.last_reset s)) 0) eqn:Hw; cbn [fst snd].
    - reflexivity.
    - destruct Hadm as [Hadm|Hadm]; [discriminate|].
      destruct (ECData.num_calls s) as [|[|n]]; [reflexivity|reflexivity|lia]. }
  split; [exact E|]. split.
  - intros s' e Hne Hbody. rewrite E. unfold ECData.ignore_ratelimit_error, try_except.
    rewrite Hbody. destruct (decide (e = RateLimitException)); [contradiction|reflexivity].
  - rewrite E. unfold ECData.ignore_ratelimit_error. rewrite try_except_ret_state.
    pose proof (update_body_same_object P (counted now s)) as (_ & _ & _ & _ & Hn & Hl).
    split; assumption.
Qed.

Lemma update_runs_when_admitted_witness :
  ECData.num_calls (fst (ECData.update (Fixture.prims [] []) 90 ottawa_after_two_calls)) = 1%nat /\
  ECData.last_reset (fst (ECData.update (Fixture.prims [] []) 90 ottawa_after_two_calls)) == 90.
Proof.
  pose proof (update_runs_when_admitted (Fixture.prims [] []) ottawa_after_two_calls 90
                (or_introl eq_refl)) as (_ & _ & Hn & Hl).
  rewrite Hn, Hl. split; reflexivity.
Defined.

Lemma ec_parse_site_records (P : Prims) (row : gmap string value)
    (out : list (gmap string value)) :
  ECData.parse_site P row = Ok out -> Forall ec_site out.
Proof.
  unfold ECData.parse_site, getitem.
  destruct (row !! "Province Codes") as [prov|] eqn:Hprov; [|discriminate]. cbn [rbind].
  destruct (ECHydro.differs prov "HEF") eqn:Hdiff; [|intros [= <-]; constructor].
  destruct (row !! "Latitude") as [la|]; [|discriminate]. cbn [rbind].
  destruct (value_replace "N" "" la) as [la'|]; [|discriminate]. cbn [rbind].
  destruct (float P (VStr la')) as [lat|]; [|discriminate]. cbn [rbind].
  rewrite lookup_insert_ne by discriminate.
  destruct (row !! "Longitude") as [lo|]; [|discriminate]. cbn [rbind].
  destruct (value_replace "W" "" lo) as [lo'|]; [|discriminate]. cbn [rbind].
  destruct (float P (VStr lo')) as [lon|]; [|discriminate]. cbn [rbind].
  intros [= <-]. constructor; [|constructor]. split.
  - exists lat, (times_minus_one lon). split.
    + rewrite lookup_insert_ne by discriminate. apply lookup_insert_eq.
    + apply lookup_insert_eq.
  - exists prov. split.
    + rewrite !lookup_insert_ne by discriminate. exact Hprov.
    + intros ->. cbn in Hdiff. discriminate.
Qed.

Lemma ec_sites_records (P : Prims) (catalog : list (gmap string value)) :
  ECData.get_ec_sites P = Ok catalog -> Forall ec_site catalog.
Proof.
  unfold ECData.get_ec_sites. intros H.
  destruct (requests_get P _); [|discriminate]. cbn [rbind] in H.
  destruct (readline _) as [[|c line] rest]; [discriminate|]. cbn [rbind] in H.
  destruct (rmap _ _) as [sites|] eqn:Hsites; [|discriminate]. cbn [rbind] in H.
  injection H as <-. apply rmap_Ok_Forall2 in Hsites.
  induction Hsites as [|row out rows sites Hrow _ IH]; [constructor|].
  cbn [concat]. apply Forall_app. split; [|exact IH].
  eapply ec_parse_site_records. exact Hrow.
Qed.

(** X15: once the weather site list has loaded, every record of the
    catalog has floats under both coordinates and a province code other
    than HEF, so the resolver has three outcomes.  On a catalog without
    sites it raises [ValueError].  When the distance primitive accepts
    the coordinates of every record, it picks the site nearest to the
    target, the first of the catalog among several nearest, and returns
    its province code and its site code joined by a slash, or raises
    [KeyError] when the list has no column of site codes.  Otherwise it
    raises what the distance primitive raises for the first record whose
    coordinates it refuses. *)
Theorem ec_resolver_total (P : Prims) (lat lon : pyfloat)
    (catalog : list (gmap string value)) :
  ECData.get_ec_sites P = Ok catalog ->
  Forall ec_site catalog /\
  ((catalog = [] /\ ECData.closest_site P lat lon = Raise ValueError) \/
   (Forall (reachable P lat lon "Latitude" "Longitude") catalog /\
    exists r prov,
       nearest P lat lon "Latitude" "Longitude" catalog r /\
       r !! "Province Codes" = Some prov /\
       ECData.closest_site P lat lon =
         match r !! "Codes" with
         | Some code => Ok (str P prov ++ "/" ++ str P code)%string
         | None => Raise KeyError
         end) \/
   (exists pre site post x y e,
       catalog = pre ++ site :: post /\
       Forall (reachable P lat lon "Latitude" "Longitude") pre /\
       site !! "Latitude" = Some (VFloat x) /\ site !! "Longitude" = Some (VFloat y) /\
       geodesic P (VFloat lat, VFloat lon) (VFloat x, VFloat y) = Raise e /\
       ECData.closest_site P lat lon = Raise e)).
Proof.
  intros Hload. pose proof (ec_sites_records P catalog Hload) as Hall.
  split; [exact Hall|].
  assert (Hnum : Forall (has_coordinates "Latitude" "Longitude") catalog).
  { eapply Forall_impl; [exact Hall|]. intros site [Hs _]. exact Hs. }
  unfold ECData.closest_site. rewrite Hload. cbn [rbind].
  destruct (min_outcomes P lat lon "Latitude" "Longitude" (ECData.site_distance P lat lon)
              ltac:(reflexivity) catalog Hnum)
    as [[-> Hr]|[(Hreach & r & Hr & Hnear)|(pre & site & post & x & y & e & Hsplit & Hpre
                                              & Hx & Hy & Hgeo & Hr)]].
  - left. split; reflexivity.
  - right. left. split; [exact Hreach|].
    assert (Hin : In r catalog).
    { destruct Hnear as (i & d & Hi & _). apply list_elem_of_In.
      eapply list_elem_of_lookup_2. exact Hi. }
    rewrite List.Forall_forall in Hall.
    destruct (Hall r Hin) as (_ & prov & Hprov & _).
    exists r, prov. split; [exact Hnear|]. split; [exact Hprov|].
    rewrite Hr. cbn [rbind]. unfold getitem. rewrite Hprov. cbn [rbind].
    destruct (r !! "Codes"); reflexivity.
  - right. right. exists pre, site, post, x, y, e. rewrite Hr.
    repeat split; assumption.
Qed.

Lemma ec_resolver_total_witness :
  Forall ec_site ec_site_catalog /\
  ((ec_site_catalog = [] /\
    ECData.closest_site ec_site_list_web 45 (-75) = Raise ValueError) \/
   (Forall (reachable ec_site_list_web 45 (-75) "Latitude" "Longitude") ec_site_catalog /\
    exists r prov,
       nearest ec_site_list_web 45 (-75) "Latitude" "Longitude" ec_site_catalog r /\
       r !! "Province Codes" = Some prov /\
       ECData.closest_site ec_site_list_web 45 (-75) =
         match r !! "Codes" with
         | Some code => Ok (str ec_site_list_web prov ++ "/" ++ str ec_site_list_web code)%string
         | None => Raise KeyError
         end) \/
   (exists pre site post x y e,
       ec_site_catalog = pre ++ site :: post /\
       Forall (reachable ec_site_list_web 45 (-75) "Latitude" "Longitude") pre /\
       site !! "Latitude" = Some (VFloat x) /\ site !! "Longitude" = Some (VFloat y) /\
       geodesic ec_site_list_web (VFloat 45, VFloat (-75)) (VFloat x, VFloat y) = Raise e /\
       ECData.closest_site ec_site_list_web 45 (-75) = Raise e)).
Proof.
  apply (ec_resolver_total ec_site_list_web 45 (-75) ec_site_catalog).
  vm_cast_no_check (eq_refl (Ok ec_site_catalog)).
Defined.

Lemma reset_alerts_spec (s : ECData.t) :
  ECData.language s = "english" \/ ECData.language s = "french" ->
  exists s', ECData.reset_alerts s = (s', Ok tt) /\
             ECData.requested s' = ECData.requested s /\
             forall category meta,
               In (category, meta) ECData.alerts_meta ->
               ECData.alerts s' !! category =
                 Some (ECData.mk_category []
                         (ECData.label (in_language (ECData.language s) meta))).
Proof.
  intros Hlang. unfold ECData.reset_alerts, ECData.alerts_meta, in_language.
  destruct s as [lang abr ztag rtag md cond al daily hourly aq ft sid aid req n r].
  cbn [ECData.language] in *.
  destruct Hlang as [-> | ->];
    cbn [for_each bind gets lift modify ret ECData.by_language String.eqb Ascii.eqb Bool.eqb
         fst snd ECData.language ECData.over_alerts ECData.alerts ECData.requested
         ECData.alert_english ECData.alert_french ECData.label];
    (eexists; split; [reflexivity|]; split; [reflexivity|]);
    intros category meta Hin; cbn [ECData.alerts ECData.over_alerts];
    cbn [In] in Hin;
    destruct Hin as [H|[H|[H|[H|[H|[]]]]]]; injection H as <- <-;
    cbn [ECData.alert_english ECData.alert_french ECData.label];
    rewrite ?lookup_insert_ne by discriminate; apply lookup_insert_eq.
Qed.

(** X16: for a station document without warning events, the alert part
    of [update] requests nothing and leaves all five categories empty,
    each under the label of the language of the object, whatever alerts
    the object held before. *)
Theorem quiet_document_empties_alerts (P : Prims) (xml_object : ET.Element) (s : ECData.t) :
  ECData.language s = "english" \/ ECData.language s = "french" ->
  ET.findall [ET.Child "warnings"; ET.Child "event"] xml_object = [] ->
  exists s',
    ECData.update_alerts P xml_object s = (s', Ok tt) /\
    ECData.requested s' = ECData.requested s /\
    forall category meta,
      In (category, meta) ECData.alerts_meta ->
      ECData.alerts s' !! category =
        Some (ECData.mk_category [] (ECData.label (in_language (ECData.language s) meta))).
Proof.
  intros Hlang Hnone.
  destruct (reset_alerts_spec s Hlang) as (s' & Hreset & Hreq & Hempty).
  exists s'. split; [|split; [exact Hreq|exact Hempty]].
  unfold ECData.update_alerts. rewrite Hnone. unfold bind at 1. rewrite Hreset. reflexivity.
Qed.

Lemma quiet_document_empties_alerts_witness :
  exists s',
    ECData.update_alerts no_pages quiet_xml ottawa_with_alert = (s', Ok tt) /\
    ECData.requested s' = ECData.requested ottawa_with_alert /\
    forall category meta,
      In (category, meta) ECData.alerts_meta ->
      ECData.alerts s' !! category =
        Some (ECData.mk_category []
                (ECData.label (in_language (ECData.language ottawa_with_alert) meta))).
Proof.
  apply (quiet_document_empties_alerts no_pages quiet_xml ottawa_with_alert).
  - left. reflexivity.
  - reflexivity.
Defined.

Lemma daily_weather_loop (body : ET.Element -> M ECData.t unit) (fs : list ET.Element)
    (s s' : ECData.t) :
  (forall f s0 s1, body f s0 = (s1, Ok tt) ->
     exists e, daily_weather f e /\ s1 = ECData.over_daily (fun l => l ++ [e]) s0) ->
  for_each fs body s = (s', Ok tt) ->
  exists es, Forall2 daily_weather fs es /\
             ECData.daily_forecasts s' = ECData.daily_forecasts s ++ es /\
             ECData.hourly_forecasts s' = ECData.hourly_forecasts s /\
             ECData.forecast_time s' = ECData.forecast_time s.
Proof.
  intros Hbody. revert s. induction fs as [|f fs IH]; intros s Hrun.
  - inversion Hrun; subst. exists []. rewrite app_nil_r. repeat split. constructor.
  - cbn [for_each] in Hrun. unfold bind at 1 in Hrun.
    destruct (body f s) as [s1 [[]|]] eqn:Hf; [|discriminate].
    destruct (Hbody _ _ _ Hf) as (e & He & ->).
    destruct (IH _ Hrun) as (es & Hall & Hd & Hh & Ht).
    exists (e :: es). split; [constructor; assumption|].
    rewrite Hd, Hh, Ht. cbn [ECData.daily_forecasts ECData.hourly_forecasts
                             ECData.forecast_time ECData.over_daily].
    rewrite <- app_assoc. repeat split.
Qed.

Lemma hourly_weather_loop (body : ET.Element -> M ECData.t unit) (fs : list ET.Element)
    (s s' : ECData.t) :
  (forall f s0, body f s0 = (ECData.over_hourly (fun l => l ++ [hourly_weather f]) s0, Ok tt)) ->
  for_each fs body s = (s', Ok tt) ->
  ECData.hourly_forecasts s' = ECData.hourly_forecasts s ++ map hourly_weather fs /\
  ECData.daily_forecasts s' = ECData.daily_forecasts s /\
  ECData.forecast_time s' = ECData.forecast_time s.
Proof.
  intros Hbody. revert s. induction fs as [|f fs IH]; intros s Hrun.
  - inversion Hrun; subst. cbn [map]. rewrite app_nil_r. repeat split.
  - cbn [for_each] in Hrun. unfold bind at 1 in Hrun. rewrite Hbody in Hrun.
    destruct (IH _ Hrun) as (Hh & Hd & Ht).
    rewrite Hh, Hd, Ht. cbn [ECData.daily_forecasts ECData.hourly_forecasts
                             ECData.forecast_time ECData.over_hourly map].
    rewrite <- app_assoc. repeat split.
Qed.

(** X17: a successful pass over the forecasts of a station document
    replaces both series: the daily forecasts then hold one entry for
    every daily forecast of the document, in order, each with the period,
    the summary, the temperature and the temperature class of its
    forecast; the hourly forecasts are exactly the entries of the hourly
    forecasts of the document; and the forecast time is the time stamp of
    the forecast group, [None] when the document has none.  Nothing of
    the series held before remains. *)
Theorem weather_forecasts_replaced (xml_object : ET.Element) (s s' : ECData.t) :
  ECData.update_forecasts xml_object s = (s', Ok tt) ->
  ECData.forecast_time s' =
    ET.findtext [ET.Child "forecastGroup"; ET.Child "dateTime"; ET.Child "timeStamp"] xml_object /\
  Forall2 daily_weather
          (ET.findall [ET.Child "forecastGroup"; ET.Child "forecast"] xml_object)
          (ECData.daily_forecasts s') /\
  ECData.hourly_forecasts s' =
    map hourly_weather
        (ET.findall [ET.Child "hourlyForecastGroup"; ET.Child "hourlyForecast"] xml_object).
Proof.
  unfold ECData.update_forecasts. intros Hrun.
  unfold bind at 1 in Hrun. unfold modify at 1 in Hrun. cbn [fst snd] in Hrun.
  unfold bind at 1 in Hrun. unfold modify at 1 in Hrun. cbn [fst snd] in Hrun.
  unfold bind at 1 in Hrun. unfold modify at 1 in Hrun. cbn [fst snd] in Hrun.
  unfold bind at 1 in Hrun.
  match type of Hrun with
  | (let (_, _) := for_each ?fs ?body ?s0 in _) = _ =>
      destruct (for_each fs body s0) as [s1 [[]|]] eqn:Hdaily; [|discriminate];
      apply daily_weather_loop in Hdaily
  end.
  - destruct Hdaily as (es & Hall & Hd & Hh & Ht).
    apply hourly_weather_loop in Hrun; [|reflexivity].
    destruct Hrun as (Hh' & Hd' & Ht').
    rewrite Ht', Ht, Hd', Hd, Hh', Hh. repeat split. exact Hall.
  - intros f s0 s2. destruct (ET.find _ f) as [element|] eqn:Hel; [|discriminate].
    unfold modify. intros [= <-]. eexists. split; [|reflexivity].
    unfold daily_weather. split; [|split; [|split]].
    + apply lookup_insert_eq.
    + rewrite lookup_insert_ne by discriminate. apply lookup_insert_eq.
    + rewrite !lookup_insert_ne by discriminate. apply lookup_insert_eq.
    + exists element. split; [exact Hel|].
      rewrite !lookup_insert_ne by discriminate. apply lookup_insert_eq.
Qed.

Lemma weather_forecasts_replaced_witness :
  ECData.forecast_time (fst (ECData.update_forecasts quiet_xml ottawa)) =
    ET.findtext [ET.Child "forecastGroup"; ET.Child "dateTime"; ET.Child "timeStamp"] quiet_xml /\
  Forall2 daily_weather
          (ET.findall [ET.Child "forecastGroup"; ET.Child "forecast"] quiet_xml)
          (ECData.daily_forecasts (fst (ECData.update_forecasts quiet_xml ottawa))) /\
  ECData.hourly_forecasts (fst (ECData.update_forecasts quiet_xml ottawa)) =
    map hourly_weather
        (ET.findall [ET.Child "hourlyForecastGroup"; ET.Child "hourlyForecast"] quiet_xml).
Proof.
  apply (weather_forecasts_replaced quiet_xml ottawa).
  assert (H : snd (ECData.update_forecasts quiet_xml ottawa) = Ok tt)
    by (vm_compute; reflexivity).
  destruct (ECData.update_forecasts quiet_xml ottawa) as [s' r].
  cbn [snd] in H. rewrite H. reflexivity.
Defined.

Lemma update_when_limited (P : Prims) (s : ECData.t) (now : Q) :
  window_elapsed now s = false -> (2 <= ECData.num_calls s)%nat ->
  ECData.update P now s =
    (ECData.set_limiter (S (ECData.num_calls s)) (ECData.last_reset s) s, Ok tt).
Proof.
  unfold window_elapsed. intros Hopen Hcalls.
  unfold ECData.update, ECData.ignore_ratelimit_error, ECData.limits,
    try_except, bind, gets, modify, ret, raise. cbn [fst snd].
  rewrite Hopen. cbn [fst snd ECData.num_calls ECData.last_reset ECData.set_limiter].
  destruct (ECData.num_calls s) as [|[|n]] eqn:E; [lia|lia|]. reflexivity.
Qed.

(** X18: the limiter counts the calls of [update] for all weather
    objects together, and the constructor calls [update].  A weather
    object constructed with a station and an air quality identifier while
    the limit is exceeded is returned without an exception and without a
    single request: its metadata, conditions, alerts, forecasts and air
    quality are empty. *)
Theorem rate_limited_construction_is_empty (P : Prims) (station aqhi : string)
    (coordinates : option (pyfloat * pyfloat)) (language : string) (now : Q) (s : ECData.t) :
  station <> EmptyString -> aqhi <> EmptyString ->
  window_elapsed now s = false -> (2 <= ECData.num_calls s)%nat ->
  exists s',
    ECData.__init__ P (Some station) (Some aqhi) coordinates language now s = (s', Ok tt) /\
    ECData.requested s' = ECData.requested s /\
    ECData.station_id s' = station /\
    ECData.aqhi_id s' = map VStr (split "/" aqhi) /\
    ECData.metadata s' = ∅ /\ ECData.conditions s' = ∅ /\ ECData.alerts s' = ∅ /\
    ECData.daily_forecasts s' = [] /\ ECData.hourly_forecasts s' = [] /\
    ECData.aqhi s' = ∅.
Proof.
  intros Hs Ha Hopen Hcalls.
  destruct station as [|c station]; [congruence|]. destruct aqhi as [|d aqhi]; [congruence|].
  unfold ECData.__init__.
  unfold bind at 1. unfold modify at 1. cbn [fst snd].
  unfold bind at 1. unfold modify at 1. cbn [fst snd].
  unfold bind at 1. unfold modify at 1. cbn [fst snd].
  rewrite update_when_limited by assumption.
  eexists. split; [reflexivity|]. repeat split.
Qed.

Lemma rate_limited_construction_is_empty_witness :
  exists s',
    ECData.__init__ no_pages (Some "ON/s0000430") (Some "ont/FCWYG") None "english" 30
                    third_object = (s', Ok tt) /\
    ECData.requested s' = ECData.requested third_object /\
    ECData.station_id s' = "ON/s0000430" /\
    ECData.aqhi_id s' = map VStr (split "/" "ont/FCWYG") /\
    ECData.metadata s' = ∅ /\ ECData.conditions s' = ∅ /\ ECData.alerts s' = ∅ /\
    ECData.daily_forecasts s' = [] /\ ECData.hourly_forecasts s' = [] /\
    ECData.aqhi s' = ∅.
Proof.
  apply (rate_limited_construction_is_empty no_pages "ON/s0000430" "ont/FCWYG" None "english"
           30 third_object).
  - discriminate.
  - discriminate.
  - reflexivity.
  - simpl. lia.
Defined.



(** X20: a successful air quality forecast of [update] replaces the two
    series of the dictionary as the fetch of the air quality object does:
    one daily entry for every daily forecast of the document, exactly the
    entries of its hourly forecasts, nothing of the earlier series, and
    the observation entries untouched. *)
Theorem weather_air_forecast_replaces_series (P : Prims) (s s' : ECData.t)
    (zone region : value) (tree : ET.Element) :
  ECData.aqhi_id s !! 0%nat = Some zone -> ECData.aqhi_id s !! 1%nat = Some region ->
  fetch_document P (Aqhi.AQHI_FORECAST_URL (str P zone) (str P region))
                 (fun content => Ok (decode_latin1 P content)) = Ok tree ->
  ECData.update_aqhi_forecasts P s = (s', Ok tt) ->
  forecasts_of tree (ECData.aqhi s') /\ same_but "forecasts" (ECData.aqhi s) (ECData.aqhi s').
Proof.
  intros Hz Hr Hdoc Hrun. unfold fetch_document in Hdoc.
  unfold ECData.update_aqhi_forecasts in Hrun.
  unfold bind at 1 in Hrun. unfold gets at 1 in Hrun. cbn [fst snd] in Hrun.
  unfold bind at 1 in Hrun. unfold lift at 1, ECData.index at 1 in Hrun. rewrite Hz in Hrun.
  unfold bind at 1 in Hrun. unfold lift at 1, ECData.index at 1 in Hrun. rewrite Hr in Hrun.
  unfold bind at 1 in Hrun. unfold ECData.http_get at 1 in Hrun.
  destruct (requests_get P _) as [content|]; [|discriminate]. cbn [rbind] in Hdoc.
  unfold bind at 1 in Hrun. unfold lift at 1 in Hrun. rewrite Hdoc in Hrun.
  unfold bind at 1 in Hrun. unfold gets at 1 in Hrun. cbn [fst snd] in Hrun.
  apply (store_forecasts_replaces ECData.aqhi ECData.over_aqhi) in Hrun; [|reflexivity].
  exact Hrun.
Qed.

Lemma weather_air_forecast_replaces_series_witness :
  forecasts_of short_forecast
               (ECData.aqhi (fst (ECData.update_aqhi_forecasts ottawa_air_web ottawa))) /\
  same_but "forecasts" (ECData.aqhi ottawa)
           (ECData.aqhi (fst (ECData.update_aqhi_forecasts ottawa_air_web ottawa))).
Proof.
  apply (weather_air_forecast_replaces_series ottawa_air_web ottawa _
           (VStr "ont") (VStr "FCWYG") short_forecast).
  - reflexivity.
  - reflexivity.
  - reflexivity.
  - assert (H : snd (ECData.update_aqhi_forecasts ottawa_air_web ottawa) = Ok tt)
      by (vm_compute; reflexivity).
    destruct (ECData.update_aqhi_forecasts ottawa_air_web ottawa) as [s' r].
    cbn [snd] in H. rewrite H. reflexivity.
Defined.

Lemma text_condition_value (xml_object element : ET.Element) (path : list ET.step) :
  ET.find path xml_object = Some element ->
  getitem (ECData.get_condition xml_object path None) "value"
  = Ok (opt_value (ET.text element)).
Proof.
  intros H. unfold ECData.get_condition, getitem. rewrite H.
  destruct (ET.attrib element !! "units") as [[|c u]|].
  - rewrite lookup_singleton_eq. reflexivity.
  - rewrite lookup_insert_ne by discriminate. rewrite lookup_singleton_eq. reflexivity.
  - rewrite lookup_singleton_eq. reflexivity.
Qed.

(** X21: the text summary of [update] does not tolerate a missing
    forecast.  Without a [period] or a [textSummary] element under the
    first forecast it raises [KeyError]; with both elements but without
    the name of the period or the text of the summary it raises
    [TypeError]; in each case no condition has been touched.  With both
    texts it stores them, joined by a period and a space, under
    [text_summary] with the label of the language. *)
Theorem text_summary_cases (xml_object : ET.Element) (s : ECData.t) (lbl : string) :
  ECData.by_language (ECData.language s) "Forecast" "Prévision" = Ok lbl ->
  match ET.find (ECData.fc [ET.Child "period"]) xml_object,
        ET.find (ECData.fc [ET.Child "textSummary"]) xml_object with
  | Some period, Some summary =>
      match ET.attrib period !! "textForecastName", ET.text summary with
      | Some name, Some text =>
          ECData.update_text_summary xml_object s =
            (ECData.over_conditions
               (insert "text_summary"
                  {[ "label" := VStr lbl; "value" := VStr (name ++ ". " ++ text)%string ]}) s,
             Ok tt)
      | _, _ => ECData.update_text_summary xml_object s = (s, Raise TypeError)
      end
  | _, _ => ECData.update_text_summary xml_object s = (s, Raise KeyError)
  end.
Proof.
  intros Hlbl. unfold ECData.update_text_summary.
  destruct (ET.find (ECData.fc [ET.Child "period"]) xml_object) as [period|] eqn:Hp.
  - assert (Hpv : getitem (ECData.get_condition xml_object (ECData.fc [ET.Child "period"])
                                                (Some "textForecastName")) "value"
                  = Ok (opt_value (ET.attrib period !! "textForecastName"))).
    { unfold ECData.get_condition, getitem. rewrite Hp, lookup_singleton_eq. reflexivity. }
    destruct (ET.find (ECData.fc [ET.Child "textSummary"]) xml_object) as [summary|] eqn:Hs.
    + pose proof (text_condition_value xml_object summary _ Hs) as Hsv.
      unfold bind, lift, gets, modify. rewrite Hpv, Hsv. cbn [fst snd]. rewrite Hlbl.
      destruct (ET.attrib period !! "textForecastName") as [name|];
        destruct (ET.text summary) as [text|]; reflexivity.
    + unfold bind, lift, gets, modify. rewrite Hpv. cbn [fst snd].
      unfold ECData.get_condition at 1. rewrite Hs. reflexivity.
  - unfold bind, lift, gets, modify.
    unfold ECData.get_condition at 1. rewrite Hp. cbn [fst snd getitem].
    destruct (ET.find (ECData.fc [ET.Child "textSummary"]) xml_object); reflexivity.
Qed.

Lemma text_summary_cases_witness :
  ECData.update_text_summary bare_observation ottawa = (ottawa, Raise KeyError).
Proof.
  exact (text_summary_cases bare_observation ottawa "Forecast" eq_refl).
Defined.

(** X22: the metadata of [update] need all three of their elements.  The
    loop returns only when the document has the time stamp, the location
    name and the station of the current conditions, and then each key
    holds the text of its element; when one of the elements is missing it
    raises [AttributeError]. *)
Theorem metadata_needs_every_element (xml_object : ET.Element) (s : ECData.t) :
  match ECData.update_metadata xml_object s with
  | (s', Ok _) =>
      forall m path,
        In (m, path) ECData.metadata_meta ->
        exists element,
          ET.find path xml_object = Some element /\
          ECData.metadata s' !! m = Some (opt_value (ET.text element))
  | (_, Raise e) =>
      e = AttributeError /\
      exists m path, In (m, path) ECData.metadata_meta /\ ET.find path xml_object = None
  end.
Proof.
  unfold ECData.update_metadata, ECData.metadata_meta.
  cbn [for_each]. unfold bind, modify, raise, ret.
  destruct (ET.find [ET.Child "currentConditions"; ET.Child "dateTime"; ET.Child "timeStamp"]
                    xml_object) as [e1|] eqn:H1; cbn [fst snd].
  - destruct (ET.find [ET.Child "location"; ET.Child "name"] xml_object) as [e2|] eqn:H2;
      cbn [fst snd].
    + destruct (ET.find (ECData.cc "station") xml_object) as [e3|] eqn:H3; cbn [fst snd].
      * intros m path Hin. cbn [In] in Hin.
        destruct Hin as [H|[H|[H|[]]]]; injection H as <- <-;
          [exists e1|exists e2|exists e3]; (split; [assumption|]);
          cbn [ECData.metadata ECData.over_metadata];
          rewrite ?lookup_insert_ne by discriminate; apply lookup_insert_eq.
      * split; [reflexivity|]. exists "station", (ECData.cc "station").
        split; [right; right; left; reflexivity|exact H3].
    + split; [reflexivity|]. exists "location", [ET.Child "location"; ET.Child "name"].
      split; [right; left; reflexivity|exact H2].
  - split; [reflexivity|].
    exists "timestamp", [ET.Child "currentConditions"; ET.Child "dateTime"; ET.Child "timeStamp"].
    split; [left; reflexivity|exact H1].
Qed.

Lemma weather_same_requests_refl (s : ECData.t) : weather_same_requests s s.
Proof. reflexivity. Qed.

Lemma weather_same_requests_trans (s1 s2 s3 : ECData.t) :
  weather_same_requests s1 s2 -> weather_same_requests s2 s3 -> weather_same_requests s1 s3.
Proof. unfold weather_same_requests. congruence. Qed.

Lemma classify_same_requests (P : Prims) (alert_html : string) (titles : list string) :
  related weather_same_requests (for_each titles (ECData.classify P alert_html)).
Proof.
  pose proof weather_same_requests_refl as Hr. pose proof weather_same_requests_trans as Ht.
  unfold ECData.classify. frame; reflexivity.
Qed.

(** X23: when a station document has warning events, the alert part of
    [update] makes exactly one request, for the page the [warnings]
    element points to, however many events and categories there are; and
    when that request fails, the exception reaches the caller with all
    five categories already emptied. *)
Theorem alert_page_requested_once (P : Prims) (xml_object warnings : ET.Element)
    (s : ECData.t) (title url : string) (titles : list string) :
  ECData.language s = "english" \/ ECData.language s = "french" ->
  alert_titles P xml_object = Ok (title :: titles) ->
  ET.find [ET.Child "warnings"] xml_object = Some warnings ->
  ET.attrib warnings !! "url" = Some url ->
  ECData.requested (fst (ECData.update_alerts P xml_object s)) = url :: ECData.requested s /\
  (forall e, requests_get P url = Raise e ->
             snd (ECData.update_alerts P xml_object s) = Raise e /\
             no_alerts (fst (ECData.update_alerts P xml_object s))).
Proof.
  intros Hlang Htitles Hw Hurl. unfold alert_titles in Htitles.
  destruct (reset_alerts_spec s Hlang) as (s0 & Hreset & Hreq & Hempty).
  assert (E : ECData.update_alerts P xml_object s =
              (let* alert_html := ECData.http_get P url in
               for_each (title :: titles) (ECData.classify P alert_html)) s0).
  { unfold ECData.update_alerts. unfold bind at 1. rewrite Hreset.
    unfold bind at 1. unfold lift at 1. rewrite Htitles.
    unfold bind at 1. unfold lift at 1. rewrite Hw. rewrite Hurl. reflexivity. }
  rewrite E. clear E. unfold bind, ECData.http_get.
  destruct (requests_get P url) as [alert_html|e0].
  - split; [|intros e He; discriminate He].
    rewrite (classify_same_requests P alert_html (title :: titles)
               (ECData.log_request url s0)).
    cbn [ECData.requested ECData.log_request]. rewrite Hreq. reflexivity.
  - cbn [fst snd ECData.requested ECData.log_request]. rewrite Hreq.
    split; [reflexivity|]. intros e [= <-]. split; [reflexivity|].
    intros category meta Hin. eexists. apply (Hempty category meta Hin).
Qed.

Lemma alert_page_requested_once_witness :
  ECData.requested (fst (ECData.update_alerts ottawa_web ottawa_xml ottawa_with_alert)) =
    "https://weather.gc.ca/warnings/report_e.html?on41" :: ECData.requested ottawa_with_alert /\
  (forall e, requests_get ottawa_web "https://weather.gc.ca/warnings/report_e.html?on41"
             = Raise e ->
             snd (ECData.update_alerts ottawa_web ottawa_xml ottawa_with_alert) = Raise e /\
             no_alerts (fst (ECData.update_alerts ottawa_web ottawa_xml ottawa_with_alert))).
Proof.
  apply (alert_page_requested_once ottawa_web ottawa_xml
           (el "warnings" [("url", "https://weather.gc.ca/warnings/report_e.html?on41")] None
              [ el "event" [("type", "warning"); ("description", "SNOWFALL WARNING ")] None [] ])
           ottawa_with_alert "SNOWFALL WARNING" "https://weather.gc.ca/warnings/report_e.html?on41"
           []).
  - left. reflexivity.
  - vm_compute. reflexivity.
  - vm_compute. reflexivity.
  - vm_compute. reflexivity.
Defined.

Lemma update_alerts_requests (P : Prims) (xml_object : ET.Element) (s : ECData.t) :
  at_most_one_more (ECData.requested s)
                   (ECData.requested (fst (ECData.update_alerts P xml_object s))).
Proof.
  pose proof weather_same_requests_refl as Hr. pose proof weather_same_requests_trans as Ht.
  assert (Hreset : related weather_same_requests ECData.reset_alerts).
  { unfold ECData.reset_alerts. frame; reflexivity. }
  unfold ECData.update_alerts. unfold bind at 1. specialize (Hreset s).
  destruct (ECData.reset_alerts s) as [s0 [[]|e]]; cbn [fst] in *;
    [|left; exact Hreset].
  unfold weather_same_requests in Hreset. rewrite <- Hreset.
  unfold bind at 1. unfold lift at 1.
  destruct (rmap _ _) as [[|title titles]|e]; [left; reflexivity| |left; reflexivity].
  unfold bind at 1. unfold lift at 1.
  destruct (ET.find [ET.Child "warnings"] xml_object) as [w|]; [|left; reflexivity].
  unfold bind at 1.
  destruct (ET.attrib w !! "url") as [url|]; [|left; reflexivity].
  unfold ECData.http_get at 1. right. exists url.
  destruct (requests_get P url) as [alert_html|e]; [|reflexivity].
  rewrite (classify_same_requests P alert_html (title :: titles) (ECData.log_request url s0)).
  reflexivity.
Qed.

Lemma station_document_requests (P : Prims) (xml_object : ET.Element) (s : ECData.t) :
  at_most_one_more
    (ECData.requested s)
    (ECData.requested
       (fst ((do* ECData.update_metadata xml_object in
              do* ECData.update_conditions xml_object in
              do* ECData.update_text_summary xml_object in
              do* ECData.update_alerts P xml_object in
              ECData.update_forecasts xml_object) s))).
Proof.
  pose proof weather_same_requests_refl as Hr. pose proof weather_same_requests_trans as Ht.
  assert (H1 : related weather_same_requests (ECData.update_metadata xml_object)).
  { unfold ECData.update_metadata. frame; reflexivity. }
  assert (H2 : related weather_same_requests (ECData.update_conditions xml_object)).
  { unfold ECData.update_conditions. frame; reflexivity. }
  assert (H3 : related weather_same_requests (ECData.update_text_summary xml_object)).
  { unfold ECData.update_text_summary. frame; reflexivity. }
  assert (H4 : related weather_same_requests (ECData.update_forecasts xml_object)).
  { unfold ECData.update_forecasts. frame; reflexivity. }
  unfold bind at 1. specialize (H1 s).
  destruct (ECData.update_metadata xml_object s) as [s1 [[]|e]]; cbn [fst] in *;
    [|left; exact H1].
  unfold bind at 1. specialize (H2 s1).
  destruct (ECData.update_conditions xml_object s1) as [s2 [[]|e]]; cbn [fst] in *;
    [|left; unfold weather_same_requests in *; congruence].
  unfold bind at 1. specialize (H3 s2).
  destruct (ECData.update_text_summary xml_object s2) as [s3 [[]|e]]; cbn [fst] in *;
    [|left; unfold weather_same_requests in *; congruence].
  assert (E : ECData.requested s3 = ECData.requested s)
    by (unfold weather_same_requests in *; congruence).
  rewrite <- E. unfold bind at 1.
  pose proof (update_alerts_requests P xml_object s3) as Ha.
  destruct (ECData.update_alerts P xml_object s3) as [s4 [[]|e]]; cbn [fst] in *;
    [|exact Ha].
  rewrite (H4 s4). exact Ha.
Qed.

Lemma weather_observation_requests (P : Prims) (s s' : ECData.t) :
  ECData.update_aqhi_observation P s = (s', Ok tt) ->
  exists zone region,
    ECData.aqhi_id s !! 0%nat = Some zone /\ ECData.aqhi_id s !! 1%nat = Some region /\
    ECData.requested s' =
      Aqhi.AQHI_OBSERVATION_URL (str P zone) (str P region) :: ECData.requested s.
Proof.
  unfold ECData.update_aqhi_observation. intros Hrun.
  unfold bind at 1 in Hrun. unfold gets at 1 in Hrun. cbn [fst snd] in Hrun.
  unfold bind at 1 in Hrun. unfold lift at 1, ECData.index at 1 in Hrun.
  destruct (ECData.aqhi_id s !! 0%nat) as [zone|]; [|discriminate].
  unfold bind at 1 in Hrun. unfold lift at 1, ECData.index at 1 in Hrun.
  destruct (ECData.aqhi_id s !! 1%nat) as [region|]; [|discriminate].
  exists zone, region. split; [reflexivity|]. split; [reflexivity|].
  unfold bind at 1 in Hrun. unfold ECData.http_get at 1 in Hrun.
  destruct (requests_get P _) as [content|]; [|discriminate].
  match type of Hrun with ?m ?s0 = _ =>
    assert (H : related weather_same_requests m) end.
  { pose proof weather_same_requests_refl as Hr.
    pose proof weather_same_requests_trans as Ht. frame; reflexivity. }
  specialize (H (ECData.log_request
                   (Aqhi.AQHI_OBSERVATION_URL (str P zone) (str P region)) s)).
  rewrite Hrun in H. exact H.
Qed.

Lemma weather_forecast_requests (P : Prims) (s s' : ECData.t) :
  ECData.update_aqhi_forecasts P s = (s', Ok tt) ->
  exists zone region,
    ECData.aqhi_id s !! 0%nat = Some zone /\ ECData.aqhi_id s !! 1%nat = Some region /\
    ECData.requested s' =
      Aqhi.AQHI_FORECAST_URL (str P zone) (str P region) :: ECData.requested s.
Proof.
  unfold ECData.update_aqhi_forecasts. intros Hrun.
  unfold bind at 1 in Hrun. unfold gets at 1 in Hrun. cbn [fst snd] in Hrun.
  unfold bind at 1 in Hrun. unfold lift at 1, ECData.index at 1 in Hrun.
  destruct (ECData.aqhi_id s !! 0%nat) as [zone|]; [|discriminate].
  unfold bind at 1 in Hrun. unfold lift at 1, ECData.index at 1 in Hrun.
  destruct (ECData.aqhi_id s !! 1%nat) as [region|]; [|discriminate].
  exists zone, region. split; [reflexivity|]. split; [reflexivity|].
  unfold bind at 1 in Hrun. unfold ECData.http_get at 1 in Hrun.
  destruct (requests_get P _) as [content|]; [|discriminate].
  match type of Hrun with ?m ?s0 = _ =>
    assert (H : related weather_same_requests m) end.
  { pose proof weather_same_requests_refl as Hr.
    pose proof weather_same_requests_trans as Ht.
    frame; try (apply related_store_forecasts; try assumption; intros); reflexivity. }
  specialize (H (ECData.log_request
                   (Aqhi.AQHI_FORECAST_URL (str P zone) (str P region)) s)).
  rewrite Hrun in H. exact H.
Qed.

(** X24: a successful [update] makes its requests in a fixed order: the
    station document, then the alert page if the document has warning
    events, then the air quality observation and the air quality
    forecast of the region of the object: three requests, or four with
    alerts, and nothing else. *)
Theorem update_request_sequence (P : Prims) (s s' : ECData.t) :
  ECData.update_body P s = (s', Ok tt) ->
  exists c l zone region alert_page,
    ECData.language s = String c l /\
    ECData.aqhi_id s !! 0%nat = Some zone /\ ECData.aqhi_id s !! 1%nat = Some region /\
    (alert_page = [] \/ exists url, alert_page = [url]) /\
    ECData.requested s' =
      Aqhi.AQHI_FORECAST_URL (str P zone) (str P region)
        :: Aqhi.AQHI_OBSERVATION_URL (str P zone) (str P region)
        :: alert_page ++ ECData.XML_URL_BASE (ECData.station_id s) (String c EmptyString)
        :: ECData.requested s.
Proof.
  unfold ECData.update_body. intros Hrun.
  unfold bind at 1 in Hrun.
  destruct (ECData.update_station P s) as [s1 [[]|]] eqn:Hstation; [|discriminate].
  unfold bind at 1 in Hrun.
  destruct (ECData.update_aqhi_observation P s1) as [s2 [[]|]] eqn:Hobs; [|discriminate].
  pose proof (update_station_frame P s) as (_ & Hid1 & _ & _).
  rewrite Hstation in Hid1. cbn [fst] in Hid1.
  pose proof (update_aqhi_observation_frame P s1) as (_ & Hid2).
  rewrite Hobs in Hid2. cbn [fst] in Hid2.
  destruct (weather_observation_requests P s1 s2 Hobs) as (zone & region & Hz & Hr & Hreq2).
  destruct (weather_forecast_requests P s2 s' Hrun) as (zone' & region' & Hz' & Hr' & Hreq3).
  rewrite Hid2, Hz in Hz'. rewrite Hid2, Hr in Hr'. injection Hz' as <-. injection Hr' as <-.
  rewrite Hid1 in Hz, Hr.
  unfold ECData.update_station in Hstation.
  unfold bind at 1 in Hstation. unfold gets at 1 in Hstation. cbn [fst snd] in Hstation.
  unfold bind at 1 in Hstation. unfold gets at 1 in Hstation. cbn [fst snd] in Hstation.
  unfold bind at 1 in Hstation. unfold lift at 1 in Hstation.
  destruct (ECData.language s) as [|c l]; [discriminate|].
  unfold bind at 1 in Hstation. unfold ECData.http_get at 1 in Hstation.
  destruct (requests_get P _) as [content|]; [|discriminate].
  unfold bind at 1 in Hstation. unfold lift at 1 in Hstation.
  destruct (et_fromstring P _) as [xml_object|]; [|discriminate].
  pose proof (station_document_requests P xml_object
                (ECData.log_request
                   (ECData.XML_URL_BASE (ECData.station_id s) (String c EmptyString)) s)) as H.
  rewrite Hstation in H. cbn [fst ECData.requested ECData.log_request] in H.
  exists c, l, zone, region.
  destruct H as [H|[url H]].
  - exists []. repeat split; try assumption; [left; reflexivity|].
    rewrite Hreq3, Hreq2, H. reflexivity.
  - exists [url]. repeat split; try assumption; [right; exists url; reflexivity|].
    rewrite Hreq3, Hreq2, H. reflexivity.
Qed.

Lemma update_request_sequence_witness :
  exists c l zone region alert_page,
    ECData.language ottawa = String c l /\
    ECData.aqhi_id ottawa !! 0%nat = Some zone /\ ECData.aqhi_id ottawa !! 1%nat = Some region /\
    (alert_page = [] \/ exists url, alert_page = [url]) /\
    ECData.requested (fst (ECData.update_body ottawa_full_web ottawa)) =
      Aqhi.AQHI_FORECAST_URL (str ottawa_full_web zone) (str ottawa_full_web region)
        :: Aqhi.AQHI_OBSERVATION_URL (str ottawa_full_web zone) (str ottawa_full_web region)
        :: alert_page ++ ECData.XML_URL_BASE (ECData.station_id ottawa) (String c EmptyString)
        :: ECData.requested ottawa.
Proof.
  apply (update_request_sequence ottawa_full_web ottawa).
  assert (H : snd (ECData.update_body ottawa_full_web ottawa) = Ok tt)
    by (vm_compute; reflexivity).
  destruct (ECData.update_body ottawa_full_web ottawa) as [s' r].
  cbn [snd] in H. rewrite H. reflexivity.
Defined.

Lemma weather_closest_aqhi_raises (P : Prims) (self : ECData.t) (lat lon : pyfloat) :
  exists e, ECData.closest_aqhi P self lat lon = Raise e.
Proof.
  unfold ECData.closest_aqhi, Aqhi.closest_aqhi.
  destruct (Aqhi.get_aqhi_regions P ECData.getchildren _ _) as [catalog|e] eqn:Hload.
  - apply getchildren_catalog_empty in Hload. subst catalog. exists ValueError. reflexivity.
  - exists e. reflexivity.
Qed.

(** X25: a weather object cannot be constructed without an air quality
    identifier.  [ECData.get_aqhi_regions] reads the children of a region
    with [region.getchildren()], which [xml.etree.ElementTree] no longer
    has: on a list of regions whose first zone and first region have all
    their attributes it raises [AttributeError], so [ECData.closest_aqhi]
    raises on every input, and a construction without an air quality
    identifier, or with an empty one, ends in an exception before
    [update] is called: the counters of the limiter are as they were and
    nothing but the two catalogs has been requested. *)
Theorem weather_init_needs_air_quality_identifier (P : Prims) :
  (forall self tree zone zones region regions,
      fetch_document P Aqhi.AQHI_SITE_LIST_URL (decode_utf8 P) = Ok tree ->
      ET.findall [ET.Child "EC_administrativeZone"] tree = zone :: zones ->
      zone_named (ECData.zone_name_tag self) zone ->
      regions_of zone = region :: regions ->
      region_loads P (ECData.region_name_tag self) region ->
      ECData.get_aqhi_regions P self = Raise AttributeError) /\
  (forall self lat lon, exists e, ECData.closest_aqhi P self lat lon = Raise e) /\
  (forall station_id aqhi_id coordinates language now s,
      aqhi_id = None \/ aqhi_id = Some EmptyString ->
      exists s' e,
        ECData.__init__ P station_id aqhi_id coordinates language now s = (s', Raise e) /\
        ECData.num_calls s' = ECData.num_calls s /\
        ECData.last_reset s' = ECData.last_reset s /\
        exists urls,
          ECData.requested s' = urls ++ ECData.requested s /\
          Forall (fun url => url = ECData.SITE_LIST_URL \/ url = Aqhi.AQHI_SITE_LIST_URL)
                 urls).
Proof.
  split; [|split].
  - intros self tree zone zones region regions Hdoc Hzones [[a Ha] [n Hn]] Hregions
      (name & cgndb & la & lo & lat & lon & Hname & Hcgndb & Hla & Hlat & Hlo & Hlon).
    unfold fetch_document in Hdoc.
    unfold ECData.get_aqhi_regions, Aqhi.get_aqhi_regions.
    destruct (requests_get P _) as [content|]; [|discriminate]. cbn [rbind] in Hdoc |- *.
    destruct (decode_utf8 P content) as [text|]; [|discriminate]. cbn [rbind] in Hdoc |- *.
    rewrite Hdoc. cbn [rbind]. rewrite Hzones. cbn [rmap].
    unfold Aqhi.parse_zone at 1, getitem. rewrite Ha. cbn [rbind]. rewrite Hn. cbn [rbind].
    unfold regions_of in Hregions. rewrite Hregions. cbn [rmap].
    unfold Aqhi.parse_region at 1, getitem, float, ECData.getchildren.
    rewrite Hname. cbn [rbind]. rewrite Hcgndb. cbn [rbind]. rewrite Hla. cbn [rbind].
    rewrite Hlat. cbn [rbind]. rewrite Hlo. cbn [rbind]. rewrite Hlon. reflexivity.
  - apply weather_closest_aqhi_raises.
  - intros station_id aqhi_id coordinates language now s Hid.
    assert (Haqhi : forall s0 : ECData.t,
               exists s' e,
                 (match aqhi_id with
                  | Some (String c id) =>
                      modify (ECData.set_aqhi_id (map VStr (split "/" (String c id))))
                  | _ =>
                      let* xy := lift (ECData.coordinate_pair coordinates) in
                      do* modify (ECData.log_request Aqhi.AQHI_SITE_LIST_URL) in
                      let* self := gets (fun s => s) in
                      let* id := lift (ECData.closest_aqhi P self (fst xy) (snd xy)) in
                      modify (ECData.set_aqhi_id [fst id; snd id])
                  end) s0 = (s', Raise e) /\
                 ECData.num_calls s' = ECData.num_calls s0 /\
                 ECData.last_reset s' = ECData.last_reset s0 /\
                 exists urls,
                   ECData.requested s' = urls ++ ECData.requested s0 /\
                   Forall (fun url => url = ECData.SITE_LIST_URL \/
                                      url = Aqhi.AQHI_SITE_LIST_URL) urls).
    { intros s0.
      assert (E : (match aqhi_id with
                   | Some (String c id) =>
                       modify (ECData.set_aqhi_id (map VStr (split "/" (String c id))))
                   | _ =>
                       let* xy := lift (ECData.coordinate_pair coordinates) in
                       do* modify (ECData.log_request Aqhi.AQHI_SITE_LIST_URL) in
                       let* self := gets (fun s => s) in
                       let* id := lift (ECData.closest_aqhi P self (fst xy) (snd xy)) in
                       modify (ECData.set_aqhi_id [fst id; snd id])
                   end) =
                  (let* xy := lift (ECData.coordinate_pair coordinates) in
                   do* modify (ECData.log_request Aqhi.AQHI_SITE_LIST_URL) in
                   let* self := gets (fun s => s) in
                   let* id := lift (ECData.closest_aqhi P self (fst xy) (snd xy)) in
                   modify (ECData.set_aqhi_id [fst id; snd id])))
        by (destruct Hid as [-> | ->]; reflexivity).
      rewrite E. clear E. unfold bind, lift, modify, gets. cbn [fst snd].
      destruct coordinates as [[lat lon]|]; cbn [ECData.coordinate_pair fst snd].
      - destruct (weather_closest_aqhi_raises P
                    (ECData.log_request Aqhi.AQHI_SITE_LIST_URL s0) lat lon) as [e He].
        rewrite He. eexists _, e. split; [reflexivity|].
        split; [reflexivity|]. split; [reflexivity|].
        exists [Aqhi.AQHI_SITE_LIST_URL]. split; [reflexivity|].
        constructor; [right; reflexivity|constructor].
      - eexists _, TypeError. split; [reflexivity|].
        split; [reflexivity|]. split; [reflexivity|].
        exists []. split; [reflexivity|constructor]. }
    unfold ECData.__init__.
    unfold bind at 1. unfold modify at 1. cbn [fst snd].
    match goal with |- context[bind ?station_part _ ?s1] =>
      set (s0 := s1); set (station := station_part) end.
    assert (Hstation :
              (exists e, station s0 = (s0, Raise e)) \/
              (exists e, station s0 = (ECData.log_request ECData.SITE_LIST_URL s0, Raise e)) \/
              (exists s1, station s0 = (s1, Ok tt) /\
                          ECData.num_calls s1 = ECData.num_calls s0 /\
                          ECData.last_reset s1 = ECData.last_reset s0 /\
                          exists urls,
                            ECData.requested s1 = urls ++ ECData.requested s0 /\
                            Forall (fun url => url = ECData.SITE_LIST_URL \/
                                               url = Aqhi.AQHI_SITE_LIST_URL) urls)).
    { subst station. destruct station_id as [[|c id]|].
      - unfold bind, lift, modify. cbn [fst snd].
        destruct coordinates as [[lat lon]|]; cbn [ECData.coordinate_pair fst snd].
        + destruct (ECData.closest_site P lat lon) as [id|e].
          * right. right. eexists. split; [reflexivity|].
            split; [reflexivity|]. split; [reflexivity|].
            exists [ECData.SITE_LIST_URL]. split; [reflexivity|].
            constructor; [left; reflexivity|constructor].
          * right. left. exists e. reflexivity.
        + left. exists TypeError. reflexivity.
      - right. right. eexists. split; [reflexivity|].
        split; [reflexivity|]. split; [reflexivity|].
        exists []. split; [reflexivity|constructor].
      - unfold bind, lift, modify. cbn [fst snd].
        destruct coordinates as [[lat lon]|]; cbn [ECData.coordinate_pair fst snd].
        + destruct (ECData.closest_site P lat lon) as [id|e].
          * right. right. eexists. split; [reflexivity|].
            split; [reflexivity|]. split; [reflexivity|].
            exists [ECData.SITE_LIST_URL]. split; [reflexivity|].
            constructor; [left; reflexivity|constructor].
          * right. left. exists e. reflexivity.
        + left. exists TypeError. reflexivity. }
    assert (Hs0 : ECData.num_calls s0 = ECData.num_calls s /\
                  ECData.last_reset s0 = ECData.last_reset s /\
                  ECData.requested s0 = ECData.requested s) by (repeat split).
    destruct Hs0 as (Hn0 & Hl0 & Hr0).
    unfold bind at 1.
    destruct Hstation as [[e He]|[[e He]|(s1 & He & Hn1 & Hl1 & urls1 & Hr1 & Hu1)]];
      rewrite He.
    + exists s0, e. split; [reflexivity|]. split; [exact Hn0|]. split; [exact Hl0|].
      exists []. split; [exact Hr0|constructor].
    + eexists _, e. split; [reflexivity|]. split; [exact Hn0|]. split; [exact Hl0|].
      exists [ECData.SITE_LIST_URL]. split; [cbn; rewrite <- Hr0; reflexivity|].
      constructor; [left; reflexivity|constructor].
    + unfold bind at 1.
      destruct (Haqhi s1) as (s2 & e & Hrun & Hn2 & Hl2 & urls2 & Hr2 & Hu2).
      rewrite Hrun. exists s2, e. split; [reflexivity|].
      split; [congruence|]. split; [congruence|].
      exists (urls2 ++ urls1). split.
      * rewrite Hr2, Hr1, Hr0. apply app_assoc.
      * apply Forall_app. split; assumption.
Qed.

Lemma weather_init_needs_air_quality_identifier_witness :
  ECData.get_aqhi_regions ottawa_discovery_web new_weather_english = Raise AttributeError.
Proof.
  refine (proj1 (weather_init_needs_air_quality_identifier ottawa_discovery_web)
            new_weather_english ontario_regions _ _ _ _ _ _ _ _ _).
  - reflexivity.
  - reflexivity.
  - split; eexists; reflexivity.
  - reflexivity.
  - exists "Ottawa", "FCWYG", "45.4", "-75.7", (454 # 10)%Q, (-757 # 10)%Q.
    repeat split; vm_compute; reflexivity.
Defined.

(** The construction of a weather object for Ottawa from coordinates
    alone, on a web that serves both catalogs, ends in [AttributeError]
    after the two catalogs have been requested. *)
Example weather_init_by_coordinates_fails :
  exists s',
    ECData.__init__ ottawa_discovery_web None None (Some (Finite 45, Finite (-75))) "english" 0
                    new_weather = (s', Raise AttributeError) /\
    ECData.requested s' = [Aqhi.AQHI_SITE_LIST_URL; ECData.SITE_LIST_URL].
Proof. eexists. split; vm_compute; reflexivity. Qed.

(** ** ec_cache.py *)

Lemma insert_sorted_Permutation (x : string * string) (l : list (string * string)) :
  Permutation (ECCache.insert_sorted x l) (x :: l).
Proof.
  induction l as [|y l IH]; [reflexivity|]. cbn [ECCache.insert_sorted].
  destruct (ECCache.item_ltb y x); [|reflexivity].
  rewrite IH. apply perm_swap.
Qed.

Lemma sorted_is_Permutation (l : list (string * string)) : Permutation (ECCache.sorted l) l.
Proof.
  induction l as [|x l IH]; [reflexivity|].
  change (ECCache.sorted (x :: l)) with (ECCache.insert_sorted x (ECCache.sorted l)).
  rewrite insert_sorted_Permutation, IH. reflexivity.
Qed.

(** X26: the cache key tells requests apart exactly by their URL and by
    the items of their parameters: two requests get the same key when,
    and only when, they have the same URL and the same items in some
    order.  A request never hits the entry of a request with other
    items. *)
Theorem cache_key_canonical (url1 url2 : string) (params1 params2 : ECCache.params_t) :
  cache_key url1 params1 = cache_key url2 params2 <->
  url1 = url2 /\ Permutation params1 params2.
Proof.
  unfold cache_key. split.
  - intros [= -> Hs]. split; [reflexivity|].
    rewrite <- (sorted_is_Permutation params1), <- (sorted_is_Permutation params2), Hs.
    reflexivity.
  - intros [-> Hp]. rewrite (sorted_Permutation _ _ Hp). reflexivity.
Qed.

(** X27: what a [get] leaves in the cache.  Every entry of the cache
    after the call either was in the cache before and has not expired at
    the time of the call, or is the entry the call has just stored for
    its own key, with the expiry the call computed and the response it
    returns; and every entry of another key that had not expired is still
    there, unchanged. *)
Theorem cache_holds_no_expired_entry
    (session_get : nat -> string -> ECCache.params_t -> result string)
    (s s' : ECCache.t) (now now' : Z) (url : string) (params : ECCache.params_t)
    (cache_time : Z) (r : result ECCache.response) :
  ECCache.get session_get now now' url params cache_time s = (s', r) ->
  (forall key expiry resp,
      ECCache._cache s' !! key = Some (expiry, resp) ->
      ((now <= expiry)%Z /\ ECCache._cache s !! key = Some (expiry, resp)) \/
      (key = cache_key url params /\ expiry = (now' + cache_time)%Z /\ r = Ok resp /\
       no_live_entry now s key)) /\
  (forall key expiry resp,
      key <> cache_key url params ->
      ECCache._cache s !! key = Some (expiry, resp) -> (now <= expiry)%Z ->
      ECCache._cache s' !! key = Some (expiry, resp)).
Proof.
  unfold ECCache.get, ECCache._flush_cache, bind, modify, gets, ret, cache_key. cbn [fst snd].
  cbn [ECCache._cache ECCache.upstream].
  set (flushed := filter (fun kv => ¬ (fst (snd kv) < now)%Z) (ECCache._cache s)).
  assert (Hin : forall key expiry resp,
             flushed !! key = Some (expiry, resp) ->
             (now <= expiry)%Z /\ ECCache._cache s !! key = Some (expiry, resp)).
  { intros key expiry resp H. apply map_lookup_filter_Some in H. cbn [fst snd] in H.
    destruct H as [H1 H2]. split; [lia|exact H1]. }
  assert (Hout : forall key expiry resp,
             ECCache._cache s !! key = Some (expiry, resp) -> (now <= expiry)%Z ->
             flushed !! key = Some (expiry, resp)).
  { intros key expiry resp H1 H2. apply map_lookup_filter_Some. cbn [fst snd].
    split; [exact H1|lia]. }
  destruct (flushed !! (url, ECCache.sorted params)) as [[e0 r0]|] eqn:Hl.
  - intros [= <- <-]. cbn [ECCache._cache]. split.
    + intros key expiry resp H. left. apply Hin. exact H.
    + intros key expiry resp _ H1 H2. apply Hout; assumption.
  - unfold ECCache.super_get. cbn [fst snd ECCache._cache ECCache.upstream].
    destruct (session_get _ url params) as [body|e].
    + intros [= <- <-]. cbn [ECCache._cache]. split.
      * intros key expiry resp H.
        destruct (decide (key = (url, ECCache.sorted params))) as [->|Hne].
        -- rewrite lookup_insert_eq in H. injection H as <- <-. right.
           repeat split. intros e1 r1 H1.
           destruct (Z.lt_ge_cases e1 now) as [Hlt|Hge]; [exact Hlt|].
           rewrite (Hout _ _ _ H1 Hge) in Hl. discriminate.
        -- rewrite lookup_insert_ne in H by congruence. left. apply Hin. exact H.
      * intros key expiry resp Hne H1 H2. rewrite lookup_insert_ne by congruence.
        apply Hout; assumption.
    + intros [= <- <-]. cbn [ECCache._cache]. split.
      * intros key expiry resp H. left. apply Hin. exact H.
      * intros key expiry resp _ H1 H2. apply Hout; assumption.
Qed.

Lemma cache_holds_no_expired_entry_witness :
  (forall key expiry resp,
      ECCache._cache after_first_get !! key = Some (expiry, resp) ->
      ((1000 <= expiry)%Z /\ ECCache._cache empty_cache !! key = Some (expiry, resp)) \/
      (key = cache_key "https://geo.weather.gc.ca/geomet" [("layers", "RADAR"); ("format", "png")] /\
       expiry = (1000 + ECCache.CACHE_EXPIRE_TIME)%Z /\
       Ok (ECCache.mk_response 0 "https://geo.weather.gc.ca/geomet") = Ok resp /\
       no_live_entry 1000 empty_cache key)) /\
  (forall key expiry resp,
      key <> cache_key "https://geo.weather.gc.ca/geomet" [("layers", "RADAR"); ("format", "png")] ->
      ECCache._cache empty_cache !! key = Some (expiry, resp) -> (1000 <= expiry)%Z ->
      ECCache._cache after_first_get !! key = Some (expiry, resp)).
Proof.
  apply (cache_holds_no_expired_entry echo_session empty_cache after_first_get 1000 1000
           "https://geo.weather.gc.ca/geomet" [("layers", "RADAR"); ("format", "png")]
           ECCache.CACHE_EXPIRE_TIME).
  reflexivity.
Defined.

(** X28: a failure of the session is not cached.  When the cache holds
    no valid entry for the request and the session raises, [get] raises
    the same exception, has called the session once, and leaves no entry
    under the key of the request: the next [get] of the same request
    calls the session again. *)
Theorem cache_failure_not_stored
    (session_get : nat -> string -> ECCache.params_t -> result string)
    (s : ECCache.t) (now now' : Z) (url : string) (params : ECCache.params_t)
    (cache_time : Z) (e : exn) :
  no_live_entry now s (cache_key url params) ->
  session_get (length (ECCache.upstream s)) url params = Raise e ->
  exists s',
    ECCache.get session_get now now' url params cache_time s = (s', Raise e) /\
    ECCache._cache s' !! cache_key url params = None /\
    ECCache.upstream s' = (url, params) :: ECCache.upstream s /\
    forall now2 now2' cache_time2 s2 r,
      ECCache.get session_get now2 now2' url params cache_time2 s' = (s2, r) ->
      ECCache.upstream s2 = (url, params) :: ECCache.upstream s'.
Proof.
  intros Hnone Hfail. unfold cache_key in *.
  unfold ECCache.get, ECCache._flush_cache, bind, modify, gets, ret. cbn [fst snd].
  cbn [ECCache._cache ECCache.upstream].
  assert (Hf : filter (fun kv => ¬ (fst (snd kv) < now)%Z) (ECCache._cache s)
                 !! (url, ECCache.sorted params) = None).
  { apply map_lookup_filter_None. right. intros x Hx. destruct x as [e0 r0].
    cbn [fst snd]. specialize (Hnone _ _ Hx). lia. }
  rewrite Hf. unfold ECCache.super_get. cbn [fst snd ECCache._cache ECCache.upstream].
  rewrite Hfail. eexists. split; [reflexivity|]. cbn [ECCache._cache ECCache.upstream].
  split; [exact Hf|]. split; [reflexivity|].
  intros now2 now2' ct2 s2 r.
  assert (Hf2 : filter (fun kv => ¬ (fst (snd kv) < now2)%Z)
                  (filter (fun kv => ¬ (fst (snd kv) < now)%Z) (ECCache._cache s))
                  !! (url, ECCache.sorted params) = None).
  { apply map_lookup_filter_None. left. exact Hf. }
  rewrite Hf2. cbn [fst snd ECCache._cache ECCache.upstream].
  destruct (session_get (length ((url, params) :: ECCache.upstream s)) url params);
    intros [= <- _]; reflexivity.
Qed.

Lemma cache_failure_not_stored_witness :
  exists s',
    ECCache.get failing_session 1000 1000 "https://geo.weather.gc.ca/geomet"
                [("layers", "RADAR")] ECCache.CACHE_EXPIRE_TIME empty_cache
      = (s', Raise RequestException) /\
    ECCache._cache s' !! cache_key "https://geo.weather.gc.ca/geomet" [("layers", "RADAR")]
      = None /\
    ECCache.upstream s' =
      ("https://geo.weather.gc.ca/geomet", [("layers", "RADAR")]) :: ECCache.upstream empty_cache /\
    forall now2 now2' cache_time2 s2 r,
      ECCache.get failing_session now2 now2' "https://geo.weather.gc.ca/geomet"
                  [("layers", "RADAR")] cache_time2 s' = (s2, r) ->
      ECCache.upstream s2 =
        ("https://geo.weather.gc.ca/geomet", [("layers", "RADAR")]) :: ECCache.upstream s'.
Proof.
  apply (cache_failure_not_stored failing_session empty_cache 1000 1000
           "https://geo.weather.gc.ca/geomet" [("layers", "RADAR")]
           ECCache.CACHE_EXPIRE_TIME RequestException).
  - intros expiry resp H. unfold empty_cache in H. cbn [ECCache._cache] in H.
    rewrite lookup_empty in H. discriminate H.
  - reflexivity.
Defined.
